(** * ArtellaUpdater: update resolution and environment provisioning

    A shallow embedding of [scripts/app.py] (class [ArtellaUpdater]) and the
    properties its specification states about it.

    Conventions.
    - Python 2 byte strings ([str]) are Rocq [string]s; file contents are
      strings as well.
    - A Python value that can come out of [json.load] is a [Py.pyval]; a
      [dict] with string keys is a [gmap string pyval].
    - A method that touches the disk is a function in the state-and-exception
      monad [Py.py filesystem]: it returns either a value or a raised
      exception, together with the disk it leaves behind.  A raised exception
      keeps the writes made before it.
    - Libraries that are not part of the repository ([json], [appdirs],
      [packaging.version], the archive readers, the web server) are fields of
      the record [environment]; every general lemma holds for all of them.
    - Failures of the operating system itself (permissions, full disk) are
      not modelled: [open], [os.makedirs] and [shutil.rmtree] succeed. *)

From stdpp Require Import gmap strings list fin_maps.
From Equations Require Import Equations.
From Stdlib Require Import ZArith Ascii.

Set Warnings "-register-all".

(** ** The Python run time *)

Module Py.

Inductive exn : Type :=
| TypeError
| AttributeError
| ValueError
| OSError
| IOError
| ZeroDivisionError
| URLError
| InvalidVersion
| RuntimeError
| PlatformError                (* raise Exception('No valid OS platform detected') *)
| Exception (cause : exn).     (* raise Exception(exc) *)

Inductive result (A : Type) : Type :=
| Ok (a : A)
| Raise (e : exn).
Arguments Ok {A} a.
Arguments Raise {A} e.

(** A computation over a mutable store [S]. *)
Definition py (S A : Type) : Type := S → result A * S.

Definition ret {S A} (a : A) : py S A := λ s, (Ok a, s).
Definition raise {S A} (e : exn) : py S A := λ s, (Raise e, s).
Definition bind {S A B} (m : py S A) (k : A → py S B) : py S B :=
  λ s, match m s with
       | (Ok a, s') => k a s'
       | (Raise e, s') => (Raise e, s')
       end.
Definition get {S} : py S S := λ s, (Ok s, s).
Definition modify {S} (f : S → S) : py S unit := λ s, (Ok tt, f s).
Definition lift {S A} (r : result A) : py S A := λ s, (r, s).

(** [try: m  except E: h] where [handled] recognises the class [E]. *)
Definition try_except {S A} (m : py S A) (handled : exn → bool)
    (h : exn → py S A) : py S A :=
  λ s, match m s with
       | (Raise e, s') => if handled e then h e s' else (Raise e, s')
       | r => r
       end.

(** [except Exception] catches everything that is modelled. *)
Definition any_exception (e : exn) : bool := true.
Definition is_InvalidVersion (e : exn) : bool :=
  match e with InvalidVersion => true | _ => false end.
Definition is_RuntimeError (e : exn) : bool :=
  match e with RuntimeError => true | _ => false end.

(** Values that [json.load] can produce (numbers are integers here). *)
Inductive pyval : Type :=
| PyNone
| PyBool (b : bool)
| PyInt (z : Z)
| PyStr (s : string)
| PyList (l : list pyval)
| PyDict (d : gmap string pyval).

(** Truth value of an object ([if x:], [not x]). *)
Definition truthy (v : pyval) : bool :=
  match v with
  | PyNone => false
  | PyBool b => b
  | PyInt z => negb (z =? 0)%Z
  | PyStr s => negb (String.eqb s "")
  | PyList l => match l with [] => false | _ => true end
  | PyDict d => negb (size d =? 0)%nat
  end.

(** [o.get(key, default)]: only a dict has the method. *)
Definition dict_get (o : pyval) (key : string) (dflt : pyval) : result pyval :=
  match o with
  | PyDict d => Ok (default dflt (d !! key))
  | _ => Raise AttributeError
  end.

(** [o[key] = value] with a string key: only a dict accepts it. *)
Definition setitem (o : pyval) (key : string) (value : pyval) : result pyval :=
  match o with
  | PyDict d => Ok (PyDict (<[key := value]> d))
  | _ => Raise TypeError
  end.

End Py.

Import Py.

Declare Scope py_scope.
Delimit Scope py_scope with py.
Notation "x <- m ;; k" := (bind m (λ x, k))
  (at level 100, m at next level, right associativity) : py_scope.
Notation "m ;;; k" := (bind m (λ _, k))
  (at level 100, right associativity) : py_scope.
Open Scope py_scope.

(** [for x in l: f(x)] *)
Fixpoint for_each {S A} (f : A → py S unit) (l : list A) : py S unit :=
  match l with
  | [] => ret tt
  | x :: rest => f x ;;; for_each f rest
  end.

(** ** The methods of [str] used by the updater *)

Module str.

Definition lower_char (c : ascii) : ascii :=
  let n := nat_of_ascii c in
  if (65 <=? n)%nat && (n <=? 90)%nat then ascii_of_nat (n + 32) else c.

(** [s.lower()] *)
Fixpoint lower (s : string) : string :=
  match s with
  | EmptyString => EmptyString
  | String c s' => String (lower_char c) (lower s')
  end.

(** [s.replace(c, '')] for a one-character [c] *)
Fixpoint remove_char (c : ascii) (s : string) : string :=
  match s with
  | EmptyString => EmptyString
  | String a s' =>
      if Ascii.eqb a c then remove_char c s' else String a (remove_char c s')
  end.

Definition startswith (s p : string) : bool := String.prefix p s.

Fixpoint endswith_char (s : string) (c : ascii) : bool :=
  match s with
  | EmptyString => false
  | String a EmptyString => Ascii.eqb a c
  | String _ s' => endswith_char s' c
  end.

(** [s.split(c)]: the fields between the occurrences of [c]; never empty. *)
Fixpoint split (c : ascii) (s : string) : list string :=
  match s with
  | EmptyString => [EmptyString]
  | String a s' =>
      if Ascii.eqb a c then EmptyString :: split c s'
      else match split c s' with
           | [] => [String a EmptyString]
           | w :: ws => String a w :: ws
           end
  end.

(** [s.lstrip(chars)], [s.rstrip(chars)] and [s.strip(chars)] for a
    character class. *)
Fixpoint lstrip (p : ascii → bool) (s : string) : string :=
  match s with
  | EmptyString => EmptyString
  | String a s' => if p a then lstrip p s' else s
  end.

Fixpoint rstrip (p : ascii → bool) (s : string) : string :=
  match s with
  | EmptyString => EmptyString
  | String a s' =>
      match rstrip p s' with
      | EmptyString => if p a then EmptyString else String a EmptyString
      | r => String a r
      end
  end.

Definition strip (s : string) : string :=
  rstrip Ascii.is_space (lstrip Ascii.is_space s).

Fixpoint all (p : ascii → bool) (s : string) : bool :=
  match s with
  | EmptyString => true
  | String a s' => p a && all p s'
  end.

Fixpoint decimal_from (acc : N) (s : string) : option N :=
  match s with
  | EmptyString => Some acc
  | String c s' =>
      d ← Ascii.is_nat c; decimal_from (acc * 10 + N.of_nat d)%N s'
  end.

(** The value of a non-empty run of decimal digits. *)
Definition decimal (s : string) : option N :=
  if String.eqb s "" then None else decimal_from 0 s.

(** [int(s)]: an optional sign and decimal digits, blanks around them
    ignored; [None] when it raises [ValueError]. *)
Definition int (s : string) : option Z :=
  match strip s with
  | String "-" digits => Z.opp <$> (Z.of_N <$> decimal digits)
  | String "+" digits => Z.of_N <$> decimal digits
  | digits => Z.of_N <$> decimal digits
  end.

End str.

(** ** [os.path], POSIX flavour ([posixpath]) *)

Module os_path.

Definition is_sep (c : ascii) : bool := Ascii.eqb c "/".

(** [os.path.join(a, b)] *)
Definition join (a b : string) : string :=
  if str.startswith b "/" then b
  else if String.eqb a "" || str.endswith_char a "/" then a +:+ b
  else a +:+ "/" +:+ b.

(** [initial_slashes] of [normpath]: POSIX keeps exactly two leading
    slashes and collapses three or more to one. *)
Definition initial_slashes (path : string) : nat :=
  if str.startswith path "/" then
    if str.startswith path "//" && negb (str.startswith path "///") then 2 else 1
  else 0.

(** One turn of the loop over [comps]; [new_comps] is kept with its last
    element first. *)
Definition norm_step (initial : nat) (new_comps : list string) (comp : string)
    : list string :=
  if String.eqb comp "" || String.eqb comp "." then new_comps
  else if negb (String.eqb comp "..")
       || ((initial =? 0)%nat && bool_decide (new_comps = []))
       || (match new_comps with top :: _ => String.eqb top ".." | [] => false end)
  then comp :: new_comps
  else match new_comps with
       | _ :: below => below
       | [] => []
       end.

Definition slashes (n : nat) : string :=
  Nat.iter n (String "/") EmptyString.

(** [os.path.normpath(path)] *)
Definition normpath (path : string) : string :=
  if String.eqb path "" then "."
  else
    let initial := initial_slashes path in
    let comps := reverse (fold_left (norm_step initial) (str.split "/" path) []) in
    let path' := slashes initial +:+ String.concat "/" comps in
    if String.eqb path' "" then "." else path'.

(** The part of [p] up to and including its last slash ([p[:i]] with
    [i = p.rfind('/') + 1]). *)
Fixpoint head_of (p : string) : string :=
  match p with
  | EmptyString => EmptyString
  | String a p' =>
      match head_of p' with
      | EmptyString => if is_sep a then String a EmptyString else EmptyString
      | h => String a h
      end
  end.

(** [os.path.dirname(p)] *)
Definition dirname (p : string) : string :=
  let head := head_of p in
  if negb (String.eqb head "") && negb (str.all is_sep head)
  then str.rstrip is_sep head else head.




End os_path.

(** ** The disk *)

(** Regular files with their contents, and directories. *)
Record filesystem : Type := {
  files : gmap string string;
  dirs : gset string;
}.

Module os.

Definition isfile (p : string) (fs : filesystem) : bool :=
  bool_decide (is_Some (files fs !! p)).
Definition isdir (p : string) (fs : filesystem) : bool :=
  bool_decide (p ∈ dirs fs).
Definition exists_ (p : string) (fs : filesystem) : bool :=
  isfile p fs || isdir p fs.

(** [os.makedirs(p)]: [p] becomes a directory.  The missing parents that
    Python creates on the way are not recorded: after it the directories of
    the model are among the real ones, not all of them. *)
Definition makedirs (p : string) : py filesystem unit :=
  modify (λ fs, {| files := files fs; dirs := {[p]} ∪ dirs fs |}).

(** [with open(p, 'w') as f: f.write(text)] *)
Definition write_file (p text : string) : py filesystem unit :=
  modify (λ fs, {| files := <[p := text]> (files fs); dirs := dirs fs |}).

(** [os.remove(p)]: a directory cannot be removed this way. *)
Definition remove (p : string) : py filesystem unit :=
  fs <- get ;;
  if isdir p fs then raise OSError
  else modify (λ fs, {| files := delete p (files fs); dirs := dirs fs |}).

(** [name in os.listdir(d)]: a directory lists the plain names of what it
    holds. *)
Definition plain_name (name : string) : bool :=
  negb (String.eqb name "") && negb (String.eqb name ".")
  && negb (String.eqb name "..") && str.all (λ c, negb (Ascii.eqb c "/")) name.
Definition listed (d name : string) (fs : filesystem) : bool :=
  plain_name name && exists_ (os_path.join d name) fs.

(** [p] itself or a path below it. *)
Definition within (root p : string) : bool :=
  String.eqb p root || str.startswith p (root +:+ "/").

(** [shutil.rmtree(root)] *)
Definition rmtree (root : string) : py filesystem unit :=
  modify (λ fs,
    {| files := filter (λ kv, within root kv.1 = false) (files fs);
       dirs := filter (λ d, within root d = false) (dirs fs) |}).

End os.

(** ** What the updater imports and what the host provides *)

Record environment : Type := {
  (** [json.load] on the text of a file; [None] when it raises [ValueError] *)
  json_load : string → option pyval;
  (** the text that [json.dump] writes *)
  json_dump : pyval → string;
  (** [appdirs.user_data_dir] *)
  user_data_dir : string → string;
  (** [platform.system()] *)
  platform_system : string;
  (** [os.getenv] *)
  getenv : string → option string;
  (** [sys.executable] and [hasattr(sys, 'real_prefix')] *)
  sys_executable : string;
  sys_real_prefix : bool;
  (** [packaging.version.Version]: the parsed versions, [None] when the
      constructor raises [InvalidVersion]; [v.is_prerelease]; [a > b] *)
  version : Type;
  parse_version : string → option version;
  is_prerelease : version → bool;
  version_gt : version → version → bool;
}.

(** ** The updater object *)

Record updater : Type := {
  _dev : bool;
  _project_name : string;
  _repository : string;
  (** the packaged [config.json], read once by [_read_config] *)
  _config_data : pyval;
  _force_venv : bool;
  _install_env_var : string;
  _requirements_file_name : string;
  (** [str(self._deploy_tag)], as it is formatted into the archive URL *)
  _deploy_tag : string;
  _install_path : option string;
  _requirements_path : option string;
}.

Definition set_install_path (self : updater) (p : string) : updater :=
  {| _dev := _dev self; _project_name := _project_name self;
     _repository := _repository self; _config_data := _config_data self;
     _force_venv := _force_venv self; _install_env_var := _install_env_var self;
     _requirements_file_name := _requirements_file_name self;
     _deploy_tag := _deploy_tag self;
     _install_path := Some p; _requirements_path := _requirements_path self |}.

Definition set_requirements_path (self : updater) (p : string) : updater :=
  {| _dev := _dev self; _project_name := _project_name self;
     _repository := _repository self; _config_data := _config_data self;
     _force_venv := _force_venv self; _install_env_var := _install_env_var self;
     _requirements_file_name := _requirements_file_name self;
     _deploy_tag := _deploy_tag self;
     _install_path := _install_path self; _requirements_path := Some p |}.

(** ** The configuration store *)

Section ConfigStore.

Context (E : environment) (self : updater).

(** [get_clean_name]: the project name without spaces and in lower case. *)
Definition get_clean_name : string :=
  str.lower (str.remove_char " " (_project_name self)).

Definition _get_app_name : string := get_clean_name +:+ "_app".

Definition _get_default_install_env_var : string := get_clean_name +:+ "_install".

(** [get_current_os] *)
Definition get_current_os : result string :=
  let os_platform := platform_system E in
  if String.eqb os_platform "Windows" then Ok "Windows"
  else if String.eqb os_platform "Darwin" then Ok "MacOS"
  else if String.eqb os_platform "Linux" then Ok "Linux"
  else Raise PlatformError.

(** [_get_app_folder]: the folder is created on the way when missing. *)
Definition _get_app_folder : py filesystem (option string) :=
  let logger_name := _get_app_name in
  let logger_path := os_path.dirname (user_data_dir E logger_name) in
  fs <- get ;;
  (if negb (os.isdir logger_path fs) then os.makedirs logger_path else ret tt) ;;;
  fs <- get ;;
  if negb (os.isdir logger_path fs) then ret None
  else ret (Some logger_path).

(** [_get_config_path]; joining onto [None] is an [AttributeError]. *)
Definition _get_config_path : py filesystem string :=
  let config_name := _get_app_name in
  config_path <- _get_app_folder ;;
  match config_path with
  | None => raise AttributeError
  | Some folder =>
      ret (os_path.normpath (os_path.join folder (config_name +:+ ".cfg")))
  end.

(** [get_config_data] *)
Definition get_config_data : py filesystem pyval :=
  let data := PyDict ∅ in
  config_path <- _get_config_path ;;
  fs <- get ;;
  match files fs !! config_path with
  | None => ret data
  | Some text =>
      match json_load E text with
      | Some loaded => ret loaded
      | None => ret (PyDict ∅)          (* except Exception: data = dict() *)
      end
  end.

(** [_set_config] *)
Definition _set_config (config_name : string) (config_value : pyval)
    : py filesystem bool :=
  config_path <- _get_config_path ;;
  fs <- get ;;
  if negb (os.isfile config_path fs) then ret false
  else
    config_data <- get_config_data ;;
    config_data <- lift (setitem config_data config_name config_value) ;;
    os.write_file config_path (json_dump E config_data) ;;;
    ret true.

(** [_clean_old_config]; [pathlib] joins like [os.path.join] here. *)
Definition _clean_old_config : py filesystem bool :=
  current_os <- lift get_current_os ;;
  let or_default (v : option string) (d : string) : string :=
    match v with
    | Some s => if String.eqb s "" then d else s
    | None => d
    end in
  let config_directory :=
    if String.eqb current_os "Windows" then or_default (getenv E "APPDATA") "~"
    else if String.eqb current_os "MacOS" then "~/Library/Preferences"
    else or_default (getenv E "XDG_CONFIG_HOME") "~/.config" in
  let old_config_path :=
    os_path.join config_directory (get_clean_name +:+ "/.config") in
  fs <- get ;;
  if os.exists_ old_config_path fs then
    removed <- try_except (os.remove old_config_path ;;; ret true)
                 is_RuntimeError (λ _, ret false) ;;
    if removed then ret true else ret false
  else ret true.

(** [_setup_config]: creates the store as [{}] when it is missing. *)
Definition _setup_config : py filesystem (option string) :=
  _clean_old_config ;;;
  config_file <- _get_config_path ;;
  fs <- get ;;
  if negb (os.isfile config_file fs) then
    os.write_file config_file (json_dump E (PyDict ∅)) ;;;
    fs <- get ;;
    if negb (os.isfile config_file fs) then ret None
    else ret (Some config_file)
  else ret (Some config_file).

(** [_get_app_config]: a lookup in the packaged configuration. *)
Definition _get_app_config (config_name : string) : result pyval :=
  if negb (truthy (_config_data self)) then Ok PyNone
  else dict_get (_config_data self) config_name PyNone.

(** [_get_installation_path] *)
Definition _get_installation_path : py filesystem pyval :=
  if _dev self then
    if sys_real_prefix E
    then ret (PyStr (os_path.dirname (os_path.dirname (sys_executable E))))
    else ret (PyStr (os_path.dirname (sys_executable E)))
  else
    config_data <- get_config_data ;;
    lift (dict_get config_data (_install_env_var self) (PyStr "")).

(** Where the store lives, the disk after the store has been located (the
    application folder may have been created), and the value a read of the
    store produces. *)
Definition app_folder_path : string :=
  os_path.dirname (user_data_dir E _get_app_name).
Definition config_file_path : string :=
  os_path.normpath (os_path.join app_folder_path (_get_app_name +:+ ".cfg")).
Definition located (fs : filesystem) : filesystem :=
  if os.isdir app_folder_path fs then fs
  else {| files := files fs; dirs := {[app_folder_path]} ∪ dirs fs |}.
Definition stored (fs : filesystem) : pyval :=
  match files fs !! config_file_path with
  | None => PyDict ∅
  | Some text => default (PyDict ∅) (json_load E text)
  end.

End ConfigStore.

(** ** The release catalogue *)

(** The regular expression of [_sanitize_github_version],
    [([0-9]+([.][0-9]+)+(rc[0-9]?)?)], matched the way [re.search] does:
    leftmost, every repetition as long as possible. *)
Module version_re.

Definition is_digit (c : ascii) : bool :=
  bool_decide (is_Some (Ascii.is_nat c)).

(** [[0-9]*] at the front of [s], and the rest. *)
Fixpoint digits (s : string) : string * string :=
  match s with
  | EmptyString => (EmptyString, EmptyString)
  | String c s' =>
      if is_digit c then let '(d, r) := digits s' in (String c d, r)
      else (EmptyString, s)
  end.

(** [([.][0-9]+)*] at the front of [s], and the rest. *)
Fixpoint dotted (fuel : nat) (s : string) : string * string :=
  match fuel with
  | O => (EmptyString, s)
  | S fuel' =>
      match s with
      | String c s' =>
          if Ascii.eqb c "." then
            let '(d, r) := digits s' in
            if String.eqb d "" then (EmptyString, s)
            else let '(more, r') := dotted fuel' r in
                 (String c (d +:+ more), r')
          else (EmptyString, s)
      | EmptyString => (EmptyString, s)
      end
  end.

(** [(rc[0-9]?)?] at the front of [s]. *)
Definition rc_suffix (s : string) : string :=
  if str.startswith s "rc" then
    match s with
    | String _ (String _ (String d _)) => if is_digit d then "rc" +:+ String d "" else "rc"
    | _ => "rc"
    end
  else "".

(** A match that starts at the first character of [s]. *)
Definition match_here (s : string) : option string :=
  let '(d, r) := digits s in
  if String.eqb d "" then None
  else
    let '(segments, r') := dotted (String.length r) r in
    if String.eqb segments "" then None
    else Some (d +:+ segments +:+ rc_suffix r').

(** [re.search(pattern, s).group(1)], [None] when nothing matches. *)
Fixpoint search (s : string) : option string :=
  match s with
  | EmptyString => None
  | String _ s' =>
      match match_here s with
      | Some m => Some m
      | None => search s'
      end
  end.

End version_re.

(** One [release-entry] element of the releases page, as the scan sees it. *)
Inductive release_entry : Type :=
| TimelineTags (tags : list (option string))
    (** an element of class [release-timeline-tags]: for each child
        [release-entry], the text of its first [<a>], if it has one *)
| FormalRelease (label_latest label_prerelease : bool)
    (truncate_target : option string).
    (** a formal release: whether it has a child of class [label-latest],
        one of class [label-prerelease], and the text of its
        [css-truncate-target] element, if it has one *)

(** A record written through [LOGGER]. *)
Inductive log_record : Type :=
| LogDebug (msg : string)
| LogError (msg : string).

Definition logger (r : log_record) : py (list log_record) unit :=
  modify (λ log, log ++ [r]).

Section ReleaseCatalog.

Context (E : environment) (self : updater).

(** [_get_deploy_repository_url(release)]: the releases page, or the archive
    of the deploy tag. *)
Definition _get_deploy_repository_url (release : bool) : string :=
  if release then "https://github.com/" +:+ _repository self +:+ "/releases"
  else "https://github.com/" +:+ _repository self +:+ "/archive/"
         +:+ _deploy_tag self +:+ ".tar.gz".

(** [_sanitize_github_version] *)
Definition _sanitize_github_version (version : string) : string :=
  match version_re.search version with
  | Some s => s
  | None => str.strip version
  end.

(** [Version(x)]: only a string can be parsed. *)
Definition Version (x : pyval) : result (version E) :=
  match x with
  | PyStr s =>
      match parse_version E s with
      | Some v => Ok v
      | None => Raise InvalidVersion
      end
  | _ => Raise TypeError
  end.

(** The [for release in r.find_all(...)] loop over the children of a tag
    time line, for [validate=True]: the version it stops at, if any. *)
Fixpoint scan_timeline (pre : bool) (tags : list (option string))
    : py (list log_record) (option string) :=
  match tags with
  | [] => ret None
  | None :: rest => scan_timeline pre rest               (* no <a>: continue *)
  | Some text :: rest =>
      let the_version := _sanitize_github_version text in
      found <- try_except
                 (logger (LogDebug ("Trying version " +:+ the_version)) ;;;
                  v <- lift (Version (PyStr the_version)) ;;
                  if negb (is_prerelease E v) || pre then
                    logger (LogDebug ("Good version " +:+ the_version)) ;;;
                    ret true
                  else ret false)
                 is_InvalidVersion
                 (λ _, logger (LogError ("Encountered invalid version " +:+ the_version)) ;;;
                       ret false) ;;
      if found then ret (Some the_version) else scan_timeline pre rest
  end.

(** The first child that has an [<a>], for [validate=False]. *)
Fixpoint first_link (tags : list (option string)) : option string :=
  match tags with
  | [] => None
  | None :: rest => first_link rest
  | Some text :: _ => Some (_sanitize_github_version text)
  end.

(** The [while r:] loop over the sibling entries; [version] is the variable
    of that name. *)
Fixpoint scan_entries (validate pre : bool) (version : option string)
    (page : list release_entry) : py (list log_record) (option string) :=
  match page with
  | [] => ret version
  | TimelineTags tags :: siblings =>
      if validate then
        found <- scan_timeline pre tags ;;
        match found with
        | Some v => ret (Some v)                          (* break_out *)
        | None => scan_entries validate pre version siblings
        end
      else
        (* version = the_version; break -- leaves the inner loop only *)
        let version := match first_link tags with
                       | Some v => Some v
                       | None => version
                       end in
        scan_entries validate pre version siblings
  | FormalRelease label_latest label_prerelease target :: siblings =>
      logger (LogDebug "Inside formal release") ;;;
      if (if pre then label_prerelease else label_latest) then
        match target with
        | None => raise AttributeError                    (* None.text *)
        | Some text =>
            let the_version := _sanitize_github_version text in
            if validate then
              found <- try_except
                         (v <- lift (Version (PyStr the_version)) ;;
                          if negb (is_prerelease E v) || pre then ret true
                          else
                            logger (LogDebug ("Found a pre-release version: "
                                              +:+ the_version)) ;;;
                            ret false)
                         is_InvalidVersion
                         (λ _, logger (LogError ("Encountered invalid version "
                                                 +:+ the_version)) ;;;
                               ret false) ;;
              if found then ret (Some the_version)
              else scan_entries validate pre version siblings
            else ret (Some the_version)
        end
      else scan_entries validate pre version siblings
  end.

(** [_get_latest_deploy_tag(sniff, validate, format='version', pre)] on the
    entries of the fetched releases page. *)
Definition _get_latest_deploy_tag (sniff validate pre : bool)
    (page : list release_entry) : py (list log_record) (option string) :=
  if _dev self then ret (Some "DEV")
  else if String.eqb (_get_deploy_repository_url true) "" then
    logger (LogError "GitHub repository is not valid!") ;;;
    ret None
  else
    version <- (if sniff then scan_entries validate pre None page else ret None) ;;
    match version with
    | None =>
        logger (LogError "Impossible to retrieve lastest release version from GitHub!") ;;;
        ret None
    | Some v =>
        if String.eqb v "" then                           (* not version *)
          logger (LogError "Impossible to retrieve lastest release version from GitHub!") ;;;
          ret None
        else if validate then
          try_except (lift (Version (PyStr v)) ;;; ret (Some v))
            is_InvalidVersion
            (λ _, logger (LogError ("Got invalid version: " +:+ v)) ;;; ret None)
        else ret (Some v)
    end.

Definition of_optional_str (o : option string) : pyval :=
  match o with
  | Some s => PyStr s
  | None => PyNone
  end.

(** [_get_deploy_tag]; [page] is what the releases page shows and [upgrade]
    the answer to the "Newer version found" question. *)
Definition _get_deploy_tag (page : list release_entry) (upgrade : bool)
    : py filesystem pyval :=
  if _dev self then ret (PyStr "DEV")
  else
    config_data <- get_config_data E self ;;
    deploy_tag <- lift (dict_get config_data "tag" (PyStr "")) ;;
    latest <- lift (_get_latest_deploy_tag true true false page []).1 ;;
    let latest_deploy_tag := of_optional_str latest in
    if negb (truthy deploy_tag) then ret latest_deploy_tag
    else
      deploy_tag_v <- lift (Version deploy_tag) ;;
      latest_tag_v <- lift (Version latest_deploy_tag) ;;
      if version_gt E latest_tag_v deploy_tag_v then
        if upgrade then
          _set_config E self "tag" latest_deploy_tag ;;;
          ret latest_deploy_tag
        else ret deploy_tag
      else ret deploy_tag.

(** The tags the scan considers, in listing order: every linked child of a
    tag time line, and the formal releases that carry the label the scan
    looks for ([label-prerelease] when [pre], [label-latest] otherwise). *)
Definition candidates (pre : bool) (page : list release_entry) : list string :=
  flat_map (λ r, match r with
                 | TimelineTags tags => omap id tags
                 | FormalRelease label_latest label_prerelease (Some text) =>
                     if (if pre then label_prerelease else label_latest)
                     then [text] else []
                 | FormalRelease _ _ None => []
                 end) page.

(** Every tag shown on the page, in listing order, labels ignored. *)
Definition listed_tags (page : list release_entry) : list string :=
  flat_map (λ r, match r with
                 | TimelineTags tags => omap id tags
                 | FormalRelease _ _ (Some text) => [text]
                 | FormalRelease _ _ None => []
                 end) page.

(** A sanitized tag is acceptable when it parses and is not a pre-release,
    unless pre-releases are allowed. *)
Definition acceptable (pre : bool) (the_version : string) : bool :=
  match parse_version E the_version with
  | Some v => negb (is_prerelease E v) || pre
  | None => false
  end.

(** The first acceptable tag of a list of raw tags. *)
Definition first_acceptable (pre : bool) (tags : list string) : option string :=
  List.find (acceptable pre) (_sanitize_github_version <$> tags).

(** The sanitized tags passed over before the first acceptable one. *)
Fixpoint skipped (pre : bool) (tags : list string) : list string :=
  match tags with
  | [] => []
  | t :: rest =>
      let v := _sanitize_github_version t in
      if acceptable pre v then [] else v :: skipped pre rest
  end.

(** Every labelled formal release shows its tag. *)
Definition targets_present (pre : bool) (page : list release_entry) : Prop :=
  Forall (λ r, match r with
               | FormalRelease label_latest label_prerelease None =>
                   (if pre then label_prerelease else label_latest) = false
               | _ => True
               end) page.

End ReleaseCatalog.

(** ** The artifact fetcher *)

(** The scoped temporary directory: files with their bytes and
    sub-directories, each directory listing in the order [os.listdir]
    reports it. *)
Inductive node : Type :=
| File (content : string)
| Dir (entries : list (string * node)).

Abbreviation listing := (list (string * node)).

(** What [urlopen] hands back: the [Content-Length] header, if any, the
    chunks that successive [response.read] calls return, and whether the
    connection breaks after them (the next [read] raises) instead of reaching
    the end of the stream. *)
Record response : Type := {
  content_length : option string;
  body : list string;
  broken : bool;
}.

Inductive archive_kind : Type := TarGz | Tar | Zip.

(** The remote side and the archive readers. *)
Record remote : Type := {
  (** [requests.get(deployment_url).status_code] *)
  status_code : nat;
  (** the answer to the n-th [urlopen]; [None] when it raises [URLError] *)
  urlopen : nat → option response;
  (** [tarfile]/[zipfile] [extractall] of the given bytes into the directory:
      the directory afterwards, and [false] when the reader raised *)
  extractall : archive_kind → string → listing → listing * bool;
}.

(** The temporary directory, the number of [urlopen] calls made so far, and
    the attempt counts written by [LOGGER.warning('Retrying ...')]. *)
Record fetch_state : Type := {
  workdir : listing;
  requests : nat;
  retries_logged : list nat;
}.

Module tmpdir.

Fixpoint lookup (name : string) (entries : listing) : option node :=
  match entries with
  | [] => None
  | (n, x) :: rest => if String.eqb n name then Some x else lookup name rest
  end.

(** [open(name, 'ab')]: an existing file is kept as it is, a missing one is
    created empty. *)
Definition open_append (name : string) (entries : listing) : result listing :=
  match lookup name entries with
  | None => Ok (entries ++ [(name, File EmptyString)])
  | Some (File _) => Ok entries
  | Some (Dir _) => Raise IOError
  end.

(** [dst_file.write(chunk)] on a file opened for appending. *)
Fixpoint append (name chunk : string) (entries : listing) : listing :=
  match entries with
  | [] => []
  | (n, x) :: rest =>
      if String.eqb n name then
        match x with
        | File content => (n, File (content +:+ chunk)) :: rest
        | Dir _ => (n, x) :: rest
        end
      else (n, x) :: append name chunk rest
  end.

Definition file_names (entries : listing) : list string :=
  omap (λ e, match e.2 with File _ => Some e.1 | Dir _ => None end) entries.

Definition dir_names (entries : listing) : list string :=
  omap (λ e, match e.2 with Dir _ => Some e.1 | File _ => None end) entries.

(** [os.walk(top)], top down: the triple of a directory, then the walks of
    its sub-directories in listing order. *)
Fixpoint walk (top : string) (n : node) : list (string * list string * list string) :=
  match n with
  | File _ => []
  | Dir entries =>
      (top, dir_names entries, file_names entries)
      :: flat_map (λ e, let '(name, sub) := e in
                        walk (os_path.join top name) sub) entries
  end.

End tmpdir.

Section ArtifactFetcher.

Context (self : updater) (R : remote).

(** [urlparse(url).path.rsplit("/", 1)[-1]] *)
Definition repo_name (url : string) : string :=
  default EmptyString (last (str.split "/" url)).

Definition set_workdir (w : listing) : py fetch_state unit :=
  modify (λ s, {| workdir := w; requests := requests s;
                  retries_logged := retries_logged s |}).

(** [_chunk_report]: the percentage divides by the announced size. *)
Definition _chunk_report (bytes_so_far : nat) (total_size : Z) : py fetch_state unit :=
  if (total_size =? 0)%Z then raise ZeroDivisionError else ret tt.

(** The [while 1:] loop of [_chunk_read]. *)
Fixpoint read_chunks (name : string) (total_size : Z) (bytes_so_far : nat)
    (chunks : list string) (broken : bool) : py fetch_state nat :=
  match chunks with
  | [] =>
      if broken then raise IOError                         (* response.read raises *)
      else ret bytes_so_far                                (* chunk = '': written, then break *)
  | chunk :: rest =>
      s <- get ;;
      set_workdir (tmpdir.append name chunk (workdir s)) ;;;
      let bytes_so_far := bytes_so_far + String.length chunk in
      if String.eqb chunk "" then ret bytes_so_far
      else
        _chunk_report bytes_so_far total_size ;;;
        read_chunks name total_size bytes_so_far rest broken
  end.

(** [_chunk_read]: the target is opened in append mode. *)
Definition _chunk_read (rsp : response) (name : string) : py fetch_state (option nat) :=
  s <- get ;;
  opened <- lift (tmpdir.open_append name (workdir s)) ;;
  set_workdir opened ;;;
  match content_length rsp with
  | None => ret None
  | Some header =>
      if String.eqb header "" then ret None               (* not rsp *)
      else
        match str.int header with
        | None => raise ValueError
        | Some total_size =>
            n <- read_chunks name total_size 0 (body rsp) (broken rsp) ;;
            ret (Some n)
        end
  end.

(** [_download_file]; the target lives in the temporary directory under the
    name [name], so its folder exists and is not created. *)
Definition _download_file (name : string) : py fetch_state bool :=
  try_except
    (s <- get ;;
     modify (λ s, {| workdir := workdir s; requests := S (requests s);
                     retries_logged := retries_logged s |}) ;;;
     match urlopen R (requests s) with
     | None => raise URLError
     | Some data => _chunk_read data name ;;; ret tt
     end)
    any_exception (λ exc, raise (Exception exc)) ;;;
  s <- get ;;
  match tmpdir.lookup name (workdir s) with
  | Some _ => ret true
  | None => ret false
  end.

Definition endswith (s suffix : string) : bool :=
  str.startswith (String.rev s) (String.rev suffix).

(** [_unzip_file(filename, destination, remove_sub_folders=[])]: nothing is
    removed first and the destination, the temporary directory, exists. *)
Definition _unzip_file (name : string) : py fetch_state bool :=
  try_except
    (s <- get ;;
     let kind := if endswith name ".tar.gz" then TarGz
                 else if endswith name ".tar" then Tar else Zip in
     match tmpdir.lookup name (workdir s) with
     | Some (File bytes) =>
         let '(after, ok) := extractall R kind bytes (workdir s) in
         set_workdir after ;;;
         if ok then ret true else raise IOError
     | _ => raise IOError                                 (* no archive to open *)
     end)
    any_exception (λ exc, raise (Exception exc)).

(** [_try_download_unizip_deployment_requirements] *)
Definition _try_download_unizip_deployment_requirements (name : string)
    : py fetch_state bool :=
  valid_download <- _download_file name ;;
  if negb valid_download then ret false
  else
    valid_unzip <- try_except (_unzip_file name) any_exception (λ _, ret false) ;;
    if negb valid_unzip then ret false
    else ret true.

(** The [while not valid_status:] loop of
    [_download_deployment_requirements], entered with [valid_status = False]. *)
Equations? retry_loop (name : string) (total_tries : nat) : py fetch_state bool
    by wf (11 - total_tries) lt :=
  retry_loop name total_tries with decide (10 < total_tries) => {
    | left _ := ret false                                 (* break *)
    | right _ :=
        valid_status <- _try_download_unizip_deployment_requirements name ;;
        let total_tries' := S total_tries in
        if valid_status then ret true
        else
          modify (λ s, {| workdir := workdir s; requests := requests s;
                          retries_logged := retries_logged s ++ [total_tries'] |}) ;;;
          retry_loop name total_tries' }.
Proof. lia. Qed.

(** The search for the requirements file: [requirement_path] after the two
    nested [for] loops. *)
Definition find_requirements (dirname : string) (entries : listing) : option string :=
  fold_left
    (λ requirement_path '(root, _, files),
       match List.find (String.eqb (_requirements_file_name self)) files with
       | Some name => Some (os_path.join root name)       (* break: inner loop *)
       | None => requirement_path
       end)
    (tmpdir.walk dirname (Dir entries)) None.

(** [_download_deployment_requirements(dirname)]: the verdict and the
    updater, whose [_requirements_path] is set on success. *)
Definition _download_deployment_requirements (dirname : string)
    : py fetch_state (bool * updater) :=
  let deployment_url := _get_deploy_repository_url self false in
  if String.eqb deployment_url "" then ret (false, self)
  else if negb (status_code R =? 200)%nat then ret (false, self)
  else
    let name := repo_name deployment_url in
    valid_status <- retry_loop name 0 ;;
    if negb valid_status then ret (false, self)
    else
      s <- get ;;
      match find_requirements dirname (workdir s) with
      | None => ret (false, self)
      | Some requirement_path =>
          if String.eqb requirement_path "" then ret (false, self)
          else ret (true, set_requirements_path self requirement_path)
      end.

End ArtifactFetcher.

(** Steps that leave the request counter and the warnings alone. *)
Definition quiet {A} (m : py fetch_state A) : Prop :=
  ∀ s, requests (m s).2 = requests s ∧ retries_logged (m s).2 = retries_logged s.

(** ** Loading: install path, environment, deployment *)

(** What happens around one call of [_load]: the outcome of the
    prerequisite check, the directory picked in the file dialog (empty when
    the dialog is cancelled), whether [virtualenv] managed to create the
    environment, and the outcome of the deployment step.  None of these
    steps writes the configuration store. *)
Record session : Type := {
  check_setup_ok : bool;
  chosen_directory : string;
  virtualenv_ok : bool;
  deployment_ok : bool;
}.

Section Loading.

Context (E : environment).

(** A path argument of [os.path.isdir] must be a string. *)
Definition as_path (v : pyval) : result string :=
  match v with
  | PyStr p => Ok p
  | _ => Raise TypeError
  end.

(** [_check_installation_path] *)
Definition _check_installation_path (install_path : string) (fs : filesystem) : bool :=
  if String.eqb install_path "" || negb (os.isdir install_path fs) then false
  else true.

(** [_set_installation_path]: the path, [None] standing for the [False] and
    [None] the method returns when it gives up, and the updater with
    [_install_path] set. *)
Definition _set_installation_path (self : updater) (S : session)
    : py filesystem (option string * updater) :=
  stored_path <- _get_installation_path E self ;;
  install_path <- lift (as_path stored_path) ;;
  fs <- get ;;
  old_installation <-
    (if os.isdir install_path fs then
       if os.listed install_path (get_clean_name self) fs then
         let old_dir := os_path.join install_path (get_clean_name self) in
         if os.isdir old_dir fs then
           ret (negb (os.listed old_dir "Include" fs)
                || negb (os.listed old_dir "Lib" fs)
                || negb (os.listed old_dir "Scripts" fs))
         else raise OSError                               (* os.listdir(file) *)
       else ret false
     else ret false) ;;
  (if old_installation then os.rmtree install_path else ret tt) ;;;
  fs <- get ;;
  chosen <-
    (if String.eqb install_path "" || negb (os.isdir install_path fs) then
       let install_path := chosen_directory S in
       if String.eqb install_path "" then ret None        (* cancelled *)
       else if negb (os.isdir install_path fs)
       then raise AttributeError                          (* '...'.foramt *)
       else ret (Some (install_path, true))
     else ret (Some (install_path, false))) ;;
  match chosen with
  | None => ret (None, self)
  | Some (install_path, path_updated) =>
      fs <- get ;;
      if negb (_check_installation_path install_path fs) then ret (None, self)
      else
        registered <-
          (if path_updated
           then _set_config E self (_install_env_var self) (PyStr install_path)
           else ret true) ;;
        if negb registered then ret (None, self)
        else ret (Some install_path, set_install_path self install_path)
  end.

(** [_get_venv_folder_path] *)
Definition _get_venv_folder_path (self : updater) : option string :=
  match _install_path self with
  | None => None
  | Some install_path =>
      if String.eqb install_path "" then None
      else if _dev self then Some (os_path.normpath install_path)
      else Some (os_path.normpath (os_path.join install_path (get_clean_name self)))
  end.

(** [_check_venv_folder_exists]: it tests the name of the environment
    variable, not the folder of the environment. *)
Definition _check_venv_folder_exists (self : updater) (fs : filesystem) : bool :=
  let venv_path := _get_default_install_env_var self in
  if String.eqb venv_path "" then false else os.isdir venv_path fs.

(** [_create_venv(force)]; [virtualenv] itself is outside: when it succeeds
    the folder of the environment exists afterwards. *)
Definition _create_venv (self : updater) (S : session) (force : bool)
    : py filesystem bool :=
  let venv_path := _get_venv_folder_path self in
  fs <- get ;;
  if _check_venv_folder_exists self fs && negb force then ret true
  else
    (if force && _check_venv_folder_exists self fs then
       match venv_path with
       | None => raise TypeError                          (* os.path.isdir(None) *)
       | Some p => if os.isdir p fs then os.rmtree p else ret tt
       end
     else ret tt) ;;;
    match venv_path with
    | None => raise TypeError                             (* Popen(['virtualenv', None]) *)
    | Some p =>
        (if virtualenv_ok S then os.makedirs p else ret tt) ;;;
        ret (virtualenv_ok S)
    end.

(** [_setup_environment] *)
Definition _setup_environment (self : updater) (S : session) : py filesystem bool :=
  match _get_venv_folder_path self with
  | None => ret false
  | Some venv_path =>
      fs <- get ;;
      (if _force_venv self || negb (os.isdir venv_path fs)
       then _create_venv self S true ;;; ret tt
       else ret tt) ;;;
      ret true
  end.

(** [_setup_deployment]; nothing is fetched in development mode. *)
Definition _setup_deployment (self : updater) (S : session) : bool :=
  if _dev self then true else deployment_ok S.

(** The check at the end of [_load], under the comment "We check that
    stored config path exits". *)
Definition check_stored_config_path (self : updater) : py filesystem unit :=
  stored_path <- lift (_get_app_config self (_install_env_var self)) ;;
  if truthy stored_path then
    p <- lift (as_path stored_path) ;;
    fs <- get ;;
    if negb (os.isdir p fs)
    then _set_config E self (_install_env_var self) (PyStr "") ;;; ret tt
    else ret tt
  else ret tt.

(** [_load]: whether loading went through, and the updater afterwards.
    [_init_tags_combo] and [_setup_artella] only touch the window, the
    network and the Artella application; [_setup_artella] returns [True]. *)
Definition _load (self : updater) (S : session) : py filesystem (bool * updater) :=
  if negb (check_setup_ok S) then ret (false, self)
  else
    located_path <- _set_installation_path self S ;;
    let '(install_path, self) := located_path in
    match install_path with
    | None => ret (false, self)
    | Some _ =>
        valid_venv <- _setup_environment self S ;;
        if negb valid_venv then ret (false, self)
        else if negb (_setup_deployment self S) then ret (false, self)
        else
          check_stored_config_path self ;;;
          path_install <- _get_installation_path E self ;;
          (if truthy path_install then lift (as_path path_install) ;;; ret tt
           else ret tt) ;;;
          ret (true, self)
    end.

(** The folders [_on_uninstall] removes. *)
Definition dirs_to_remove (self : updater) (install_path : string) : list string :=
  [os_path.join install_path (get_clean_name self)].

(** [_on_uninstall]; [confirm] is the answer to the question box. *)
Definition _on_uninstall (self : updater) (confirm : bool) : py filesystem unit :=
  stored_path <- _get_installation_path E self ;;
  if truthy stored_path then
    install_path <- lift (as_path stored_path) ;;
    fs <- get ;;
    if os.isdir install_path fs then
      if confirm then
        try_except
          (for_each (λ d, fs <- get ;;
                          if os.isdir d fs then os.rmtree d
                          else if os.isfile d fs then os.remove d
                          else ret tt)
                    (dirs_to_remove self install_path) ;;;
           _set_config E self (_install_env_var self) (PyStr "") ;;;
           ret tt)
          any_exception
          (λ _, _set_config E self (_install_env_var self) (PyStr "") ;;; ret tt)
      else ret tt
    else ret tt
  else ret tt.

End Loading.

(** ** A concrete host, used to run the updater on examples

    [flat_json] reads and writes the JSON objects the updater itself stores
    (string keys, string values); [pep440] is the part of PEP 440 made of
    final releases [N(.N)*] and release candidates [N(.N)*rcN], with an
    optional leading [v]. *)

Module flat_json.

Definition dquote : ascii := "034"%char.
Definition backslash : ascii := "092"%char.

Fixpoint escape (s : string) : string :=
  match s with
  | EmptyString => EmptyString
  | String c s' =>
      if Ascii.eqb c dquote || Ascii.eqb c backslash
      then String backslash (String c (escape s'))
      else String c (escape s')
  end.

Definition quote (s : string) : string :=
  String dquote (escape s +:+ String dquote EmptyString).

Definition dump_value (v : pyval) : string :=
  match v with
  | PyStr s => quote s
  | _ => "null"
  end.

Definition dump (v : pyval) : string :=
  match v with
  | PyDict d =>
      "{" +:+ String.concat ", "
                ((λ kv, quote kv.1 +:+ ": " +:+ dump_value kv.2) <$> map_to_list d)
          +:+ "}"
  | other => dump_value other
  end.

(** The characters of a string literal after its opening quote, and what
    follows the closing quote. *)
Fixpoint string_body (s : string) : option (string * string) :=
  match s with
  | EmptyString => None
  | String c s' =>
      if Ascii.eqb c dquote then Some (EmptyString, s')
      else if Ascii.eqb c backslash then
        match s' with
        | String e s'' =>
            match string_body s'' with
            | Some (r, rest) => Some (String e r, rest)
            | None => None
            end
        | EmptyString => None
        end
      else
        match string_body s' with
        | Some (r, rest) => Some (String c r, rest)
        | None => None
        end
  end.

Definition literal (s : string) : option (string * string) :=
  match str.lstrip Ascii.is_space s with
  | String c s' => if Ascii.eqb c dquote then string_body s' else None
  | EmptyString => None
  end.

Definition expect (c : ascii) (s : string) : option string :=
  match str.lstrip Ascii.is_space s with
  | String a s' => if Ascii.eqb a c then Some s' else None
  | EmptyString => None
  end.

Fixpoint members (fuel : nat) (s : string) (acc : gmap string pyval)
    : option (gmap string pyval) :=
  match fuel with
  | O => None
  | S fuel' =>
      '(k, s1) ← literal s;
      s2 ← expect ":" s1;
      '(v, s3) ← literal s2;
      let acc' := <[k := PyStr v]> acc in
      match expect "," s3 with
      | Some s4 => members fuel' s4 acc'
      | None =>
          s4 ← expect "}" s3;
          if String.eqb (str.strip s4) "" then Some acc' else None
      end
  end.

Definition load (text : string) : option pyval :=
  if String.eqb (str.strip text) "null" then Some PyNone
  else
    s1 ← expect "{" text;
    match expect "}" s1 with
    | Some s2 => if String.eqb (str.strip s2) "" then Some (PyDict ∅) else None
    | None => PyDict <$> members (String.length text) s1 ∅
    end.

End flat_json.

Module pep440.

Record t : Type := { release : list N; pre : option N }.

Definition is_digit (c : ascii) : bool :=
  bool_decide (is_Some (Ascii.is_nat c)).

Definition segment (s : string) : option N := str.decimal s.

(** The text before the first [rc], and the text after it when there is one. *)
Fixpoint split_rc (s : string) : string * option string :=
  match s with
  | EmptyString => (EmptyString, None)
  | String c s' =>
      if Ascii.eqb c "r" && str.startswith s' "c"
      then (EmptyString, Some (match s' with String _ rest => rest | _ => s' end))
      else let '(a, b) := split_rc s' in (String c a, b)
  end.

Definition parse (s : string) : option t :=
  let s := match s with String "v" s' => s' | _ => s end in
  let '(rel, rc) := split_rc s in
  release ← mapM segment (str.split "." rel);
  match rc with
  | None => Some {| release := release; pre := None |}
  | Some n => k ← str.decimal_from 0 n; Some {| release := release; pre := Some k |}
  end.

Definition is_prerelease (v : t) : bool := bool_decide (is_Some (pre v)).

(** Releases compare as tuples, a missing component counting as 0. *)
Fixpoint release_compare (a b : list N) : comparison :=
  match a with
  | [] => if forallb (N.eqb 0) b then Eq else Lt
  | x :: a' =>
      match b with
      | [] => if forallb (N.eqb 0) a then Eq else Gt
      | y :: b' =>
          match (x ?= y)%N with Eq => release_compare a' b' | c => c end
      end
  end.

Definition gt (a b : t) : bool :=
  match release_compare (release a) (release b) with
  | Gt => true
  | Lt => false
  | Eq =>
      match pre a, pre b with
      | None, Some _ => true
      | Some x, Some y => (y <? x)%N
      | _, None => false
      end
  end.

End pep440.

Definition posix_host : environment := {|
  json_load := flat_json.load;
  json_dump := flat_json.dump;
  user_data_dir := λ appname, "/home/artist/.local/share/" +:+ appname;
  platform_system := "Linux";
  getenv := λ _, None;
  sys_executable := "/usr/bin/python";
  sys_real_prefix := false;
  version := pep440.t;
  parse_version := pep440.parse;
  is_prerelease := pep440.is_prerelease;
  version_gt := pep440.gt;
|}.

(** A project and two disks for the examples. *)

Definition solstice : updater := {|
  _dev := false;
  _project_name := "Solstice";
  _repository := "Solstice-Short-Film/solstice-launcher";
  _config_data :=
    PyDict {[ "name" := PyStr "Solstice";
              "repository" := PyStr "Solstice-Short-Film/solstice-launcher";
              "splash" := PyStr "splash.png" ]};
  _force_venv := false;
  _install_env_var := "solstice_install";
  _requirements_file_name := "requirements.txt";
  _deploy_tag := "1.0.0";
  _install_path := None;
  _requirements_path := None;
|}.

Definition empty_disk : filesystem := {| files := ∅; dirs := ∅ |}.

Definition solstice_cfg : string := "/home/artist/.local/share/solstice_app.cfg".

(** A disk whose store holds [text]. *)
Definition disk_with_store (text : string) : filesystem :=
  {| files := {[ solstice_cfg := text ]};
     dirs := {[ "/home/artist/.local/share" ]} |}.

(** The text of a store holding the pinned tag [1.0.0]. *)
Definition pinned_1_0_0 : string :=
  flat_json.dump (PyDict {[ "tag" := PyStr "1.0.0" ]}).

(** The text of a store pinned to a tag that is not a version. *)
Definition pinned_nightly : string :=
  flat_json.dump (PyDict {[ "tag" := PyStr "nightly" ]}).

(** A server whose first answer is a damaged archive and whose later answers
    are the intact one, and a reader that accepts the intact bytes only. *)
Definition intact_archive : string := "solstice-1.0.0.tar.gz:intact".

Definition release_tree : listing :=
  [("solstice-launcher-1.0.0",
    Dir [("requirements.txt", File "tpDcc-core");
         ("docs", Dir [("requirements.txt", File "sphinx")])])].

Definition recovering_server : remote := {|
  status_code := 200;
  urlopen := λ n, Some (if (n =? 0)%nat
                        then {| content_length := Some "28"; body := ["solstice-1.0"]; broken := false |}
                        else {| content_length := Some "28"; body := [intact_archive]; broken := false |});
  extractall := λ _ bytes dir,
    if String.eqb bytes intact_archive then (dir ++ release_tree, true)
    else (dir, false);
|}.

(** A server that always answers with the intact archive. *)
Definition healthy_server : remote := {|
  status_code := 200;
  urlopen := λ _, Some {| content_length := Some "28"; body := [intact_archive]; broken := false |};
  extractall := extractall recovering_server;
|}.

(** A server whose every answer is damaged. *)
Definition damaged_server : remote := {|
  status_code := 200;
  urlopen := λ _, Some {| content_length := Some "28"; body := ["solstice-1.0"]; broken := false |};
  extractall := extractall recovering_server;
|}.

Definition fresh_tmpdir : fetch_state :=
  {| workdir := []; requests := 0; retries_logged := [] |}.

(** The requirements files of a tree in walk order: for each directory
    visited, the path of its file of the configured name, if it has one. *)
Definition requirements_in_walk_order (self : updater) (dirname : string)
    (entries : listing) : list string :=
  omap (λ '(root, _, files),
          os_path.join root
            <$> List.find (String.eqb (_requirements_file_name self)) files)
       (tmpdir.walk dirname (Dir entries)).

(** The same project run with [--dev], a store left by an earlier
    production run whose install folder has since been deleted, and a
    session in which every external step succeeds. *)
Definition solstice_dev : updater := {|
  _dev := true;
  _project_name := _project_name solstice;
  _repository := _repository solstice;
  _config_data := _config_data solstice;
  _force_venv := false;
  _install_env_var := _install_env_var solstice;
  _requirements_file_name := _requirements_file_name solstice;
  _deploy_tag := "DEV";
  _install_path := None;
  _requirements_path := None;
|}.

Definition stale_pointer : string :=
  flat_json.dump (PyDict {[ "solstice_install" := PyStr "/gone/tools" ]}).

Definition stale_disk : filesystem :=
  {| files := {[ solstice_cfg := stale_pointer ]};
     dirs := {[ "/home/artist/.local/share"; "/usr"; "/usr/bin" ]} |}.

Definition smooth_session : session :=
  {| check_setup_ok := true; chosen_directory := "";
     virtualenv_ok := true; deployment_ok := true |}.

(** A disk with an installed environment under [/opt/tools]. *)
Definition installed_disk : filesystem :=
  {| files := {[ solstice_cfg :=
                   flat_json.dump (PyDict {[ "solstice_install" := PyStr "/opt/tools" ]});
                 "/opt/tools/solstice/Scripts/python.exe" := "MZ";
                 "/opt/tools/notes.txt" := "keep" ]};
     dirs := {[ "/home/artist/.local/share"; "/opt"; "/opt/tools";
                "/opt/tools/solstice"; "/opt/tools/solstice/Scripts";
                "/opt/tools/solstice-docs" ]} |}.

(** ** Further definitions for the properties of the remaining code *)

(** The legacy configuration file that [_clean_old_config] looks for, on the
    platform [current_os]. *)
Definition old_config_path (E : environment) (self : updater) (current_os : string)
    : string :=
  let or_default (v : option string) (d : string) : string :=
    match v with
    | Some s => if String.eqb s "" then d else s
    | None => d
    end in
  let config_directory :=
    if String.eqb current_os "Windows" then or_default (getenv E "APPDATA") "~"
    else if String.eqb current_os "MacOS" then "~/Library/Preferences"
    else or_default (getenv E "XDG_CONFIG_HOME") "~/.config" in
  os_path.join config_directory (get_clean_name self +:+ "/.config").

(** A value that is not a [dict]. *)
Definition not_a_dict (v : pyval) : Prop :=
  match v with
  | PyDict _ => False
  | _ => True
  end.

(** ** The list of all releases *)

(** [needle in s] on strings. *)
Fixpoint contains (needle s : string) : bool :=
  String.prefix needle s ||
  match s with
  | EmptyString => false
  | String _ s' => contains needle s'
  end.

(** One element of class [release-entry] of the releases page, as
    [_get_all_releases] sees it. *)
Record release_element : Type := {
  link_text : option string;
    (** [release.find("a").text], if the element has an [<a>] *)
  label_latest_child : bool;
    (** [release.find(class_='label-latest', recursive=False)] is there *)
  truncate_target_text : option string
    (** the text of its [css-truncate-target] element, if it has one *)
}.

(** The version that one linked element contributes: [the_version] when the
    loop body reaches its membership test. *)
Definition the_version_of (release : release_element) (text : string)
    : result string :=
  if contains "Latest" text then
    if label_latest_child release then
      match truncate_target_text release with
      | None => Raise AttributeError                      (* None.text *)
      | Some target => Ok (_sanitize_github_version target)
      end
    else Ok text
  else Ok (_sanitize_github_version text).

(** The body of [for release in releases]; the state is [all_versions]. *)
Definition collect_release (release : release_element) : py (list string) unit :=
  match link_text release with
  | None => ret tt                                        (* continue *)
  | Some text =>
      the_version <- lift (the_version_of release text) ;;
      all_versions <- get ;;
      if bool_decide (the_version ∈ all_versions) then ret tt
      else modify (λ l, l ++ [the_version])
  end.

(** [_get_all_releases] on the [release-entry] elements of the fetched
    page. *)
Definition _get_all_releases (self : updater) (releases : list release_element)
    : result (option (list string)) :=
  if _dev self then Ok (Some ["DEV"])
  else if String.eqb (_get_deploy_repository_url self true) "" then Ok None
  else
    match for_each collect_release releases [] with
    | (Ok _, all_versions) => Ok (Some all_versions)
    | (Raise e, _) => Raise e
    end.

(** A releases page with a labelled latest release, an unlabelled element
    whose link says [Latest], and a repeated tag. *)
Definition solstice_releases : list release_element :=
  [ {| link_text := Some "Latest release";
       label_latest_child := true;
       truncate_target_text := Some "v2.0.0" |};
    {| link_text := Some "2.0.0"; label_latest_child := false;
       truncate_target_text := None |};
    {| link_text := None; label_latest_child := false;
       truncate_target_text := None |};
    {| link_text := Some "release 1.0.0"; label_latest_child := false;
       truncate_target_text := Some "1.0.0" |} ].

(** Two shapes of a string that the version pattern looks at: a digit at
    the front, and a dot followed by a digit at the front. *)
Definition starts_with_digit (s : string) : bool :=
  match s with
  | String c _ => version_re.is_digit c
  | EmptyString => false
  end.

Definition starts_segment (s : string) : bool :=
  match s with
  | String c s' => Ascii.eqb c "." && starts_with_digit s'
  | EmptyString => false
  end.

(** A server that cannot be reached, and one whose answers carry no
    [Content-Length]. *)
Definition unreachable_server : remote := {|
  status_code := 200;
  urlopen := λ _, None;
  extractall := extractall recovering_server;
|}.

Definition headerless_server : remote := {|
  status_code := 200;
  urlopen := λ _, Some {| content_length := None; body := [intact_archive];
                          broken := false |};
  extractall := extractall recovering_server;
|}.

(** A disk whose store registers [/opt/tools], with nothing installed there
    yet; a disk whose store registers no install path; and a session in
    which the user picks [/opt/tools] in the dialog. *)
Definition registered_disk : filesystem :=
  {| files := {[ solstice_cfg :=
                   flat_json.dump (PyDict {[ "solstice_install" := PyStr "/opt/tools" ]}) ]};
     dirs := {[ "/home/artist/.local/share"; "/opt"; "/opt/tools" ]} |}.

Definition unregistered_disk : filesystem :=
  {| files := {[ solstice_cfg := pinned_1_0_0 ]};
     dirs := {[ "/home/artist/.local/share"; "/opt"; "/opt/tools" ]} |}.

Definition choosing_session : session :=
  {| check_setup_ok := true; chosen_directory := "/opt/tools";
     virtualenv_ok := true; deployment_ok := true |}.

(** ** The packaged configuration *)

(** Where the running program comes from: the folder of the module
    ([os.path.dirname(os.path.abspath(__file__))]) and [sys._MEIPASS], which
    only a frozen executable has. *)
Record bundle : Type := {
  module_dir : string;
  _MEIPASS : option string;
}.

(** [_read_config]: the configuration packaged with the executable.  Only
    [RuntimeError] is handled around [json.load]. *)
Definition _read_config (E : environment) (B : bundle) (fs : filesystem)
    : result pyval :=
  let data := PyDict ∅ in
  let config_file_name := "config.json" in
  let config_path :=
    os_path.join (os_path.join (module_dir B) "scripts") config_file_name in
  let config_path :=
    if negb (os.isfile config_path fs) then
      let config_path :=
        os_path.join (os_path.join (os_path.dirname (sys_executable E)) "resources")
          config_file_name in
      if negb (os.isfile config_path fs) then
        match _MEIPASS B with
        | Some meipass =>
            os_path.join (os_path.join meipass "resources") config_file_name
        | None => config_path
        end
      else config_path
    else config_path in
  match files fs !! config_path with
  | None => Ok data                                       (* not os.path.isfile *)
  | Some text =>
      match json_load E text with
      | Some loaded => Ok loaded
      | None => Raise ValueError                          (* not a RuntimeError *)
      end
  end.

(** The places [_read_config] looks at, in order. *)
Definition packaged_config_candidates (E : environment) (B : bundle) : list string :=
  [os_path.join (os_path.join (module_dir B) "scripts") "config.json";
   os_path.join (os_path.join (os_path.dirname (sys_executable E)) "resources")
     "config.json"]
  ++ match _MEIPASS B with
     | Some meipass => [os_path.join (os_path.join meipass "resources") "config.json"]
     | None => []
     end.

(** A frozen executable unpacked under [/tmp/_MEI1]. *)
Definition frozen_bundle : bundle :=
  {| module_dir := "/tmp/_MEI1"; _MEIPASS := Some "/tmp/_MEI1" |}.

(** ** What a step leaves alone *)



(** * Properties *)

(** ** Sanity checks of the path functions *)

Example normpath_collapses :
  os_path.normpath "/opt//tools/./x/../proj" = "/opt/tools/proj".
Proof. reflexivity. Qed.

Example dirname_of_file :
  os_path.dirname "/home/user/.local/share/proj_app" = "/home/user/.local/share".
Proof. reflexivity. Qed.

Example int_examples :
  str.int " 28 " = Some 28%Z ∧ str.int "-5" = Some (-5)%Z
  ∧ str.int "+7" = Some 7%Z ∧ str.int "12L" = None ∧ str.int "" = None.
Proof. repeat split; reflexivity. Qed.

Example join_relative : os_path.join "/opt/tools" "proj" = "/opt/tools/proj".
Proof. reflexivity. Qed.


(** ** Sanity checks of the concrete host *)

Example flat_json_dump_load :
  flat_json.load (flat_json.dump (PyDict {["tag" := PyStr "1.0.0"; "p_install" := PyStr ""]}))
  = Some (PyDict {["tag" := PyStr "1.0.0"; "p_install" := PyStr ""]}).
Proof. vm_compute. reflexivity. Qed.

Example flat_json_rejects : flat_json.load "{not json" = None.
Proof. reflexivity. Qed.

Example pep440_examples :
  pep440.parse "vX" = None ∧ pep440.parse "" = None
  ∧ (is_prerelease posix_host <$> pep440.parse "1.9.9rc1") = Some true
  ∧ (is_prerelease posix_host <$> pep440.parse "2.1.0") = Some false.
Proof. repeat split; reflexivity. Qed.

(** ** The configuration store *)

Section ConfigStoreFacts.

Context (E : environment) (self : updater).

Abbreviation cfg := (config_file_path E self).
Abbreviation folder := (app_folder_path E self).

Lemma located_files fs : files (located E self fs) = files fs.
Proof. unfold located. by destruct (os.isdir _ _). Qed.

Lemma located_isdir fs : os.isdir folder (located E self fs) = true.
Proof.
  unfold located. destruct (os.isdir folder fs) eqn:Hd; [done|].
  unfold os.isdir. simpl. apply bool_decide_eq_true. set_solver.
Qed.

Lemma located_idem fs : located E self (located E self fs) = located E self fs.
Proof. unfold located at 1. by rewrite located_isdir. Qed.

Lemma located_id fs : os.isdir folder fs = true → located E self fs = fs.
Proof. intros H. unfold located. by rewrite H. Qed.

Lemma isfile_located p fs : os.isfile p (located E self fs) = os.isfile p fs.
Proof. unfold os.isfile. by rewrite located_files. Qed.

Lemma _get_app_folder_run fs :
  _get_app_folder E self fs = (Ok (Some folder), located E self fs).
Proof.
  unfold _get_app_folder, bind, get, os.makedirs, modify, ret, located.
  fold folder. destruct (os.isdir folder fs) eqn:Hd; simpl.
  - by rewrite Hd.
  - pose proof (located_isdir fs) as Hl. unfold located in Hl.
    rewrite Hd in Hl. fold folder in Hl. by rewrite Hl.
Qed.

Lemma _get_config_path_run fs :
  _get_config_path E self fs = (Ok cfg, located E self fs).
Proof.
  unfold _get_config_path, bind. by rewrite _get_app_folder_run.
Qed.

(** What a read returns, whatever the store holds. *)
Lemma get_config_data_run fs :
  get_config_data E self fs = (Ok (stored E self fs), located E self fs).
Proof.
  unfold get_config_data, stored, bind. rewrite _get_config_path_run.
  unfold get. rewrite located_files.
  destruct (files fs !! cfg) as [text|]; [|done].
  by destruct (json_load E text).
Qed.

Lemma _set_config_missing k v fs :
  os.isfile cfg fs = false →
  _set_config E self k v fs = (Ok false, located E self fs).
Proof.
  intros H. unfold _set_config, bind. rewrite _get_config_path_run.
  unfold get. by rewrite isfile_located, H.
Qed.

Lemma _set_config_present k v fs :
  os.isfile cfg fs = true →
  _set_config E self k v fs =
    match setitem (stored E self fs) k v with
    | Ok data =>
        (Ok true, {| files := <[cfg := json_dump E data]> (files fs);
                     dirs := dirs (located E self fs) |})
    | Raise e => (Raise e, located E self fs)
    end.
Proof.
  intros H. unfold _set_config, bind. rewrite _get_config_path_run.
  unfold get. rewrite isfile_located, H. simpl.
  rewrite !get_config_data_run, located_idem.
  assert (stored E self (located E self fs) = stored E self fs) as ->.
  { unfold stored. by rewrite located_files. }
  unfold lift.
  destruct (setitem _ k v) as [data|e]; [|done].
  unfold os.write_file, modify, ret. by rewrite located_files.
Qed.

Lemma _setup_config_creates fs r fs' :
  _setup_config E self fs = (Ok r, fs') → os.isfile cfg fs' = true.
Proof.
  unfold _setup_config, bind.
  destruct (_clean_old_config E self fs) as [[b|e] fs0]; [|done].
  rewrite _get_config_path_run. unfold get.
  destruct (os.isfile cfg (located E self fs0)) eqn:Hf; simpl.
  - intros [= <- <-]. done.
  - unfold os.write_file, modify. simpl.
    assert (Hnew : ∀ text,
      os.isfile cfg {| files := <[cfg := text]> (files (located E self fs0));
                       dirs := dirs (located E self fs0) |} = true).
    { intros text. unfold os.isfile. simpl. apply bool_decide_eq_true.
      rewrite lookup_insert_eq. eauto. }
    rewrite Hnew. simpl. intros [= <- <-]. apply Hnew.
Qed.

(** C6. Reading the store never raises; a missing file and a file that is
    not valid JSON both read as the empty mapping, and a file holding a JSON
    object reads as that mapping.  No file is touched by the read. *)
Theorem get_config_data_missing_corrupt_object fs :
  (os.isfile cfg fs = false →
     (get_config_data E self fs).1 = Ok (PyDict ∅))
  ∧ (∀ text, files fs !! cfg = Some text → json_load E text = None →
       (get_config_data E self fs).1 = Ok (PyDict ∅))
  ∧ (∀ text d, files fs !! cfg = Some text →
       json_load E text = Some (PyDict d) →
       (get_config_data E self fs).1 = Ok (PyDict d))
  ∧ files (get_config_data E self fs).2 = files fs.
Proof.
  rewrite get_config_data_run. unfold stored. simpl. repeat split.
  - intros H. unfold os.isfile in H. apply bool_decide_eq_false in H.
    destruct (files fs !! cfg) eqn:Hl; [|done].
    exfalso. apply H. eauto.
  - intros text -> ->. done.
  - intros text d -> ->. done.
  - apply located_files.
Qed.

(** C9. A write attempted while the store file does not exist returns
    [False] and changes no file (at most the application folder is created
    while the path is computed).  Hence a write that returns [True] found
    the file in place, and [_setup_config] is what puts it there. *)
Theorem set_config_without_store_file config_name config_value fs
    (Hmissing : os.isfile cfg fs = false) :
  (∃ fs', _set_config E self config_name config_value fs = (Ok false, fs')
          ∧ files fs' = files fs
          ∧ (os.isdir folder fs = true → fs' = fs))
  ∧ (∀ k v fs0 fs1, _set_config E self k v fs0 = (Ok true, fs1) →
       os.isfile cfg fs0 = true)
  ∧ (∀ fs0 r fs1, _setup_config E self fs0 = (Ok r, fs1) →
       os.isfile cfg fs1 = true).
Proof.
  split; [|split].
  - exists (located E self fs). rewrite _set_config_missing by done.
    split; [done|]. split; [apply located_files | apply located_id].
  - intros k v fs0 fs1 Hrun.
    destruct (os.isfile cfg fs0) eqn:Hf; [done|].
    rewrite _set_config_missing in Hrun by done. congruence.
  - apply _setup_config_creates.
Qed.

(** C7, as amended.  Once the store file exists and reads as a mapping [d0], writing
    [(k, v)] succeeds and the next read returns [d0] updated at [k]: the
    value read back at [k] is [v], for every string [v].  The JSON library
    is only asked to read back the text it has just written. *)
Theorem set_config_then_get_config_data (k v : string) fs d0
    (Hstore : os.isfile cfg fs = true)
    (Hread : (get_config_data E self fs).1 = Ok (PyDict d0))
    (Hjson : json_load E (json_dump E (PyDict (<[k := PyStr v]> d0)))
             = Some (PyDict (<[k := PyStr v]> d0))) :
  ∃ fs1 d,
    _set_config E self k (PyStr v) fs = (Ok true, fs1)
    ∧ (get_config_data E self fs1).1 = Ok (PyDict d)
    ∧ d = <[k := PyStr v]> d0
    ∧ d !! k = Some (PyStr v).
Proof.
  rewrite _set_config_present by done.
  rewrite get_config_data_run in Hread. injection Hread as Hread.
  rewrite Hread. simpl.
  eexists _, _. split; [done|].
  rewrite get_config_data_run. unfold stored. simpl.
  rewrite lookup_insert_eq, Hjson. simpl.
  split; [done|]. split; [done|]. apply lookup_insert_eq.
Qed.

End ConfigStoreFacts.

Example config_file_path_solstice :
  config_file_path posix_host solstice = solstice_cfg.
Proof. reflexivity. Qed.

Example setup_config_on_empty_disk :
  _setup_config posix_host solstice empty_disk
  = (Ok (Some solstice_cfg), disk_with_store "{}").
Proof. vm_compute. reflexivity. Qed.

Example set_config_on_non_object_store :
  (_set_config posix_host solstice "tag" (PyStr "1.0.0") (disk_with_store "null")).1
  = Raise TypeError.
Proof. reflexivity. Qed.

(** The three cases of C6 on concrete disks. *)
Lemma get_config_data_missing_corrupt_object_witness :
  (get_config_data posix_host solstice empty_disk).1 = Ok (PyDict ∅)
  ∧ (get_config_data posix_host solstice (disk_with_store "{not json")).1
    = Ok (PyDict ∅)
  ∧ (get_config_data posix_host solstice (disk_with_store pinned_1_0_0)).1
    = Ok (PyDict {[ "tag" := PyStr "1.0.0" ]}).
Proof.
  split; [|split].
  - exact (proj1 (get_config_data_missing_corrupt_object
                    posix_host solstice empty_disk) eq_refl).
  - exact (proj1 (proj2 (get_config_data_missing_corrupt_object
                           posix_host solstice (disk_with_store "{not json")))
             "{not json" eq_refl eq_refl).
  - exact (proj1 (proj2 (proj2 (get_config_data_missing_corrupt_object
                                  posix_host solstice
                                  (disk_with_store pinned_1_0_0))))
             pinned_1_0_0 {[ "tag" := PyStr "1.0.0" ]} eq_refl eq_refl).
Defined.

(** C9 on the empty disk. *)
Lemma set_config_without_store_file_witness :
  os.isfile (config_file_path posix_host solstice) empty_disk = false
  ∧ ∃ fs', _set_config posix_host solstice "tag" (PyStr "1.0.0") empty_disk
           = (Ok false, fs')
           ∧ files fs' = files empty_disk.
Proof.
  split; [reflexivity|].
  destruct (set_config_without_store_file posix_host solstice
              "tag" (PyStr "1.0.0") empty_disk eq_refl)
    as [(fs' & Hrun & Hfiles & _) _].
  exists fs'. split; assumption.
Defined.

(** C7 with the empty string as value, on a store that already pins a tag. *)
Lemma set_config_then_get_config_data_witness :
  ∃ fs1 d,
    _set_config posix_host solstice "solstice_install" (PyStr "")
      (disk_with_store pinned_1_0_0) = (Ok true, fs1)
    ∧ (get_config_data posix_host solstice fs1).1 = Ok (PyDict d)
    ∧ d = <["solstice_install" := PyStr ""]> {[ "tag" := PyStr "1.0.0" ]}
    ∧ d !! "solstice_install" = Some (PyStr "").
Proof.
  apply (set_config_then_get_config_data posix_host solstice
           "solstice_install" "" (disk_with_store pinned_1_0_0)
           {[ "tag" := PyStr "1.0.0" ]}); reflexivity.
Defined.

(** C7 as it is stated does not hold: a write followed by a read does not
    give the value back on every disk.  Without a store file the write is
    refused ([False], nothing written), so the read that follows yields the
    empty mapping, which has no entry for the key. *)
Lemma set_config_round_trip_needs_store :
  ¬ (∀ (k v : string) fs,
       ∃ d, ((_set_config posix_host solstice k (PyStr v) ;;;
              get_config_data posix_host solstice) fs).1 = Ok (PyDict d)
            ∧ d !! k = Some (PyStr v)).
Proof.
  intros Hround_trip.
  destruct (Hround_trip "tag" "" empty_disk) as (d & Hread & Hvalue).
  vm_compute in Hread. injection Hread as <-.
  vm_compute in Hvalue. discriminate Hvalue.
Qed.

(** ** The release catalogue *)

Example sanitize_examples :
  _sanitize_github_version "v1.2.3" = "1.2.3"
  ∧ _sanitize_github_version "  nightly " = "nightly"
  ∧ _sanitize_github_version "1..2.3" = "2.3"
  ∧ _sanitize_github_version "release-2.0.0rc12 (Latest)" = "2.0.0rc1"
  ∧ _sanitize_github_version "7" = "7".
Proof. repeat split; reflexivity. Qed.

Section ReleaseCatalogFacts.

Context (E : environment) (self : updater).

Lemma first_acceptable_app pre l1 l2 :
  first_acceptable E pre (l1 ++ l2) =
    match first_acceptable E pre l1 with
    | Some v => Some v
    | None => first_acceptable E pre l2
    end.
Proof.
  unfold first_acceptable. induction l1 as [|t l1 IH]; [done|].
  simpl. destruct (acceptable E pre _); [done|]. apply IH.
Qed.

Lemma skipped_app pre l1 l2 :
  skipped E pre (l1 ++ l2) =
    match first_acceptable E pre l1 with
    | Some _ => skipped E pre l1
    | None => skipped E pre l1 ++ skipped E pre l2
    end.
Proof.
  unfold first_acceptable. induction l1 as [|t l1 IH]; [done|].
  simpl. destruct (acceptable E pre _); [done|].
  rewrite IH. by destruct (find _ _).
Qed.

(** One child of a tag time line: an acceptable tag ends the scan, any other
    is passed over, and a tag that does not parse leaves an error record. *)
Lemma scan_timeline_run pre tags log :
  ∃ more,
    scan_timeline E pre tags log
    = (Ok (first_acceptable E pre (omap id tags)), log ++ more)
    ∧ ∀ t, t ∈ skipped E pre (omap id tags) → parse_version E t = None →
        LogError ("Encountered invalid version " +:+ t) ∈ more.
Proof.
  revert log. induction tags as [|[text|] tags IH]; intros log.
  - exists []. rewrite app_nil_r. split; [done|]. intros t Ht. inversion Ht.
  - simpl scan_timeline. unfold bind at 1, try_except, bind, logger, modify, lift, ret.
    simpl. unfold first_acceptable, acceptable. simpl.
    destruct (parse_version E (_sanitize_github_version text)) as [v|] eqn:Hp.
    + simpl. destruct (negb (is_prerelease E v) || pre) eqn:Hacc; simpl.
      * eexists. rewrite <- app_assoc. split; [reflexivity|].
        intros t Ht. inversion Ht.
      * destruct (IH (log ++ [LogDebug ("Trying version " +:+ _sanitize_github_version text)]))
          as (more & -> & Hlog).
        eexists. rewrite <- app_assoc. split; [reflexivity|].
        intros t Ht Hnone. apply elem_of_cons in Ht as [->|Ht]; [congruence|].
        apply elem_of_app. right. by apply Hlog.
    + simpl.
      destruct (IH ((log ++ [LogDebug ("Trying version " +:+ _sanitize_github_version text)])
                      ++ [LogError ("Encountered invalid version "
                                    +:+ _sanitize_github_version text)]))
        as (more & -> & Hlog).
      eexists. rewrite <- !app_assoc. split; [reflexivity|].
      intros t Ht Hnone. simpl.
      apply elem_of_cons in Ht as [->|Ht].
      * apply elem_of_cons. right. apply elem_of_cons. by left.
      * do 2 (apply elem_of_cons; right). by apply Hlog.
  - simpl. apply IH.
Qed.

Lemma candidates_cons pre r page :
  candidates pre (r :: page) = candidates pre [r] ++ candidates pre page.
Proof. unfold candidates. simpl. by rewrite app_nil_r. Qed.

Lemma candidates_timeline pre tags :
  candidates pre [TimelineTags tags] = omap id tags.
Proof. unfold candidates. simpl. by rewrite app_nil_r. Qed.

Lemma candidates_formal pre label_latest label_prerelease target :
  candidates pre [FormalRelease label_latest label_prerelease target] =
    match target with
    | Some text => if (if pre then label_prerelease else label_latest)
                   then [text] else []
    | None => []
    end.
Proof. unfold candidates. simpl. rewrite app_nil_r. by destruct target. Qed.

Lemma first_acceptable_one pre text :
  first_acceptable E pre [text] =
    if acceptable E pre (_sanitize_github_version text)
    then Some (_sanitize_github_version text) else None.
Proof. unfold first_acceptable. simpl. by destruct (acceptable _ _ _). Qed.

Lemma skipped_one pre text :
  skipped E pre [text] =
    if acceptable E pre (_sanitize_github_version text)
    then [] else [_sanitize_github_version text].
Proof. simpl. by destruct (acceptable _ _ _). Qed.

Lemma scan_entries_run pre version page log :
  targets_present pre page →
  ∃ more,
    scan_entries E true pre version page log
    = (Ok (match first_acceptable E pre (candidates pre page) with
           | Some v => Some v
           | None => version
           end), log ++ more)
    ∧ ∀ t, t ∈ skipped E pre (candidates pre page) → parse_version E t = None →
        LogError ("Encountered invalid version " +:+ t) ∈ more.
Proof.
  intros Hpage. revert log.
  induction Hpage as [|r page Hr Hpage IH]; intros log.
  - exists []. rewrite app_nil_r. split; [done|]. intros t Ht. inversion Ht.
  - rewrite candidates_cons, first_acceptable_app, skipped_app.
    set (later := first_acceptable E pre (candidates pre page)) in *.
    set (later_skipped := skipped E pre (candidates pre page)) in *.
    destruct r as [tags|label_latest label_prerelease target].
    + rewrite candidates_timeline.
      simpl scan_entries. unfold bind at 1.
      destruct (scan_timeline_run pre tags log) as (more1 & -> & Hlog1).
      destruct (first_acceptable E pre (omap id tags)) as [v|].
      * exists more1. split; [done|]. apply Hlog1.
      * destruct (IH (log ++ more1)) as (more2 & -> & Hlog2).
        exists (more1 ++ more2). rewrite app_assoc. split; [done|].
        intros t Ht Hnone. apply elem_of_app.
        apply elem_of_app in Ht as [Ht|Ht]; [left; by apply Hlog1 | right; by apply Hlog2].
    + rewrite candidates_formal.
      simpl scan_entries. unfold bind at 1, logger, modify.
      destruct (if pre then label_prerelease else label_latest) eqn:Hlabel.
      * destruct target as [text|]; [|simpl in Hr; congruence].
        rewrite first_acceptable_one, skipped_one.
        unfold bind at 1, try_except, bind, lift, ret, logger, modify.
        unfold acceptable. cbn [Version].
        destruct (parse_version E (_sanitize_github_version text)) as [v|] eqn:Hp.
        -- destruct (negb (is_prerelease E v) || pre) eqn:Hacc.
           ++ eexists. split; [reflexivity|]. intros t Ht. inversion Ht.
           ++ destruct (IH ((log ++ [LogDebug "Inside formal release"])
                              ++ [LogDebug ("Found a pre-release version: "
                                            +:+ _sanitize_github_version text)]))
                as (more & -> & Hlog).
              eexists. rewrite <- !app_assoc. split; [reflexivity|].
              intros t Ht Hnone. apply elem_of_cons in Ht as [->|Ht]; [congruence|].
              simpl. do 2 (apply elem_of_cons; right). by apply Hlog.
        -- cbn [is_InvalidVersion].
           destruct (IH ((log ++ [LogDebug "Inside formal release"])
                           ++ [LogError ("Encountered invalid version "
                                         +:+ _sanitize_github_version text)]))
             as (more & -> & Hlog).
           eexists. rewrite <- !app_assoc. split; [reflexivity|].
           intros t Ht Hnone. simpl.
           apply elem_of_cons in Ht as [->|Ht].
           ++ apply elem_of_cons. right. apply elem_of_cons. by left.
           ++ do 2 (apply elem_of_cons; right). by apply Hlog.
      * assert (Hnil : match target with
                       | Some text => []
                       | None => []
                       end = @nil string) by (by destruct target).
        rewrite Hnil. cbn [first_acceptable fmap list_fmap find skipped app].
        destruct (IH (log ++ [LogDebug "Inside formal release"]))
          as (more & -> & Hlog).
        eexists. rewrite <- app_assoc. split; [reflexivity|].
        intros t Ht Hnone. simpl. apply elem_of_cons. right. by apply Hlog.
Qed.

Lemma first_acceptable_acceptable pre tags v :
  first_acceptable E pre tags = Some v → acceptable E pre v = true.
Proof. unfold first_acceptable. intros H. by apply find_some in H as [_ H]. Qed.

(** C5, as amended.  With [validate=True] the scan returns the first
    candidate in listing order whose sanitized tag parses and whose
    pre-release status the [pre] flag allows, where the candidates are the
    linked children of tag time lines and the formal releases carrying the
    label the scan looks for ([label-latest], or [label-prerelease] when
    [pre]).  A candidate that does not parse is passed over and leaves an
    error record in the log; it never ends the scan. *)
Theorem get_latest_deploy_tag_first_candidate pre page log
    (Hproduction : _dev self = false)
    (Hempty : parse_version E "" = None)
    (Hpage : targets_present pre page) :
  ∃ more,
    _get_latest_deploy_tag E self true true pre page log
    = (Ok (first_acceptable E pre (candidates pre page)), log ++ more)
    ∧ ∀ t, t ∈ skipped E pre (candidates pre page) → parse_version E t = None →
        LogError ("Encountered invalid version " +:+ t) ∈ more.
Proof.
  unfold _get_latest_deploy_tag. rewrite Hproduction.
  change (String.eqb (_get_deploy_repository_url self true) "") with false.
  cbv iota. unfold bind at 1.
  destruct (scan_entries_run pre None page log Hpage) as (more & -> & Hlog).
  destruct (first_acceptable E pre (candidates pre page)) as [v|] eqn:Hfirst.
  - apply first_acceptable_acceptable in Hfirst. unfold acceptable in Hfirst.
    destruct (String.eqb v "") eqn:Hv.
    { apply String.eqb_eq in Hv as ->. by rewrite Hempty in Hfirst. }
    unfold try_except, bind, lift, ret. cbn [Version].
    destruct (parse_version E v); [|done].
    exists more. done.
  - unfold bind, logger, modify, ret.
    eexists. rewrite <- app_assoc. split; [reflexivity|].
    intros t Ht Hnone. apply elem_of_app. left. by apply Hlog.
Qed.

End ReleaseCatalogFacts.

(** C5 on a tag time line whose first entries are malformed or
    pre-releases. *)
Lemma get_latest_deploy_tag_first_candidate_witness :
  ∃ more,
    _get_latest_deploy_tag posix_host solstice true true false
      [TimelineTags [Some "vX"; None; Some ""; Some "2.1.0rc1"; Some "v2.0.0"; Some "1.9.9"]] []
    = (Ok (Some "2.0.0"), [] ++ more)
    ∧ ∀ t, t ∈ ["vX"; ""; "2.1.0rc1"] → parse_version posix_host t = None →
        LogError ("Encountered invalid version " +:+ t) ∈ more.
Proof.
  apply (get_latest_deploy_tag_first_candidate posix_host solstice false
           [TimelineTags [Some "vX"; None; Some ""; Some "2.1.0rc1"; Some "v2.0.0"; Some "1.9.9"]] []).
  - reflexivity.
  - reflexivity.
  - repeat constructor.
Defined.

(** C5 as it is stated does not hold: a formal release without the label
    the scan looks for is passed over although its tag is valid.  With
    pre-releases refused, a page that lists an unlabelled [2.1.0] before the
    [2.0.0] that carries the latest label yields [2.0.0], not the first
    valid entry [2.1.0]. *)
Lemma get_latest_deploy_tag_not_first_listed :
  ¬ (∀ pre page, targets_present pre page →
       (_get_latest_deploy_tag posix_host solstice true true pre page []).1
       = Ok (first_acceptable posix_host pre (listed_tags page))).
Proof.
  intros Hfirst.
  assert (Heq := Hfirst false
    [FormalRelease false false (Some "2.1.0");
     FormalRelease true false (Some "2.0.0")]
    ltac:(repeat constructor)).
  vm_compute in Heq. discriminate Heq.
Qed.

Example get_latest_deploy_tag_on_tag_time_line :
  (_get_latest_deploy_tag posix_host solstice true true false
     [TimelineTags [Some "2.1.0"; Some "2.0.0"; Some "1.9.9rc1"]] []).1
  = Ok (Some "2.1.0")
  ∧ (_get_latest_deploy_tag posix_host solstice true true false
       [TimelineTags [Some "vX"; Some ""; Some "1.9.9"]] []).1
    = Ok (Some "1.9.9")
  ∧ (_get_latest_deploy_tag posix_host solstice true true false [] []).1
    = Ok None.
Proof. repeat split; reflexivity. Qed.

Example get_latest_deploy_tag_needs_label :
  (_get_latest_deploy_tag posix_host solstice true true true
     [FormalRelease true false (Some "2.1.0");
      FormalRelease false true (Some "2.1.0rc1")] []).1 = Ok (Some "2.1.0rc1")
  ∧ (_get_latest_deploy_tag posix_host solstice true true false
       [FormalRelease false false (Some "2.1.0");
        FormalRelease true false (Some "2.0.0")] []).1 = Ok (Some "2.0.0").
Proof. split; reflexivity. Qed.

(** ** Resolution of the deploy tag *)

Section DeployTagFacts.

Context (E : environment) (self : updater).

(** With a pinned tag in the store and no acceptable release on the page,
    tag resolution ends in an exception: [InvalidVersion] when the pinned tag
    does not parse, [TypeError] from [Version(None)] otherwise. *)
Lemma _get_deploy_tag_without_latest page upgrade fs d t :
  _dev self = false →
  stored E self fs = PyDict d →
  d !! "tag" = Some (PyStr t) →
  t ≠ "" →
  (_get_latest_deploy_tag E self true true false page []).1 = Ok None →
  (_get_deploy_tag E self page upgrade fs).1 =
    Raise (match parse_version E t with
           | Some _ => TypeError
           | None => InvalidVersion
           end).
Proof.
  intros Hproduction Hstored Htag Ht Hlatest.
  unfold _get_deploy_tag. rewrite Hproduction. unfold bind at 1.
  rewrite get_config_data_run, Hstored.
  unfold bind at 1, lift at 1. cbn [dict_get]. rewrite Htag. cbn [default].
  unfold bind at 1, lift at 1. rewrite Hlatest.
  cbn [truthy negb of_optional_str id].
  assert (String.eqb t "" = false) as -> by by apply String.eqb_neq.
  cbn [negb]. unfold bind, lift. cbn [Version].
  by destruct (parse_version E t).
Qed.

End DeployTagFacts.

(** C1.  Tag resolution raises instead of going on with the value that is
    valid: with the pin [1.0.0] in the store and a releases page without any
    release, [Version(None)] raises [TypeError]; with the pin [nightly] in
    the store and [2.0.0] on the page, [Version('nightly')] raises
    [InvalidVersion]. *)
Theorem get_deploy_tag_raises_on_unparseable :
  (_get_deploy_tag posix_host solstice [] false
     (disk_with_store pinned_1_0_0)).1 = Raise TypeError
  ∧ (_get_deploy_tag posix_host solstice [TimelineTags [Some "2.0.0"]] false
       (disk_with_store pinned_nightly)).1 = Raise InvalidVersion.
Proof. split; vm_compute; reflexivity. Qed.

Example get_deploy_tag_decline_keeps_pin :
  _get_deploy_tag posix_host solstice [TimelineTags [Some "2.0.0"]] false
    (disk_with_store pinned_1_0_0)
  = (Ok (PyStr "1.0.0"), disk_with_store pinned_1_0_0).
Proof. vm_compute. reflexivity. Qed.

Example get_deploy_tag_accept_upgrades :
  (_get_deploy_tag posix_host solstice [TimelineTags [Some "2.0.0"]] true
     (disk_with_store pinned_1_0_0)).1 = Ok (PyStr "2.0.0").
Proof. vm_compute. reflexivity. Qed.

Example get_deploy_tag_adopts_latest :
  (_get_deploy_tag posix_host solstice [TimelineTags [Some "3.0.0"]] false
     (disk_with_store (flat_json.dump (PyDict ∅)))).1 = Ok (PyStr "3.0.0").
Proof. vm_compute. reflexivity. Qed.

(** ** The artifact fetcher *)

Example repo_name_of_archive_url :
  repo_name (_get_deploy_repository_url solstice false) = "1.0.0.tar.gz".
Proof. reflexivity. Qed.

Example healthy_download :
  (_download_deployment_requirements solstice healthy_server "/tmp/tmpx" fresh_tmpdir).1
  = Ok (true, set_requirements_path solstice
                "/tmp/tmpx/solstice-launcher-1.0.0/docs/requirements.txt").
Proof. vm_compute. reflexivity. Qed.

Section ArtifactFetcherFacts.

Context (self : updater) (R : remote).

Lemma quiet_ret {A} (a : A) : quiet (ret a).
Proof. by intros s. Qed.

Lemma quiet_raise {A} e : quiet (@raise fetch_state A e).
Proof. by intros s. Qed.

Lemma quiet_lift {A} (r : result A) : quiet (lift r).
Proof. by intros s. Qed.

Lemma quiet_get : quiet (@get fetch_state).
Proof. by intros s. Qed.

Lemma quiet_set_workdir w : quiet (set_workdir w).
Proof. by intros s. Qed.

Lemma quiet_bind {A B} (m : py fetch_state A) (k : A → py fetch_state B) :
  quiet m → (∀ a, quiet (k a)) → quiet (bind m k).
Proof.
  intros Hm Hk s. unfold bind. specialize (Hm s).
  destruct (m s) as [[a|e] s1]; simpl in *; [|done].
  destruct (Hk a s1) as [-> ->]. done.
Qed.

Lemma quiet_try_except {A} (m : py fetch_state A) handled h :
  quiet m → (∀ e, quiet (h e)) → quiet (try_except m handled h).
Proof.
  intros Hm Hh s. unfold try_except. specialize (Hm s).
  destruct (m s) as [[a|e] s1]; simpl in *; [done|].
  destruct (handled e); [|done].
  destruct (Hh e s1) as [-> ->]. done.
Qed.

Lemma quiet_read_chunks name total sofar chunks broken :
  quiet (read_chunks name total sofar chunks broken).
Proof.
  revert sofar. induction chunks as [|chunk rest IH]; intros sofar; simpl.
  - destruct broken; [apply quiet_raise | apply quiet_ret].
  - apply quiet_bind; [apply quiet_get|]. intros s.
    apply quiet_bind; [apply quiet_set_workdir|]. intros _.
    destruct (String.eqb chunk ""); [apply quiet_ret|].
    apply quiet_bind; [|intros _; apply IH].
    unfold _chunk_report. destruct (total =? 0)%Z; [apply quiet_raise | apply quiet_ret].
Qed.

Lemma quiet__chunk_read rsp name : quiet (_chunk_read rsp name).
Proof.
  unfold _chunk_read.
  apply quiet_bind; [apply quiet_get|]. intros s.
  apply quiet_bind; [apply quiet_lift|]. intros opened.
  apply quiet_bind; [apply quiet_set_workdir|]. intros _.
  destruct (content_length rsp) as [header|]; [|apply quiet_ret].
  destruct (String.eqb header ""); [apply quiet_ret|].
  destruct (str.int header); [|apply quiet_raise].
  apply quiet_bind; [apply quiet_read_chunks|]. intros got. apply quiet_ret.
Qed.

Lemma quiet__unzip_file name : quiet (_unzip_file R name).
Proof.
  unfold _unzip_file. apply quiet_try_except; [|intros e; apply quiet_raise].
  apply quiet_bind; [apply quiet_get|]. intros s.
  destruct (tmpdir.lookup name (workdir s)) as [[bytes|sub]|]; try apply quiet_raise.
  destruct (extractall R _ bytes (workdir s)) as [after ok].
  apply quiet_bind; [apply quiet_set_workdir|]. intros _.
  destruct ok; [apply quiet_ret | apply quiet_raise].
Qed.

(** One download makes one request, whatever its outcome. *)
Lemma _download_file_requests name s :
  requests (_download_file R name s).2 = S (requests s)
  ∧ retries_logged (_download_file R name s).2 = retries_logged s.
Proof.
  destruct (_download_file R name s) as [r s'] eqn:Hrun. simpl.
  unfold _download_file in Hrun.
  set (s1 := {| workdir := workdir s; requests := S (requests s);
                retries_logged := retries_logged s |}).
  set (fetch := match urlopen R (requests s) with
                | Some data => _chunk_read data name ;;; ret tt
                | None => raise URLError
                end).
  assert (Hfetch : quiet fetch).
  { subst fetch. destruct (urlopen R (requests s)) as [data|].
    - apply quiet_bind; [apply quiet__chunk_read | intros _; apply quiet_ret].
    - apply quiet_raise. }
  destruct (Hfetch s1) as [Hr Hl].
  unfold bind at 1, try_except in Hrun.
  change (bind get _ s) with (fetch s1) in Hrun.
  destruct (fetch s1) as [[u|e] s2]; simpl in *.
  - unfold bind, get in Hrun.
    destruct (tmpdir.lookup name (workdir s2)); by injection Hrun as <- <-.
  - by injection Hrun as <- <-.
Qed.

(** One download-and-extract cycle makes one request. *)
Lemma _try_download_unizip_requests name s :
  requests (_try_download_unizip_deployment_requirements R name s).2 = S (requests s)
  ∧ retries_logged (_try_download_unizip_deployment_requirements R name s).2
    = retries_logged s.
Proof.
  destruct (_try_download_unizip_deployment_requirements R name s)
    as [r s'] eqn:Hrun. simpl.
  unfold _try_download_unizip_deployment_requirements, bind at 1 in Hrun.
  pose proof (_download_file_requests name s) as [Hr Hl].
  destruct (_download_file R name s) as [[valid|e] s1]; simpl in *;
    [|by injection Hrun as <- <-].
  destruct valid; simpl in Hrun; [|by injection Hrun as <- <-].
  pose proof (quiet_try_except (_unzip_file R name) any_exception (λ _, ret false)
                (quiet__unzip_file name) (λ _, quiet_ret false) s1) as [Hr' Hl'].
  unfold bind in Hrun.
  destruct (try_except (_unzip_file R name) any_exception (λ _, ret false) s1)
    as [[valid|e] s2]; simpl in *.
  - destruct valid; injection Hrun as <- <-; split; congruence.
  - injection Hrun as <- <-; split; congruence.
Qed.

(** The loop always returns, after at most [11 - total_tries] cycles. *)
Lemma retry_loop_requests name total_tries s :
  requests (retry_loop R name total_tries s).2 ≤ requests s + (11 - total_tries).
Proof.
  revert s. funelim (retry_loop R name total_tries); intros s.
  - simpl. lia.
  - unfold bind at 1.
    pose proof (_try_download_unizip_requests name s) as [Hr _].
    destruct (_try_download_unizip_deployment_requirements R name s)
      as [[valid|e] s1]; simpl in *; [|lia].
    destruct valid; simpl; [lia|].
    unfold bind, modify.
    match goal with IH : bool → _ |- _ => etrans; [apply (IH false tt s)|] end.
    simpl. lia.
Qed.

(** When no cycle ever succeeds, the loop runs until [total_tries] has passed
    10: from 0, that is eleven cycles. *)
Lemma retry_loop_all_fail name :
  (∀ s, (_try_download_unizip_deployment_requirements R name s).1 = Ok false) →
  ∀ total_tries s, total_tries ≤ 11 →
    (retry_loop R name total_tries s).1 = Ok false
    ∧ requests (retry_loop R name total_tries s).2 = requests s + (11 - total_tries).
Proof.
  intros Hfail total_tries.
  funelim (retry_loop R name total_tries); intros s Hle.
  - simpl. split; [done|]. lia.
  - unfold bind at 1 3.
    pose proof (_try_download_unizip_requests name s) as [Hr _].
    pose proof (Hfail s) as Hs.
    destruct (_try_download_unizip_deployment_requirements R name s)
      as [[valid|e] s1]; simpl in *; [|done].
    injection Hs as ->.
    unfold bind, modify.
    match goal with
    | IH : bool → _ |- _ =>
        destruct (IH false tt s Hfail
                    {| workdir := workdir s1; requests := requests s1;
                       retries_logged := retries_logged s1 ++ [S total_tries] |})
          as [Hres Hreq]; [lia|]
    end.
    split; [done|]. rewrite Hreq. simpl. lia.
Qed.

Lemma string_app_nil_r (a : string) : a +:+ "" = a.
Proof.
  induction a as [|c a IH]; [done|].
  change (String c (a +:+ "") = String c a). by rewrite IH.
Qed.

Lemma string_app_assoc (a b c : string) : (a +:+ b) +:+ c = a +:+ (b +:+ c).
Proof.
  induction a as [|x a IH]; [done|].
  change (String x ((a +:+ b) +:+ c) = String x (a +:+ (b +:+ c))).
  by rewrite IH.
Qed.

Lemma tmpdir_lookup_append name chunk entries old :
  tmpdir.lookup name entries = Some (File old) →
  tmpdir.lookup name (tmpdir.append name chunk entries)
  = Some (File (old +:+ chunk)).
Proof.
  induction entries as [|[n x] rest IH]; [done|]. simpl.
  destruct (String.eqb n name) eqn:Hn.
  - intros [= ->]. simpl. by rewrite Hn.
  - intros H. simpl. rewrite Hn. by apply IH.
Qed.

(** The chunks of one answer are appended to what the target already held. *)
Lemma read_chunks_appends name total chunks sofar s old :
  total ≠ 0%Z →
  Forall (λ chunk, chunk ≠ "") chunks →
  tmpdir.lookup name (workdir s) = Some (File old) →
  ∃ n s', read_chunks name total sofar chunks false s = (Ok n, s')
          ∧ tmpdir.lookup name (workdir s')
            = Some (File (old +:+ String.concat "" chunks)).
Proof.
  intros Htotal Hchunks. revert sofar s old.
  induction Hchunks as [|chunk rest Hchunk Hrest IH]; intros sofar s old Hold.
  - simpl. exists sofar, s. split; [done|].
    rewrite Hold. simpl String.concat. by rewrite string_app_nil_r.
  - cbn [read_chunks]. unfold bind at 1, get. unfold bind at 1, set_workdir, modify.
    apply String.eqb_neq in Hchunk as Hneq. rewrite Hneq.
    unfold bind at 1, _chunk_report.
    apply Z.eqb_neq in Htotal as Hz. rewrite Hz. unfold ret at 1.
    edestruct (IH (sofar + String.length chunk)) as (n & s' & -> & Hs').
    { simpl. by apply tmpdir_lookup_append. }
    exists n, s'. split; [done|]. rewrite Hs'. do 2 f_equal.
    assert (Hconcat : String.concat "" (chunk :: rest)
                      = chunk +:+ String.concat "" rest).
    { destruct rest; simpl String.concat; [by rewrite string_app_nil_r | done]. }
    by rewrite Hconcat, string_app_assoc.
Qed.

(** A download into a target that already holds [old] leaves [old]
    followed by the bytes fetched. *)
Lemma _download_file_appends name s rsp header total old :
  tmpdir.lookup name (workdir s) = Some (File old) →
  urlopen R (requests s) = Some rsp →
  content_length rsp = Some header → header ≠ "" →
  str.int header = Some total → total ≠ 0%Z → broken rsp = false →
  Forall (λ chunk, chunk ≠ "") (body rsp) →
  ∃ s', _download_file R name s = (Ok true, s')
        ∧ tmpdir.lookup name (workdir s')
          = Some (File (old +:+ String.concat "" (body rsp))).
Proof.
  intros Hold Hopen Hlength Hheader Hint Htotal Hbroken Hbody.
  unfold _download_file, bind at 1, try_except, bind at 1, get.
  unfold bind at 1, modify. rewrite Hopen.
  unfold bind at 1, _chunk_read, bind at 1, get.
  unfold bind at 1, lift, tmpdir.open_append. simpl workdir. rewrite Hold.
  unfold bind at 1, set_workdir, modify. rewrite Hlength, Hbroken, Hint.
  apply String.eqb_neq in Hheader. rewrite Hheader.
  unfold bind at 1.
  edestruct (read_chunks_appends name total (body rsp) 0) as (n & s' & -> & Hs');
    [done..| |].
  { simpl. exact Hold. }
  unfold ret at 1 2. unfold bind, get. rewrite Hs'. by exists s'.
Qed.

Lemma fold_keep_last {A B} (g : A → option B) (l : list A) (acc : option B) :
  fold_left (λ acc x, match g x with Some y => Some y | None => acc end) l acc
  = match last (omap g l) with Some y => Some y | None => acc end.
Proof.
  revert acc. induction l as [|x l IH]; intros acc; [done|].
  cbn [fold_left omap list_omap]. rewrite IH. destruct (g x) as [y|]; [|done].
  rewrite last_cons. by destruct (last _).
Qed.

(** The search keeps the requirements file of the last directory, in walk
    order, that has one; it fails exactly when no directory has one. *)
Lemma find_requirements_last dirname entries :
  find_requirements self dirname entries
  = last (requirements_in_walk_order self dirname entries).
Proof.
  unfold find_requirements, requirements_in_walk_order.
  set (g := λ '(root, _, files),
              os_path.join root
                <$> List.find (String.eqb (_requirements_file_name self)) files).
  generalize (tmpdir.walk dirname (Dir entries)). intros visited.
  transitivity (match last (omap g visited) with
                | Some y => Some y
                | None => None
                end); [|by destruct (last _)].
  rewrite <- (fold_keep_last g). generalize (@None string).
  induction visited as [|[[root subdirs] names] visited IH]; intros acc; [done|].
  cbn [fold_left]. rewrite IH. f_equal. unfold g.
  by destruct (find _ names).
Qed.

End ArtifactFetcherFacts.

(** C2.  The loop stops, but one cycle late: the test [total_tries > 10]
    lets the cycle numbered 10 (counting from 0) run, so a download that
    never succeeds is tried eleven times before [False] is returned, and
    the warning is written with the counts 1 to 11. *)
Theorem download_deployment_requirements_eleven_cycles :
  (_download_deployment_requirements solstice damaged_server "/tmp/tmpx" fresh_tmpdir).1
  = Ok (false, solstice)
  ∧ requests
      (_download_deployment_requirements solstice damaged_server "/tmp/tmpx" fresh_tmpdir).2
    = 11
  ∧ retries_logged
      (_download_deployment_requirements solstice damaged_server "/tmp/tmpx" fresh_tmpdir).2
    = [1; 2; 3; 4; 5; 6; 7; 8; 9; 10; 11].
Proof. vm_compute. repeat split; reflexivity. Qed.

(** C3.  The target is opened in append mode and never removed between
    cycles.  After a first answer that cannot be extracted, the retry
    receives the intact archive, yet the target then holds the damaged
    bytes followed by the intact ones, the extraction fails again, and so
    does every later cycle: the download as a whole fails although the
    server has served an intact archive ten times. *)
Theorem retry_appends_to_failed_download :
  ((_try_download_unizip_deployment_requirements recovering_server "1.0.0.tar.gz" ;;;
    _try_download_unizip_deployment_requirements recovering_server "1.0.0.tar.gz")
     fresh_tmpdir).1 = Ok false
  ∧ tmpdir.lookup "1.0.0.tar.gz"
      (workdir
         ((_try_download_unizip_deployment_requirements recovering_server "1.0.0.tar.gz" ;;;
           _try_download_unizip_deployment_requirements recovering_server "1.0.0.tar.gz")
            fresh_tmpdir).2)
    = Some (File ("solstice-1.0" +:+ intact_archive))
  ∧ (_download_deployment_requirements solstice recovering_server "/tmp/tmpx" fresh_tmpdir).1
    = Ok (false, solstice).
Proof. vm_compute. repeat split; reflexivity. Qed.

(** C4.  The [break] leaves the loop over the files of one directory only,
    so the walk goes on and a later directory with a requirements file
    replaces the path found first: in a release that has
    [requirements.txt] at its top and under [docs], the path recorded is the
    one under [docs], while the first one met in walk order is the one at
    the top. *)
Theorem find_requirements_keeps_last_match :
  find_requirements solstice "/tmp/tmpx" release_tree
  = Some "/tmp/tmpx/solstice-launcher-1.0.0/docs/requirements.txt"
  ∧ head (requirements_in_walk_order solstice "/tmp/tmpx" release_tree)
    = Some "/tmp/tmpx/solstice-launcher-1.0.0/requirements.txt"
  ∧ (_download_deployment_requirements solstice healthy_server "/tmp/tmpx" fresh_tmpdir).1
    = Ok (true, set_requirements_path solstice
                  "/tmp/tmpx/solstice-launcher-1.0.0/docs/requirements.txt").
Proof. vm_compute. repeat split; reflexivity. Qed.

Example find_requirements_absent :
  find_requirements solstice "/tmp/tmpx"
    [("1.0.0.tar.gz", File intact_archive);
     ("solstice-launcher-1.0.0", Dir [("setup.py", File "")])] = None.
Proof. reflexivity. Qed.

(** ** Loading *)

Section LoadingFacts.

Context (E : environment) (self : updater).

(** The check at the end of [_load] looks the install path up in the
    packaged configuration.  The file generated for the launcher has the keys
    [name], [repository] and [splash] only, so the check finds nothing and
    writes nothing, whatever the store holds. *)
Lemma check_stored_config_path_packaged d fs :
  _config_data self = PyDict d →
  d !! _install_env_var self = None →
  check_stored_config_path E self fs = (Ok tt, fs).
Proof.
  intros Hdata Hkey. unfold check_stored_config_path, _get_app_config.
  rewrite Hdata. cbn [dict_get]. rewrite Hkey.
  by destruct (negb (truthy (PyDict d))).
Qed.

End LoadingFacts.

(** C8.  A load that goes through leaves a stale install path in the store.
    In development mode the store of an earlier production run still names
    [/gone/tools], which does not exist; [_load] returns [True] and the
    entry is still there.  In production mode the final check of [_load],
    run on a store that names a missing folder, does not clear it either:
    it reads the packaged configuration, not the store. *)
Theorem load_keeps_stale_install_path :
  (_load posix_host solstice_dev smooth_session stale_disk).1
  = Ok (true, set_install_path solstice_dev "/usr/bin")
  ∧ dict_get
      (stored posix_host solstice_dev
         (_load posix_host solstice_dev smooth_session stale_disk).2)
      "solstice_install" (PyStr "")
    = Ok (PyStr "/gone/tools")
  ∧ os.isdir "/gone/tools"
      (_load posix_host solstice_dev smooth_session stale_disk).2 = false
  ∧ check_stored_config_path posix_host solstice stale_disk = (Ok tt, stale_disk).
Proof. vm_compute. repeat split; reflexivity. Qed.

Example load_production_registers_chosen_directory :
  let S := {| check_setup_ok := true; chosen_directory := "/usr";
              virtualenv_ok := true; deployment_ok := true |} in
  (_load posix_host solstice S stale_disk).1
  = Ok (true, set_install_path solstice "/usr")
  ∧ dict_get (stored posix_host solstice (_load posix_host solstice S stale_disk).2)
      "solstice_install" (PyStr "")
    = Ok (PyStr "/usr").
Proof. vm_compute. split; reflexivity. Qed.

Example load_production_cancelled_dialog :
  (_load posix_host solstice smooth_session stale_disk).1 = Ok (false, solstice)
  ∧ dict_get
      (stored posix_host solstice (_load posix_host solstice smooth_session stale_disk).2)
      "solstice_install" (PyStr "")
    = Ok (PyStr "/gone/tools").
Proof. vm_compute. split; reflexivity. Qed.

(** ** Paths *)

Section PathFacts.

Import os_path.



























End PathFacts.

(** ** The environment folder *)

(** [shutil.rmtree] removes the folder and what lies below it, and leaves
    every other path alone. *)
Lemma rmtree_outside root p fs :
  os.within root p = false →
  os.isdir p (os.rmtree root fs).2 = os.isdir p fs
  ∧ files (os.rmtree root fs).2 !! p = files fs !! p.
Proof.
  intros Hout. unfold os.rmtree, modify, os.isdir. simpl. split.
  - apply bool_decide_ext. rewrite elem_of_filter.
    split; [by intros [_ Hp] | by intros Hp].
  - destruct (files fs !! p) as [text|] eqn:Hp.
    + by apply map_lookup_filter_Some.
    + apply map_lookup_filter_None. by left.
Qed.

Lemma rmtree_inside root p fs :
  os.within root p = true →
  os.isdir p (os.rmtree root fs).2 = false
  ∧ files (os.rmtree root fs).2 !! p = None.
Proof.
  intros Hin. unfold os.rmtree, modify, os.isdir. simpl. split.
  - apply bool_decide_eq_false. rewrite elem_of_filter. intros [Hkept _]. congruence.
  - apply map_lookup_filter_None. right. intros text _. simpl. congruence.
Qed.


Example environment_folder_paths :
  _get_venv_folder_path (set_install_path solstice "/opt//tools/")
  = Some "/opt/tools/solstice"
  ∧ dirs_to_remove solstice "/opt//tools/" = ["/opt//tools/solstice"]
  ∧ _get_venv_folder_path (set_install_path solstice "/opt/tools")
    = Some "/opt/tools/solstice"
  ∧ dirs_to_remove solstice "/opt/tools" = ["/opt/tools/solstice"].
Proof. repeat split; reflexivity. Qed.

Example uninstall_on_installed_disk :
  let after := (_on_uninstall posix_host solstice true installed_disk).2 in
  dirs after = {[ "/home/artist/.local/share"; "/opt"; "/opt/tools";
                  "/opt/tools/solstice-docs" ]}
  ∧ files after !! "/opt/tools/solstice/Scripts/python.exe" = None
  ∧ files after !! "/opt/tools/notes.txt" = Some "keep"
  ∧ stored posix_host solstice after = PyDict {[ "solstice_install" := PyStr "" ]}.
Proof. vm_compute. repeat split; reflexivity. Qed.

(** * Further properties *)

(** ** The configuration store, continued *)

Section ConfigStoreMore.

Context (E : environment) (self : updater).

Lemma _clean_old_config_run fs :
  _clean_old_config E self fs =
    match get_current_os E with
    | Raise e => (Raise e, fs)
    | Ok current_os =>
        let old := old_config_path E self current_os in
        if os.exists_ old fs then
          if os.isdir old fs then (Raise OSError, fs)
          else (Ok true, {| files := delete old (files fs); dirs := dirs fs |})
        else (Ok true, fs)
    end.
Proof.
  unfold _clean_old_config, bind at 1, lift.
  destruct (get_current_os E) as [current_os|e]; [|done].
  unfold bind at 1, get. fold (old_config_path E self current_os).
  cbv zeta. destruct (os.exists_ _ fs); [|done].
  unfold bind at 1, try_except, bind at 1, os.remove, bind at 1, get.
  destruct (os.isdir _ fs); done.
Qed.

(** X1.  Two writes in a row are both read back: the second key holds the
    second value, the first key still holds the first value when the keys
    differ, and every other key of the store is as it was. *)
Theorem set_config_twice k1 v1 k2 v2 fs d0
    (Hstore : os.isfile (config_file_path E self) fs = true)
    (Hread : stored E self fs = PyDict d0)
    (Hjson1 : json_load E (json_dump E (PyDict (<[k1 := v1]> d0)))
              = Some (PyDict (<[k1 := v1]> d0)))
    (Hjson2 : json_load E (json_dump E (PyDict (<[k2 := v2]> (<[k1 := v1]> d0))))
              = Some (PyDict (<[k2 := v2]> (<[k1 := v1]> d0)))) :
  ∃ fs2 d,
    (_set_config E self k1 v1 ;;; _set_config E self k2 v2) fs = (Ok true, fs2)
    ∧ stored E self fs2 = PyDict d
    ∧ d !! k2 = Some v2
    ∧ (k1 ≠ k2 → d !! k1 = Some v1)
    ∧ (∀ k, k ≠ k1 → k ≠ k2 → d !! k = d0 !! k).
Proof.
  unfold bind. rewrite _set_config_present by done. rewrite Hread. cbn [setitem].
  set (fs1 := {| files := _; dirs := _ |}).
  assert (Hstore1 : os.isfile (config_file_path E self) fs1 = true).
  { unfold os.isfile, fs1. simpl. apply bool_decide_eq_true.
    rewrite lookup_insert_eq. eauto. }
  assert (Hread1 : stored E self fs1 = PyDict (<[k1 := v1]> d0)).
  { unfold stored, fs1. simpl. by rewrite lookup_insert_eq, Hjson1. }
  rewrite _set_config_present by done. rewrite Hread1. cbn [setitem].
  eexists _, _. split; [done|]. split.
  { unfold stored. simpl. by rewrite lookup_insert_eq, Hjson2. }
  split; [apply lookup_insert_eq|]. split.
  - intros Hne. by rewrite lookup_insert_ne, lookup_insert_eq.
  - intros k Hk1 Hk2. by rewrite !lookup_insert_ne.
Qed.

(** X2.  A store that holds valid JSON which is not an object is fatal: the
    read hands the value back as it is, a write raises [TypeError] and
    leaves every file as it was, and outside development mode the lookup of
    the install path raises [AttributeError]. *)
Theorem store_with_non_object_json text v config_name config_value fs
    (Htext : files fs !! config_file_path E self = Some text)
    (Hload : json_load E text = Some v)
    (Hvalue : not_a_dict v) :
  (get_config_data E self fs).1 = Ok v
  ∧ (_set_config E self config_name config_value fs).1 = Raise TypeError
  ∧ files (_set_config E self config_name config_value fs).2 = files fs
  ∧ (_dev self = false →
     (_get_installation_path E self fs).1 = Raise AttributeError).
Proof.
  assert (Hstored : stored E self fs = v).
  { unfold stored. by rewrite Htext, Hload. }
  assert (Hfile : os.isfile (config_file_path E self) fs = true).
  { unfold os.isfile. apply bool_decide_eq_true. rewrite Htext. eauto. }
  rewrite get_config_data_run, Hstored. split; [done|].
  rewrite _set_config_present by done. rewrite Hstored.
  destruct v; try done; cbn [setitem]; repeat split;
    try apply located_files;
    intros Hproduction; unfold _get_installation_path;
    rewrite Hproduction; unfold bind;
    by rewrite get_config_data_run, Hstored.
Qed.

(** X3.  Setting the store up when it is already there, with no legacy
    configuration around, is a no-op: the path of the store is returned and
    no file changes, in particular the store keeps its text. *)
Theorem setup_config_on_existing_store fs current_os
    (Hos : get_current_os E = Ok current_os)
    (Hlegacy : os.exists_ (old_config_path E self current_os) fs = false)
    (Hstore : os.isfile (config_file_path E self) fs = true) :
  (_setup_config E self fs).1 = Ok (Some (config_file_path E self))
  ∧ files (_setup_config E self fs).2 = files fs
  ∧ (os.isdir (app_folder_path E self) fs = true → (_setup_config E self fs).2 = fs).
Proof.
  unfold _setup_config, bind.
  rewrite _clean_old_config_run, Hos. cbv zeta. rewrite Hlegacy.
  rewrite _get_config_path_run.
  unfold get. rewrite isfile_located, Hstore. simpl.
  split; [done|]. split; [apply located_files | apply located_id].
Qed.

(** X4.  Cleaning the legacy configuration touches that one file only: no
    directory changes and every other file keeps its text; when the call
    returns, the legacy file is gone.  A directory in its place is not
    handled: [os.remove] raises [OSError], which the [except RuntimeError]
    lets through. *)
Theorem clean_old_config_touches_legacy_only fs current_os
    (Hos : get_current_os E = Ok current_os) :
  dirs (_clean_old_config E self fs).2 = dirs fs
  ∧ (∀ p, p ≠ old_config_path E self current_os →
       files (_clean_old_config E self fs).2 !! p = files fs !! p)
  ∧ (∀ r, (_clean_old_config E self fs).1 = Ok r →
       os.exists_ (old_config_path E self current_os)
         (_clean_old_config E self fs).2 = false)
  ∧ (os.isdir (old_config_path E self current_os) fs = true →
       (_clean_old_config E self fs).1 = Raise OSError).
Proof.
  rewrite _clean_old_config_run, Hos. cbv zeta.
  set (old := old_config_path E self current_os).
  destruct (os.exists_ old fs) eqn:Hexists.
  - destruct (os.isdir old fs) eqn:Hdir; simpl.
    + repeat split; done.
    + repeat split; try done.
      * intros p Hp. by rewrite lookup_delete_ne.
      * intros r _. unfold os.exists_, os.isfile, os.isdir in *. simpl.
        rewrite Hdir, orb_false_r. apply bool_decide_eq_false.
        rewrite lookup_delete_eq. by intros [? ?].
  - simpl. repeat split; try done.
    intros Hdir. unfold os.exists_ in Hexists. rewrite Hdir in Hexists.
    by rewrite orb_true_r in Hexists.
Qed.

End ConfigStoreMore.

(** X1 on the store that pins [1.0.0]. *)
Lemma set_config_twice_witness :
  ∃ fs2 d,
    (_set_config posix_host solstice "solstice_install" (PyStr "/opt/tools") ;;;
     _set_config posix_host solstice "tag" (PyStr "2.0.0"))
      (disk_with_store pinned_1_0_0) = (Ok true, fs2)
    ∧ stored posix_host solstice fs2 = PyDict d
    ∧ d !! "tag" = Some (PyStr "2.0.0")
    ∧ ("solstice_install" ≠ "tag" → d !! "solstice_install" = Some (PyStr "/opt/tools"))
    ∧ (∀ k, k ≠ "solstice_install" → k ≠ "tag" →
         d !! k = ({[ "tag" := PyStr "1.0.0" ]} : gmap string pyval) !! k).
Proof.
  apply (set_config_twice posix_host solstice
           "solstice_install" (PyStr "/opt/tools") "tag" (PyStr "2.0.0")
           (disk_with_store pinned_1_0_0) {[ "tag" := PyStr "1.0.0" ]});
    reflexivity.
Defined.

(** X2 on a store that holds [null]. *)
Lemma store_with_non_object_json_witness :
  (get_config_data posix_host solstice (disk_with_store "null")).1 = Ok PyNone
  ∧ (_set_config posix_host solstice "tag" (PyStr "1.0.0") (disk_with_store "null")).1
    = Raise TypeError
  ∧ files (_set_config posix_host solstice "tag" (PyStr "1.0.0")
             (disk_with_store "null")).2 = files (disk_with_store "null")
  ∧ (_dev solstice = false →
     (_get_installation_path posix_host solstice (disk_with_store "null")).1
     = Raise AttributeError).
Proof.
  apply (store_with_non_object_json posix_host solstice "null" PyNone
           "tag" (PyStr "1.0.0") (disk_with_store "null")).
  - reflexivity.
  - reflexivity.
  - exact I.
Defined.

(** X3 on the store that pins [1.0.0]. *)
Lemma setup_config_on_existing_store_witness :
  (_setup_config posix_host solstice (disk_with_store pinned_1_0_0)).1
  = Ok (Some (config_file_path posix_host solstice))
  ∧ files (_setup_config posix_host solstice (disk_with_store pinned_1_0_0)).2
    = files (disk_with_store pinned_1_0_0)
  ∧ (os.isdir (app_folder_path posix_host solstice) (disk_with_store pinned_1_0_0) = true →
     (_setup_config posix_host solstice (disk_with_store pinned_1_0_0)).2
     = disk_with_store pinned_1_0_0).
Proof.
  apply (setup_config_on_existing_store posix_host solstice
           (disk_with_store pinned_1_0_0) "Linux"); reflexivity.
Defined.

(** X4 on a disk with a legacy configuration file. *)
Lemma clean_old_config_touches_legacy_only_witness :
  let fs := {| files := {[ "~/.config/solstice/.config" := "old";
                           solstice_cfg := pinned_1_0_0 ]};
               dirs := {[ "~/.config/solstice" ]} |} in
  dirs (_clean_old_config posix_host solstice fs).2 = dirs fs
  ∧ (∀ p, p ≠ old_config_path posix_host solstice "Linux" →
       files (_clean_old_config posix_host solstice fs).2 !! p = files fs !! p)
  ∧ (∀ r, (_clean_old_config posix_host solstice fs).1 = Ok r →
       os.exists_ (old_config_path posix_host solstice "Linux")
         (_clean_old_config posix_host solstice fs).2 = false)
  ∧ (os.isdir (old_config_path posix_host solstice "Linux") fs = true →
       (_clean_old_config posix_host solstice fs).1 = Raise OSError).
Proof.
  intros fs.
  apply (clean_old_config_touches_legacy_only posix_host solstice fs "Linux").
  reflexivity.
Defined.

(** ** The release catalogue, continued *)

Lemma lower_char_space a : Ascii.eqb (str.lower_char a) " " = Ascii.eqb a " ".
Proof. by destruct a as [[] [] [] [] [] [] [] []]. Qed.

Lemma lower_char_idem a : str.lower_char (str.lower_char a) = str.lower_char a.
Proof. by destruct a as [[] [] [] [] [] [] [] []]. Qed.

(** X5.  A clean name is clean: it has no space left and no upper-case
    letter, so cleaning it again changes nothing. *)
Theorem get_clean_name_is_clean self :
  str.remove_char " " (get_clean_name self) = get_clean_name self
  ∧ str.lower (get_clean_name self) = get_clean_name self.
Proof.
  unfold get_clean_name. induction (_project_name self) as [|a s [IH1 IH2]]; [done|].
  cbn [str.remove_char]. destruct (Ascii.eqb a " ") eqn:Ha; [done|].
  cbn [str.lower str.remove_char]. rewrite lower_char_space, Ha, lower_char_idem.
  by rewrite IH1, IH2.
Qed.

Section ReleaseCatalogMore.

Context (E : environment) (self : updater).

Lemma scan_entries_outcome pre page : ∀ version log,
  match (scan_entries E true pre version page log).1 with
  | Ok (Some v) => version = Some v ∨ acceptable E pre v = true
  | Ok None => True
  | Raise e => e = AttributeError ∧ ¬ targets_present pre page
  end.
Proof.
  induction page as [|[tags|label_latest label_prerelease target] page IH];
    intros version log.
  - simpl. destruct version; auto.
  - cbn [scan_entries]. unfold bind.
    destruct (scan_timeline_run E pre tags log) as (more & -> & _).
    destruct (first_acceptable E pre (omap id tags)) as [v|] eqn:Hfound.
    + simpl. right. by apply first_acceptable_acceptable in Hfound.
    + specialize (IH version (log ++ more)).
      destruct (scan_entries E true pre version page (log ++ more)) as [[[v|]|e] log'];
        simpl in *; try done.
      destruct IH as [-> Hpage]. split; [done|].
      intros Hall. apply Hpage. by apply Forall_cons in Hall as [_ ?].
  - assert (Hrest : ∀ log1,
              match (scan_entries E true pre version page log1).1 with
              | Ok (Some v) => version = Some v ∨ acceptable E pre v = true
              | Ok None => True
              | Raise e => e = AttributeError
                           ∧ ¬ targets_present pre
                                 (FormalRelease label_latest label_prerelease target
                                  :: page)
              end).
    { intros log1. specialize (IH version log1).
      destruct (scan_entries E true pre version page log1) as [[[v|]|e] log'];
        simpl in *; try done.
      destruct IH as [-> Hpage]. split; [done|].
      intros Hall. apply Hpage. by apply Forall_cons in Hall as [_ ?]. }
    cbn [scan_entries]. unfold bind at 1, logger, modify.
    destruct (if pre then label_prerelease else label_latest) eqn:Hlabel;
      [|apply Hrest].
    destruct target as [text|].
    + unfold bind at 1, try_except, bind at 1, lift. cbn [Version].
      unfold acceptable in *.
      destruct (parse_version E (_sanitize_github_version text)) as [v|] eqn:Hparse.
      * destruct (negb (is_prerelease E v) || pre) eqn:Hok.
        -- simpl. right. by rewrite Hparse.
        -- unfold bind at 1, logger, modify, ret. apply Hrest.
      * cbn [is_InvalidVersion]. unfold bind at 1, logger, modify, ret. apply Hrest.
    + simpl. split; [done|]. intros Hall. apply Forall_cons in Hall as [Hhere _].
      simpl in Hhere. by rewrite Hlabel in Hhere.
Qed.

Lemma _get_latest_deploy_tag_outcome sniff pre page log :
  _dev self = false →
  match (_get_latest_deploy_tag E self sniff true pre page log).1 with
  | Ok (Some v) => acceptable E pre v = true
  | Ok None => True
  | Raise e => e = AttributeError ∧ ¬ targets_present pre page
  end.
Proof.
  intros Hproduction. unfold _get_latest_deploy_tag. rewrite Hproduction.
  destruct (String.eqb (_get_deploy_repository_url self true) ""); [done|].
  destruct sniff; [|done].
  unfold bind at 1.
  pose proof (scan_entries_outcome pre page None log) as Hscan.
  destruct (scan_entries E true pre None page log) as [[[v|]|e] log']; simpl in Hscan;
    [| done | done].
  destruct Hscan as [|Hok]; [done|].
  destruct (String.eqb v ""); [done|].
  unfold try_except, bind, lift. cbn [Version].
  unfold acceptable in Hok.
  destruct (parse_version E v) eqn:Hparse; [|done]. simpl. unfold acceptable.
  by rewrite Hparse.
Qed.

(** X6.  Outside development mode a validated search for the latest tag
    returns an acceptable tag or nothing: what it returns parses as a
    version and is no pre-release unless pre-releases were asked for, for
    every page, whether hits come from tag time lines or formal releases.
    The one exception that can leave it is the [AttributeError] of a
    labelled formal release that shows no tag. *)
Theorem get_latest_deploy_tag_validated_outcome sniff pre page log
    (Hproduction : _dev self = false) :
  (∀ v, (_get_latest_deploy_tag E self sniff true pre page log).1 = Ok (Some v) →
        ∃ parsed, parse_version E v = Some parsed
                  ∧ (is_prerelease E parsed = true → pre = true))
  ∧ (∀ e, (_get_latest_deploy_tag E self sniff true pre page log).1 = Raise e →
          e = AttributeError ∧ ¬ targets_present pre page).
Proof.
  pose proof (_get_latest_deploy_tag_outcome sniff pre page log Hproduction) as Hout.
  split.
  - intros v Hv. rewrite Hv in Hout. unfold acceptable in Hout.
    destruct (parse_version E v) as [parsed|]; [|done].
    exists parsed. split; [done|]. intros Hpre. rewrite Hpre in Hout. by destruct pre.
  - intros e He. by rewrite He in Hout.
Qed.

Lemma _get_deploy_tag_pinned page upgrade fs d t latest tv lv :
  _dev self = false →
  stored E self fs = PyDict d →
  d !! "tag" = Some (PyStr t) →
  t ≠ "" →
  (_get_latest_deploy_tag E self true true false page []).1 = Ok (Some latest) →
  parse_version E t = Some tv →
  parse_version E latest = Some lv →
  _get_deploy_tag E self page upgrade fs =
    if version_gt E lv tv && upgrade
    then (_set_config E self "tag" (PyStr latest) ;;; ret (PyStr latest)) (located E self fs)
    else (Ok (PyStr t), located E self fs).
Proof.
  intros Hproduction Hstored Htag Ht Hlatest Htv Hlv.
  unfold _get_deploy_tag. rewrite Hproduction. unfold bind at 1.
  rewrite get_config_data_run, Hstored.
  unfold bind at 1, lift at 1. cbn [dict_get]. rewrite Htag. cbn [default].
  unfold bind at 1, lift at 1. rewrite Hlatest.
  cbn [truthy negb of_optional_str id].
  assert (String.eqb t "" = false) as -> by by apply String.eqb_neq.
  cbn [negb]. unfold bind at 1, lift at 1. cbn [Version]. rewrite Htv.
  unfold bind at 1, lift at 1. rewrite Hlv.
  destruct (version_gt E lv tv); [|done]. by destruct upgrade.
Qed.

(** X7.  The pinned tag is kept, and nothing is written, whenever the
    latest release is not newer than the pin or the user declines the
    upgrade. *)
Theorem get_deploy_tag_keeps_pin page upgrade fs d t latest tv lv
    (Hproduction : _dev self = false)
    (Hstored : stored E self fs = PyDict d)
    (Htag : d !! "tag" = Some (PyStr t))
    (Ht : t ≠ "")
    (Hlatest : (_get_latest_deploy_tag E self true true false page []).1
               = Ok (Some latest))
    (Htv : parse_version E t = Some tv)
    (Hlv : parse_version E latest = Some lv)
    (Hkeep : version_gt E lv tv = false ∨ upgrade = false) :
  (_get_deploy_tag E self page upgrade fs).1 = Ok (PyStr t)
  ∧ files (_get_deploy_tag E self page upgrade fs).2 = files fs.
Proof.
  rewrite (_get_deploy_tag_pinned page upgrade fs d t latest tv lv) by done.
  assert (version_gt E lv tv && upgrade = false) as ->.
  { destruct Hkeep as [-> | ->]; [done | apply andb_false_r]. }
  split; [done | apply located_files].
Qed.

(** X8.  Without a pinned tag the latest tag is adopted for this run only:
    it is returned, [None] included when the page has no acceptable
    release, and the store is not written, so the next run resolves the tag
    afresh. *)
Theorem get_deploy_tag_adopts_without_pinning page upgrade fs d latest
    (Hproduction : _dev self = false)
    (Hstored : stored E self fs = PyDict d)
    (Htag : d !! "tag" = None)
    (Hlatest : (_get_latest_deploy_tag E self true true false page []).1 = Ok latest) :
  (_get_deploy_tag E self page upgrade fs).1 = Ok (of_optional_str latest)
  ∧ files (_get_deploy_tag E self page upgrade fs).2 = files fs
  ∧ stored E self (_get_deploy_tag E self page upgrade fs).2 = PyDict d.
Proof.
  assert (Hrun : _get_deploy_tag E self page upgrade fs
                 = (Ok (of_optional_str latest), located E self fs)).
  { unfold _get_deploy_tag. rewrite Hproduction. unfold bind at 1.
    rewrite get_config_data_run, Hstored.
    unfold bind at 1, lift at 1. cbn [dict_get]. rewrite Htag. cbn [default].
    unfold bind at 1, lift at 1. rewrite Hlatest. done. }
  rewrite Hrun. split; [done|]. split; [apply located_files|].
  unfold stored in *. simpl. by rewrite located_files.
Qed.

(** X9.  An accepted upgrade is pinned: when the latest release is newer
    than the pinned tag and the user accepts, the latest tag is returned and
    the store pins it, its other entries kept. *)
Theorem get_deploy_tag_accepted_upgrade_is_pinned page fs d t latest tv lv
    (Hproduction : _dev self = false)
    (Hstore : os.isfile (config_file_path E self) fs = true)
    (Hstored : stored E self fs = PyDict d)
    (Htag : d !! "tag" = Some (PyStr t))
    (Ht : t ≠ "")
    (Hlatest : (_get_latest_deploy_tag E self true true false page []).1
               = Ok (Some latest))
    (Htv : parse_version E t = Some tv)
    (Hlv : parse_version E latest = Some lv)
    (Hnewer : version_gt E lv tv = true)
    (Hjson : json_load E (json_dump E (PyDict (<["tag" := PyStr latest]> d)))
             = Some (PyDict (<["tag" := PyStr latest]> d))) :
  (_get_deploy_tag E self page true fs).1 = Ok (PyStr latest)
  ∧ stored E self (_get_deploy_tag E self page true fs).2
    = PyDict (<["tag" := PyStr latest]> d).
Proof.
  rewrite (_get_deploy_tag_pinned page true fs d t latest tv lv) by done.
  rewrite Hnewer. cbn [andb]. unfold bind.
  rewrite _set_config_present by by rewrite isfile_located.
  rewrite located_idem.
  assert (Hsame : stored E self (located E self fs) = PyDict d).
  { unfold stored in *. by rewrite located_files. }
  rewrite Hsame. cbn [setitem]. split; [done|].
  unfold stored. simpl. by rewrite lookup_insert_eq, Hjson.
Qed.

End ReleaseCatalogMore.

(** X6 on a page whose formal release is a release candidate, followed by a
    tag time line. *)
Lemma get_latest_deploy_tag_validated_outcome_witness :
  let page := [FormalRelease true false (Some "v2.1.0rc1");
               TimelineTags [Some "nightly"; Some "v2.0.0"]] in
  (∀ v, (_get_latest_deploy_tag posix_host solstice true true false page []).1
        = Ok (Some v) →
        ∃ parsed, parse_version posix_host v = Some parsed
                  ∧ (is_prerelease posix_host parsed = true → false = true))
  ∧ (∀ e, (_get_latest_deploy_tag posix_host solstice true true false page []).1
          = Raise e →
          e = AttributeError ∧ ¬ targets_present false page).
Proof.
  intros page.
  apply (get_latest_deploy_tag_validated_outcome posix_host solstice true false page []).
  reflexivity.
Defined.

(** X7 on the store that pins [1.0.0], the user declining [2.0.0]. *)
Lemma get_deploy_tag_keeps_pin_witness :
  (_get_deploy_tag posix_host solstice [TimelineTags [Some "2.0.0"]] false
     (disk_with_store pinned_1_0_0)).1 = Ok (PyStr "1.0.0")
  ∧ files (_get_deploy_tag posix_host solstice [TimelineTags [Some "2.0.0"]] false
             (disk_with_store pinned_1_0_0)).2
    = files (disk_with_store pinned_1_0_0).
Proof.
  eapply (get_deploy_tag_keeps_pin posix_host solstice [TimelineTags [Some "2.0.0"]]
            false (disk_with_store pinned_1_0_0) {[ "tag" := PyStr "1.0.0" ]}
            "1.0.0" "2.0.0").
  - reflexivity.
  - reflexivity.
  - reflexivity.
  - discriminate.
  - reflexivity.
  - reflexivity.
  - reflexivity.
  - right. reflexivity.
Defined.

(** X8 on an empty store. *)
Lemma get_deploy_tag_adopts_without_pinning_witness :
  let fs := disk_with_store (flat_json.dump (PyDict ∅)) in
  (_get_deploy_tag posix_host solstice [TimelineTags [Some "3.0.0"]] false fs).1
  = Ok (of_optional_str (Some "3.0.0"))
  ∧ files (_get_deploy_tag posix_host solstice [TimelineTags [Some "3.0.0"]] false fs).2
    = files fs
  ∧ stored posix_host solstice
      (_get_deploy_tag posix_host solstice [TimelineTags [Some "3.0.0"]] false fs).2
    = PyDict ∅.
Proof.
  intros fs.
  apply (get_deploy_tag_adopts_without_pinning posix_host solstice
           [TimelineTags [Some "3.0.0"]] false fs ∅ (Some "3.0.0")); reflexivity.
Defined.

(** X9 on the store that pins [1.0.0], the user accepting [2.0.0]. *)
Lemma get_deploy_tag_accepted_upgrade_is_pinned_witness :
  (_get_deploy_tag posix_host solstice [TimelineTags [Some "2.0.0"]] true
     (disk_with_store pinned_1_0_0)).1 = Ok (PyStr "2.0.0")
  ∧ stored posix_host solstice
      (_get_deploy_tag posix_host solstice [TimelineTags [Some "2.0.0"]] true
         (disk_with_store pinned_1_0_0)).2
    = PyDict (<["tag" := PyStr "2.0.0"]> {[ "tag" := PyStr "1.0.0" ]}).
Proof.
  eapply (get_deploy_tag_accepted_upgrade_is_pinned posix_host solstice
            [TimelineTags [Some "2.0.0"]] (disk_with_store pinned_1_0_0)
            {[ "tag" := PyStr "1.0.0" ]} "1.0.0" "2.0.0").
  - reflexivity.
  - reflexivity.
  - reflexivity.
  - reflexivity.
  - discriminate.
  - reflexivity.
  - reflexivity.
  - reflexivity.
  - reflexivity.
  - reflexivity.
Defined.

(** *** All releases *)

Lemma the_version_of_raises release text e :
  the_version_of release text = Raise e → e = AttributeError.
Proof.
  unfold the_version_of.
  destruct (contains "Latest" text), (label_latest_child release),
    (truncate_target_text release); congruence.
Qed.

Lemma collect_releases_run releases : ∀ acc,
  NoDup acc →
  match for_each collect_release releases acc with
  | (Ok _, l) =>
      NoDup l
      ∧ ∀ v, v ∈ l ↔
             v ∈ acc
             ∨ ∃ release text, release ∈ releases
                               ∧ link_text release = Some text
                               ∧ the_version_of release text = Ok v
  | (Raise e, _) => e = AttributeError
  end.
Proof.
  induction releases as [|release releases IH]; intros acc Hacc.
  - simpl. split; [done|]. intros v. split; [auto|].
    intros [?|(r & t & Hr & _)]; [done | by apply elem_of_nil in Hr].
  - cbn [for_each]. unfold bind at 1, collect_release.
    assert (Hskip : ∀ acc',
      NoDup acc' →
      (∀ v, v ∈ acc' ↔
            v ∈ acc ∨ ∃ text, link_text release = Some text
                              ∧ the_version_of release text = Ok v) →
      match for_each collect_release releases acc' with
      | (Ok _, l) =>
          NoDup l
          ∧ ∀ v, v ∈ l ↔
                 v ∈ acc
                 ∨ ∃ r text, r ∈ release :: releases
                             ∧ link_text r = Some text
                             ∧ the_version_of r text = Ok v
      | (Raise e, _) => e = AttributeError
      end).
    { intros acc' Hnodup Hacc'. specialize (IH acc' Hnodup).
      destruct (for_each collect_release releases acc') as [[[]|e] l]; [|done].
      destruct IH as [Hl Hmem]. split; [done|]. intros v. rewrite Hmem, Hacc'.
      split.
      - intros [[?|(text & ? & ?)]|(r & text & ? & ? & ?)]; [by left| |].
        + right. exists release, text. split; [apply elem_of_cons; by left | done].
        + right. exists r, text. split; [apply elem_of_cons; by right | done].
      - intros [?|(r & text & [->|?]%elem_of_cons & ? & ?)]; [by left; left| |].
        + left. right. by exists text.
        + right. by exists r, text. }
    destruct (link_text release) as [text|] eqn:Hlink.
    + unfold bind at 1, lift.
      destruct (the_version_of release text) as [v0|e] eqn:Hv0;
        [|by apply the_version_of_raises in Hv0].
      unfold bind at 1, get. case_bool_decide as Hin.
      * apply Hskip; [done|]. intros v. split; [auto|].
        intros [?|(text' & Htext & Hv)]; [done|]. congruence.
      * unfold modify. apply Hskip.
        -- apply NoDup_app. split; [done|]. split; [|apply NoDup_singleton].
           intros x Hx ->%list_elem_of_singleton. done.
        -- intros v. rewrite elem_of_app, list_elem_of_singleton. split.
           ++ intros [? | ->]; [by left|]. right. by exists text.
           ++ intros [?|(text' & Htext & Hv)]; [by left|]. right. congruence.
    + apply Hskip; [done|]. intros v. split; [auto|].
      intros [?|(text' & Htext & _)]; done.
Qed.

(** X10.  Outside development mode the list of all releases has no
    duplicates and holds exactly the versions that the linked
    [release-entry] elements of the page contribute. *)
Theorem get_all_releases_lists_each_version_once self releases l
    (Hproduction : _dev self = false)
    (Hrun : _get_all_releases self releases = Ok (Some l)) :
  NoDup l
  ∧ ∀ v, v ∈ l ↔
         ∃ release text, release ∈ releases
                         ∧ link_text release = Some text
                         ∧ the_version_of release text = Ok v.
Proof.
  unfold _get_all_releases in Hrun. rewrite Hproduction in Hrun.
  destruct (String.eqb _ _); [done|].
  pose proof (collect_releases_run releases [] (NoDup_nil_2 (A:=string))) as Hloop.
  destruct (for_each collect_release releases []) as [[[]|e] l0]; [|done].
  injection Hrun as <-. destruct Hloop as [Hl Hmem]. split; [done|].
  intros v. rewrite Hmem. split; [|auto].
  intros [Hv|?]; [by apply elem_of_nil in Hv | done].
Qed.

(** X10 on a page with a labelled latest release and a repeated tag. *)
Lemma get_all_releases_lists_each_version_once_witness :
  NoDup ["2.0.0"; "1.0.0"]
  ∧ ∀ v, v ∈ ["2.0.0"; "1.0.0"] ↔
         ∃ release text, release ∈ solstice_releases
                         ∧ link_text release = Some text
                         ∧ the_version_of release text = Ok v.
Proof.
  apply (get_all_releases_lists_each_version_once solstice solstice_releases);
    reflexivity.
Defined.

(** *** Sanitizing a tag *)

Section SanitizeFacts.

Import version_re.

Lemma string_length_app (a b : string) :
  String.length (a +:+ b) = String.length a + String.length b.
Proof.
  induction a as [|c a IH]; [done|].
  change (S (String.length (a +:+ b)) = S (String.length a + String.length b)).
  by rewrite IH.
Qed.

Lemma digits_none t : starts_with_digit t = false → digits t = ("", t).
Proof. destruct t as [|c t]; [done|]. simpl. by intros ->. Qed.

Lemma digits_app d t :
  str.all is_digit d = true → starts_with_digit t = false →
  digits (d +:+ t) = (d, t).
Proof.
  intros Hd Ht. induction d as [|a d IH].
  - by apply digits_none.
  - simpl in Hd. apply andb_true_iff in Hd as [Ha Hd].
    change (String a d +:+ t) with (String a (d +:+ t)).
    cbn [digits]. by rewrite Ha, IH.
Qed.

Lemma digits_spec s : ∀ d r,
  digits s = (d, r) →
  s = d +:+ r ∧ str.all is_digit d = true ∧ starts_with_digit r = false.
Proof.
  induction s as [|a s IH]; intros d r.
  - by intros [= <- <-].
  - cbn [digits]. destruct (is_digit a) eqn:Ha.
    + destruct (digits s) as [d' r'] eqn:Hs. intros [= <- <-].
      destruct (IH d' r' eq_refl) as (-> & Hd & Hr).
      repeat split; [|done]. simpl. by rewrite Ha, Hd.
    + intros [= <- <-]. repeat split. simpl. done.
Qed.

Lemma dotted_no_segment f t : starts_segment t = false → dotted f t = ("", t).
Proof.
  destruct f as [|f]; [done|]. destruct t as [|c t]; [done|]. simpl.
  destruct (Ascii.eqb c "."); [|done]. simpl. intros Ht.
  by rewrite (digits_none t Ht).
Qed.

Lemma dotted_head f r seg r' :
  dotted f r = (seg, r') → seg = "" ∨ ∃ s, seg = String "." s.
Proof.
  destruct f as [|f]; [intros [= <- <-]; by left|].
  destruct r as [|c r]; [intros [= <- <-]; by left|]. cbn [dotted].
  destruct (Ascii.eqb c ".") eqn:Hc; [|intros [= <- <-]; by left].
  apply Ascii.eqb_eq in Hc as ->.
  destruct (digits r) as [d r1]. destruct (String.eqb d "");
    [intros [= <- <-]; by left|].
  destruct (dotted f r1) as [more r2]. intros [= <- <-]. right. eauto.
Qed.

Lemma dotted_nonempty f r seg r' :
  dotted f r = (seg, r') → seg ≠ "" → starts_segment r = true.
Proof.
  destruct f as [|f]; [by intros [= <- <-]|].
  destruct r as [|c r]; [by intros [= <- <-]|]. cbn [dotted starts_segment].
  destruct (Ascii.eqb c "."); [|by intros [= <- <-]].
  destruct r as [|c1 r]; [by intros [= <- <-]|]. cbn [digits starts_with_digit].
  destruct (is_digit c1); [done|]. by intros [= <- <-].
Qed.

Lemma dotted_starts f s :
  starts_segment s = true → ∃ seg r', dotted (S f) s = (String "." seg, r').
Proof.
  destruct s as [|c [|c1 s]]; [done| |]; cbn [starts_segment starts_with_digit dotted digits].
  - by rewrite andb_false_r.
  - intros [Hc Hc1]%andb_true_iff. rewrite Hc, Hc1.
    apply Ascii.eqb_eq in Hc as ->.
    destruct (digits s) as [d r]. cbn [String.eqb].
    destruct (dotted f r) as [more r2]. eauto.
Qed.

Lemma dotted_reparse f : ∀ r seg r',
  dotted f r = (seg, r') →
  ∀ t f', starts_with_digit t = false → starts_segment t = false →
          String.length seg ≤ f' →
          dotted f' (seg +:+ t) = (seg, t).
Proof.
  induction f as [|f IH]; intros r seg r' Hrun t f' Ht1 Ht2 Hlen.
  { injection Hrun as <- <-. by apply dotted_no_segment. }
  destruct r as [|c r]; [injection Hrun as <- <-; by apply dotted_no_segment|].
  cbn [dotted] in Hrun.
  destruct (Ascii.eqb c ".") eqn:Hc;
    [|injection Hrun as <- <-; by apply dotted_no_segment].
  apply Ascii.eqb_eq in Hc as ->.
  destruct (digits r) as [d r1] eqn:Hd.
  destruct (String.eqb d "") eqn:Hempty;
    [injection Hrun as <- <-; by apply dotted_no_segment|].
  destruct (dotted f r1) as [more r2] eqn:Hmore. injection Hrun as <- <-.
  apply digits_spec in Hd as (_ & Hall & _).
  change (String.length (String "." (d +:+ more)))
    with (S (String.length (d +:+ more))) in Hlen.
  rewrite string_length_app in Hlen.
  destruct f' as [|f']; [lia|].
  change (String "." (d +:+ more) +:+ t) with (String "." ((d +:+ more) +:+ t)).
  rewrite string_app_assoc. cbn [dotted]. cbn [Ascii.eqb Bool.eqb andb].
  assert (Hhead : starts_with_digit (more +:+ t) = false).
  { destruct (dotted_head _ _ _ _ Hmore) as [-> | [s ->]]; done. }
  rewrite (digits_app d (more +:+ t) Hall Hhead), Hempty.
  rewrite (IH r1 more r2 Hmore t f' Ht1 Ht2) by lia. done.
Qed.

Lemma rc_suffix_cases s :
  rc_suffix s = ""
  ∨ rc_suffix s = "rc"
  ∨ ∃ d, is_digit d = true ∧ rc_suffix s = String "r" (String "c" (String d "")).
Proof.
  unfold rc_suffix. destruct (str.startswith s "rc"); [|by left].
  destruct s as [|a [|b [|d s]]]; try (right; by left).
  destruct (is_digit d) eqn:Hd; [|right; by left].
  right. right. exists d. done.
Qed.

Lemma rc_suffix_fixed s :
  rc_suffix (rc_suffix s) = rc_suffix s
  ∧ starts_with_digit (rc_suffix s) = false
  ∧ starts_segment (rc_suffix s) = false.
Proof.
  destruct (rc_suffix_cases s) as [-> | [-> | (d & Hd & ->)]]; [done|done|].
  repeat split; try done. unfold rc_suffix.
  change (str.startswith (String "r" (String "c" (String d ""))) "rc") with true.
  by rewrite Hd.
Qed.

Lemma match_here_fixed v m : match_here v = Some m → match_here m = Some m.
Proof.
  unfold match_here at 1.
  destruct (digits v) as [d r] eqn:Hd.
  destruct (String.eqb d "") eqn:Hempty; [done|].
  destruct (dotted (String.length r) r) as [seg r'] eqn:Hseg.
  destruct (String.eqb seg "") eqn:Hnoseg; [done|]. intros [= <-].
  apply digits_spec in Hd as (_ & Hall & _).
  destruct (rc_suffix_fixed r') as (Hrc & Hrc1 & Hrc2).
  assert (Hhead : starts_with_digit (seg +:+ rc_suffix r') = false).
  { destruct (dotted_head _ _ _ _ Hseg) as [-> | [s ->]]; done. }
  unfold match_here.
  rewrite (digits_app d _ Hall Hhead), Hempty.
  rewrite (dotted_reparse _ r seg r' Hseg (rc_suffix r')); [|done|done|].
  - by rewrite Hnoseg, Hrc.
  - rewrite string_length_app. lia.
Qed.

Lemma search_fixed v m : search v = Some m → search m = Some m.
Proof.
  induction v as [|a v IH]; [done|]. cbn [search].
  destruct (match_here (String a v)) as [m'|] eqn:Hhere; [|done].
  intros [= ->]. apply match_here_fixed in Hhere.
  destruct m as [|c m]; [done|]. cbn [search]. by rewrite Hhere.
Qed.

Lemma digits_app_segment x w :
  starts_segment (digits x).2 = true →
  digits (x +:+ w) = ((digits x).1, (digits x).2 +:+ w).
Proof.
  induction x as [|a x IH]; [done|].
  change (String a x +:+ w) with (String a (x +:+ w)). cbn [digits].
  destruct (is_digit a); [|done].
  destruct (digits x) as [d r]. simpl. intros Hr. by rewrite (IH Hr).
Qed.

Lemma match_here_Some s :
  is_Some (match_here s) ↔ (digits s).1 ≠ "" ∧ starts_segment (digits s).2 = true.
Proof.
  unfold match_here. destruct (digits s) as [d r]. simpl.
  destruct (String.eqb d "") eqn:Hempty.
  { apply String.eqb_eq in Hempty as ->. split; [by intros [? ?] | by intros [? _]]. }
  apply String.eqb_neq in Hempty. split.
  - destruct (dotted (String.length r) r) as [seg r'] eqn:Hseg.
    destruct (String.eqb seg "") eqn:Hnoseg; [by intros [? ?]|].
    intros _. split; [done|].
    apply String.eqb_neq in Hnoseg. by eapply dotted_nonempty.
  - intros [_ Hr]. destruct r as [|c r]; [done|].
    destruct (dotted_starts (String.length r) _ Hr) as (seg & r' & Hrun).
    change (String.length (String c r)) with (S (String.length r)).
    rewrite Hrun. cbn [String.eqb]. eauto.
Qed.

Lemma match_here_app x w : is_Some (match_here x) → is_Some (match_here (x +:+ w)).
Proof.
  rewrite !match_here_Some. intros [Hd Hr].
  rewrite (digits_app_segment x w Hr). simpl. split; [done|].
  destruct (digits x).2 as [|c [|c1 r]]; try done.
  simpl in Hr. by rewrite andb_false_r in Hr.
Qed.

Lemma rstrip_prefix p s : ∃ w, s = str.rstrip p s +:+ w.
Proof.
  induction s as [|a s [w IH]]; [by exists ""|]. cbn [str.rstrip].
  destruct (str.rstrip p s) as [|b r].
  - destruct (p a); [by exists (String a s)|]. exists s. done.
  - exists w. change (String a (String b r) +:+ w) with (String a (String b r +:+ w)).
    by rewrite <- IH.
Qed.

Lemma search_tail a s : search (String a s) = None → search s = None.
Proof. cbn [search]. by destruct (match_here (String a s)). Qed.

Lemma search_lstrip p s : search s = None → search (str.lstrip p s) = None.
Proof.
  induction s as [|a s IH]; [done|]. intros Hs. cbn [str.lstrip].
  destruct (p a); [|done]. apply IH. by eapply search_tail.
Qed.

Lemma search_rstrip p s : search s = None → search (str.rstrip p s) = None.
Proof.
  induction s as [|a s IH]; [done|]. intros Hs.
  pose proof (search_tail _ _ Hs) as Htail. specialize (IH Htail).
  cbn [search] in Hs.
  destruct (match_here (String a s)) as [m|] eqn:Hhere; [done|].
  cbn [str.rstrip]. destruct (rstrip_prefix p s) as [w Hw].
  destruct (str.rstrip p s) as [|b r] eqn:Hr.
  - destruct (p a); [done|]. cbn [search].
    destruct (match_here (String a "")) eqn:Hone; [|done].
    exfalso. assert (Hsome : is_Some (match_here (String a s))).
    { rewrite Hw. change (String a ("" +:+ w)) with (String a "" +:+ w).
      apply match_here_app. eauto. }
    rewrite Hhere in Hsome. by destruct Hsome.
  - cbn [search]. fold (search (String b r)).
    destruct (match_here (String a (String b r))) eqn:Hcut.
    + exfalso. assert (Hsome : is_Some (match_here (String a s))).
      { rewrite Hw. change (String a (String b r +:+ w)) with (String a (String b r) +:+ w).
        apply match_here_app. eauto. }
      rewrite Hhere in Hsome. by destruct Hsome.
    + exact IH.
Qed.

Lemma rstrip_idem p s : str.rstrip p (str.rstrip p s) = str.rstrip p s.
Proof.
  induction s as [|a s IH]; [done|]. cbn [str.rstrip].
  destruct (str.rstrip p s) as [|b r] eqn:Hr.
  - destruct (p a) eqn:Ha; [done|]. cbn [str.rstrip]. by rewrite Ha.
  - cbn [str.rstrip] in *. by rewrite IH.
Qed.

Lemma lstrip_rstrip p s :
  str.lstrip p (str.rstrip p (str.lstrip p s)) = str.rstrip p (str.lstrip p s).
Proof.
  induction s as [|a s IH]; [done|]. cbn [str.lstrip].
  destruct (p a) eqn:Ha; [done|]. cbn [str.rstrip].
  destruct (str.rstrip p s); simpl; rewrite ?Ha; simpl; by rewrite ?Ha.
Qed.

Lemma strip_idem s : str.strip (str.strip s) = str.strip s.
Proof. unfold str.strip. by rewrite lstrip_rstrip, rstrip_idem. Qed.

(** X11.  Sanitizing a tag is idempotent: a sanitized tag sanitizes to
    itself, whether the pattern found a version in it or only the blanks
    around it were stripped. *)
Theorem sanitize_github_version_idempotent version :
  _sanitize_github_version (_sanitize_github_version version)
  = _sanitize_github_version version.
Proof.
  unfold _sanitize_github_version.
  destruct (search version) as [m|] eqn:Hfound.
  - by rewrite (search_fixed _ _ Hfound).
  - unfold str.strip at 1 3.
    rewrite (search_rstrip _ _ (search_lstrip _ _ Hfound)).
    apply strip_idem.
Qed.

End SanitizeFacts.

(** ** The artifact fetcher, continued *)

Section ArtifactFetcherMore.

Context (self : updater) (R : remote).

Lemma tmpdir_lookup_created name entries :
  tmpdir.lookup name entries = None →
  tmpdir.lookup name (entries ++ [(name, File "")]) = Some (File "").
Proof.
  induction entries as [|[n x] rest IH]; simpl.
  - by rewrite String.eqb_refl.
  - destruct (String.eqb n name); [done | exact IH].
Qed.

Lemma retry_loop_step name total_tries :
  total_tries ≤ 10 →
  retry_loop R name total_tries =
    (valid_status <- _try_download_unizip_deployment_requirements R name ;;
     if valid_status then ret true
     else
       modify (λ s, {| workdir := workdir s; requests := requests s;
                       retries_logged := retries_logged s ++ [S total_tries] |}) ;;;
       retry_loop R name (S total_tries)).
Proof. intros Hle. funelim (retry_loop R name total_tries); [lia | done]. Qed.

Lemma _download_deployment_requirements_run dirname s :
  _download_deployment_requirements self R dirname s =
    if negb (status_code R =? 200)%nat then (Ok (false, self), s)
    else
      (valid_status <- retry_loop R (repo_name (_get_deploy_repository_url self false)) 0 ;;
       if negb valid_status then ret (false, self)
       else
         s <- get ;;
         match find_requirements self dirname (workdir s) with
         | None => ret (false, self)
         | Some requirement_path =>
             if String.eqb requirement_path "" then ret (false, self)
             else ret (true, set_requirements_path self requirement_path)
         end) s.
Proof.
  unfold _download_deployment_requirements.
  assert (String.eqb (_get_deploy_repository_url self false) "" = false) as ->
    by reflexivity.
  by destruct (negb _).
Qed.

(** X12.  A download whose answer carries no [Content-Length] (or an empty
    one) writes nothing and still reports success: the target is created
    empty, or left as it was, whatever the body holds. *)
Theorem download_file_without_content_length name s rsp
    (Hopen : urlopen R (requests s) = Some rsp)
    (Hheader : content_length rsp = None ∨ content_length rsp = Some "")
    (Htarget : ∀ entries, tmpdir.lookup name (workdir s) ≠ Some (Dir entries)) :
  (_download_file R name s).1 = Ok true
  ∧ tmpdir.lookup name (workdir (_download_file R name s).2)
    = Some (File (match tmpdir.lookup name (workdir s) with
                  | Some (File old) => old
                  | _ => ""
                  end)).
Proof.
  destruct (_download_file R name s) as [r s'] eqn:Hrun.
  unfold _download_file, bind at 1, try_except, bind at 1, get in Hrun.
  unfold bind at 1, modify in Hrun. rewrite Hopen in Hrun.
  unfold bind at 1, _chunk_read, bind at 1, get in Hrun.
  unfold bind at 1, lift, tmpdir.open_append in Hrun. simpl workdir in Hrun.
  destruct (tmpdir.lookup name (workdir s)) as [[old|entries]|] eqn:Hold;
    [| by destruct (Htarget entries) |].
  - unfold bind at 1, set_workdir, modify in Hrun.
    assert (Hnone : ∀ st : fetch_state,
              match content_length rsp with
              | Some header =>
                  if String.eqb header "" then ret None
                  else match str.int header with
                       | Some total_size =>
                           n <- read_chunks name total_size 0 (body rsp) (broken rsp) ;;
                           ret (Some n)
                       | None => raise ValueError
                       end
              | None => ret None
              end st = (Ok None, st)).
    { intros st. by destruct Hheader as [-> | ->]. }
    rewrite Hnone in Hrun. unfold ret at 1, bind, get in Hrun. simpl in Hrun.
    rewrite Hold in Hrun. by injection Hrun as <- <-.
  - unfold bind at 1, set_workdir, modify in Hrun.
    assert (Hnone : ∀ st : fetch_state,
              match content_length rsp with
              | Some header =>
                  if String.eqb header "" then ret None
                  else match str.int header with
                       | Some total_size =>
                           n <- read_chunks name total_size 0 (body rsp) (broken rsp) ;;
                           ret (Some n)
                       | None => raise ValueError
                       end
              | None => ret None
              end st = (Ok None, st)).
    { intros st. by destruct Hheader as [-> | ->]. }
    rewrite Hnone in Hrun. unfold ret at 1, bind, get in Hrun. simpl in Hrun.
    rewrite (tmpdir_lookup_created _ _ Hold) in Hrun. injection Hrun as <- <-.
    split; [done|]. simpl. by apply tmpdir_lookup_created.
Qed.

(** X13.  A download into a target that does not exist yet leaves exactly
    the bytes fetched, in order, under that name. *)
Theorem download_file_into_fresh_target name s rsp header total
    (Hfresh : tmpdir.lookup name (workdir s) = None)
    (Hopen : urlopen R (requests s) = Some rsp)
    (Hlength : content_length rsp = Some header)
    (Hheader : header ≠ "")
    (Hint : str.int header = Some total)
    (Htotal : total ≠ 0%Z)
    (Hbroken : broken rsp = false)
    (Hbody : Forall (λ chunk, chunk ≠ "") (body rsp)) :
  (_download_file R name s).1 = Ok true
  ∧ tmpdir.lookup name (workdir (_download_file R name s).2)
    = Some (File (String.concat "" (body rsp))).
Proof.
  destruct (_download_file R name s) as [r s'] eqn:Hrun.
  unfold _download_file, bind at 1, try_except, bind at 1, get in Hrun.
  unfold bind at 1, modify in Hrun. rewrite Hopen in Hrun.
  unfold bind at 1, _chunk_read, bind at 1, get in Hrun.
  unfold bind at 1, lift, tmpdir.open_append in Hrun. simpl workdir in Hrun.
  rewrite Hfresh in Hrun.
  unfold bind at 1, set_workdir, modify in Hrun.
  rewrite Hlength, Hbroken, Hint in Hrun.
  apply String.eqb_neq in Hheader. rewrite Hheader in Hrun.
  unfold bind at 1 in Hrun.
  match type of Hrun with
  | context [read_chunks _ _ _ _ _ ?st] => set (s0 := st) in Hrun
  end.
  destruct (read_chunks_appends name total (body rsp) 0 s0 "" Htotal Hbody)
    as (n & s1 & Hread & Hs1).
  { simpl. by apply tmpdir_lookup_created. }
  rewrite Hread in Hrun. unfold ret at 1 2, bind, get in Hrun. simpl in Hrun.
  rewrite Hs1 in Hrun. injection Hrun as <- <-. split; [done|]. exact Hs1.
Qed.

(** X14.  A download that raises is not retried: when [urlopen] raises, the
    exception leaves the whole download, wrapped in [Exception], after that
    one request and without a retry warning. *)
Theorem download_error_is_not_retried dirname s
    (Hstatus : status_code R = 200)
    (Hdown : urlopen R (requests s) = None) :
  (_download_deployment_requirements self R dirname s).1 = Raise (Exception URLError)
  ∧ requests (_download_deployment_requirements self R dirname s).2 = S (requests s)
  ∧ retries_logged (_download_deployment_requirements self R dirname s).2
    = retries_logged s
  ∧ workdir (_download_deployment_requirements self R dirname s).2 = workdir s.
Proof.
  assert (Hrun : _download_deployment_requirements self R dirname s
                 = (Raise (Exception URLError),
                    {| workdir := workdir s; requests := S (requests s);
                       retries_logged := retries_logged s |})).
  { rewrite _download_deployment_requirements_run, Hstatus. cbn [Nat.eqb negb].
    rewrite retry_loop_step by lia.
    unfold bind at 1 2, _try_download_unizip_deployment_requirements, bind at 1.
    unfold _download_file, bind at 1, try_except, bind at 1, get.
    unfold bind at 1, modify. rewrite Hdown. unfold raise. by cbn [any_exception]. }
  by rewrite Hrun.
Qed.

(** X15.  For every server the whole download makes at most eleven
    requests, and none at all when the first status check does not answer
    200: it then returns [False] with nothing touched. *)
Theorem download_deployment_requirements_request_bound dirname s :
  requests (_download_deployment_requirements self R dirname s).2 ≤ requests s + 11
  ∧ (status_code R ≠ 200 →
     _download_deployment_requirements self R dirname s = (Ok (false, self), s)).
Proof.
  rewrite _download_deployment_requirements_run.
  destruct (status_code R =? 200)%nat eqn:Hstatus; cbn [negb].
  - split; [|by apply Nat.eqb_eq in Hstatus].
    unfold bind at 1.
    pose proof (retry_loop_requests R
                  (repo_name (_get_deploy_repository_url self false)) 0 s) as Hloop.
    destruct (retry_loop R _ 0 s) as [[valid|e] s1]; simpl in *; [|lia].
    destruct valid; simpl; [|lia].
    unfold bind, get.
    destruct (find_requirements self dirname (workdir s1)) as [p|]; simpl; [|lia].
    destruct (String.eqb p ""); simpl; lia.
  - split; [simpl; lia | done].
Qed.

Lemma find_name_None (n : string) names :
  List.find (String.eqb n) names = None ↔ n ∉ names.
Proof.
  induction names as [|x names IH]; simpl.
  - split; [intros _; apply not_elem_of_nil | done].
  - rewrite not_elem_of_cons. destruct (String.eqb n x) eqn:Hx.
    + apply String.eqb_eq in Hx. split; [done | by intros [? _]].
    + apply String.eqb_neq in Hx. rewrite IH. split; [done | by intros [_ ?]].
Qed.

Lemma find_name_Some (n : string) names x :
  List.find (String.eqb n) names = Some x → x = n ∧ n ∈ names.
Proof.
  induction names as [|y names IH]; simpl; [done|].
  destruct (String.eqb n y) eqn:Hy.
  - apply String.eqb_eq in Hy as <-. intros [= <-]. split; [done|]. apply elem_of_cons. by left.
  - intros [-> Hin]%IH. split; [done|]. apply elem_of_cons. by right.
Qed.

Lemma find_requirements_Some dirname entries p :
  find_requirements self dirname entries = Some p →
  ∃ root subdirs names,
    (root, subdirs, names) ∈ tmpdir.walk dirname (Dir entries)
    ∧ _requirements_file_name self ∈ names
    ∧ p = os_path.join root (_requirements_file_name self).
Proof.
  rewrite find_requirements_last. intros Hlast%last_Some_elem_of.
  unfold requirements_in_walk_order in Hlast.
  apply list_elem_of_omap in Hlast as ([[root subdirs] names] & Hvisited & Hfound).
  destruct (List.find _ names) as [x|] eqn:Hfind; [|done].
  apply find_name_Some in Hfind as [-> Hin]. injection Hfound as <-.
  by exists root, subdirs, names.
Qed.

(** X16.  The search for the requirements file is sound and complete: a
    path it returns is that of a file of the configured name in a directory
    of the tree, and it returns nothing exactly when no directory of the
    tree has a file of that name. *)
Theorem find_requirements_found_iff_present dirname entries :
  (∀ p, find_requirements self dirname entries = Some p →
        ∃ root subdirs names,
          (root, subdirs, names) ∈ tmpdir.walk dirname (Dir entries)
          ∧ _requirements_file_name self ∈ names
          ∧ p = os_path.join root (_requirements_file_name self))
  ∧ (find_requirements self dirname entries = None ↔
     ∀ root subdirs names,
       (root, subdirs, names) ∈ tmpdir.walk dirname (Dir entries) →
       _requirements_file_name self ∉ names).
Proof.
  split; [apply find_requirements_Some|].
  rewrite find_requirements_last, last_None. unfold requirements_in_walk_order.
  generalize (tmpdir.walk dirname (Dir entries)). intros visited. split.
  - intros Hnone root subdirs names Hvisited.
    apply find_name_None.
    destruct (List.find _ names) as [x|] eqn:Hfind; [|done].
    assert (Hin : os_path.join root x ∈
                  omap (λ '(root, _, files),
                          os_path.join root
                            <$> List.find (String.eqb (_requirements_file_name self)) files)
                       visited).
    { apply list_elem_of_omap. exists (root, subdirs, names). by rewrite Hfind. }
    rewrite Hnone in Hin. by apply elem_of_nil in Hin.
  - intros Habsent. induction visited as [|[[root subdirs] names] visited IH]; [done|].
    cbn [omap list_omap].
    assert (Hhere : List.find (String.eqb (_requirements_file_name self)) names = None).
    { apply find_name_None. apply (Habsent root subdirs). apply elem_of_cons. by left. }
    rewrite Hhere. simpl. apply IH. intros root' subdirs' names' Hin.
    apply (Habsent root' subdirs'). apply elem_of_cons. by right.
Qed.

(** X17.  A download that reports success has recorded, as the requirements
    path of the updater, a file of the configured name that lies in the
    working directory as the download left it; nothing else of the updater
    changes. *)
Theorem download_success_records_requirements_path dirname s self' s'
    (Hrun : _download_deployment_requirements self R dirname s = (Ok (true, self'), s')) :
  status_code R = 200
  ∧ ∃ root subdirs names,
      (root, subdirs, names) ∈ tmpdir.walk dirname (Dir (workdir s'))
      ∧ _requirements_file_name self ∈ names
      ∧ self' = set_requirements_path self
                  (os_path.join root (_requirements_file_name self)).
Proof.
  rewrite _download_deployment_requirements_run in Hrun.
  destruct (status_code R =? 200)%nat eqn:Hstatus; cbn [negb] in Hrun; [|done].
  apply Nat.eqb_eq in Hstatus. split; [done|].
  unfold bind at 1 in Hrun.
  destruct (retry_loop R _ 0 s) as [[valid|e] s1]; [|done].
  destruct valid; cbn [negb] in Hrun; [|done].
  unfold bind, get in Hrun.
  destruct (find_requirements self dirname (workdir s1)) as [p|] eqn:Hfound; [|done].
  destruct (String.eqb p ""); [done|]. injection Hrun as <- <-.
  apply find_requirements_Some in Hfound as (root & subdirs & names & ? & ? & ->).
  by exists root, subdirs, names.
Qed.

End ArtifactFetcherMore.

(** X12 on a server whose answers carry no [Content-Length]. *)
Lemma download_file_without_content_length_witness :
  (_download_file headerless_server "1.0.0.tar.gz" fresh_tmpdir).1 = Ok true
  ∧ tmpdir.lookup "1.0.0.tar.gz"
      (workdir (_download_file headerless_server "1.0.0.tar.gz" fresh_tmpdir).2)
    = Some (File (match tmpdir.lookup "1.0.0.tar.gz" (workdir fresh_tmpdir) with
                  | Some (File old) => old
                  | _ => ""
                  end)).
Proof.
  eapply (download_file_without_content_length headerless_server
            "1.0.0.tar.gz" fresh_tmpdir).
  - reflexivity.
  - left. reflexivity.
  - intros entries. simpl. discriminate.
Defined.

(** X13 on the server that always answers with the intact archive. *)
Lemma download_file_into_fresh_target_witness :
  (_download_file healthy_server "1.0.0.tar.gz" fresh_tmpdir).1 = Ok true
  ∧ tmpdir.lookup "1.0.0.tar.gz"
      (workdir (_download_file healthy_server "1.0.0.tar.gz" fresh_tmpdir).2)
    = Some (File (String.concat "" [intact_archive])).
Proof.
  apply (download_file_into_fresh_target healthy_server "1.0.0.tar.gz" fresh_tmpdir
           {| content_length := Some "28"; body := [intact_archive]; broken := false |}
           "28" 28%Z).
  - reflexivity.
  - reflexivity.
  - reflexivity.
  - discriminate.
  - reflexivity.
  - lia.
  - reflexivity.
  - repeat constructor. discriminate.
Defined.

(** X14 on a server that cannot be reached. *)
Lemma download_error_is_not_retried_witness :
  (_download_deployment_requirements solstice unreachable_server "/tmp/tmpx"
     fresh_tmpdir).1 = Raise (Exception URLError)
  ∧ requests (_download_deployment_requirements solstice unreachable_server "/tmp/tmpx"
                fresh_tmpdir).2 = S (requests fresh_tmpdir)
  ∧ retries_logged (_download_deployment_requirements solstice unreachable_server
                      "/tmp/tmpx" fresh_tmpdir).2 = retries_logged fresh_tmpdir
  ∧ workdir (_download_deployment_requirements solstice unreachable_server "/tmp/tmpx"
               fresh_tmpdir).2 = workdir fresh_tmpdir.
Proof.
  apply (download_error_is_not_retried solstice unreachable_server "/tmp/tmpx"
           fresh_tmpdir); reflexivity.
Defined.

(** X15 on a server that answers the status check with 404. *)
Lemma download_deployment_requirements_request_bound_witness :
  let gone := {| status_code := 404; urlopen := urlopen healthy_server;
                 extractall := extractall healthy_server |} in
  requests (_download_deployment_requirements solstice gone "/tmp/tmpx" fresh_tmpdir).2
  ≤ requests fresh_tmpdir + 11
  ∧ (status_code gone ≠ 200 →
     _download_deployment_requirements solstice gone "/tmp/tmpx" fresh_tmpdir
     = (Ok (false, solstice), fresh_tmpdir)).
Proof.
  intros gone.
  apply (download_deployment_requirements_request_bound solstice gone "/tmp/tmpx"
           fresh_tmpdir).
Defined.

(** X17 on the server that always answers with the intact archive. *)
Lemma download_success_records_requirements_path_witness :
  status_code healthy_server = 200
  ∧ ∃ root subdirs names,
      (root, subdirs, names)
        ∈ tmpdir.walk "/tmp/tmpx"
            (Dir (workdir (_download_deployment_requirements solstice healthy_server
                             "/tmp/tmpx" fresh_tmpdir).2))
      ∧ _requirements_file_name solstice ∈ names
      ∧ set_requirements_path solstice
          "/tmp/tmpx/solstice-launcher-1.0.0/docs/requirements.txt"
        = set_requirements_path solstice
            (os_path.join root (_requirements_file_name solstice)).
Proof.
  apply (download_success_records_requirements_path solstice healthy_server
           "/tmp/tmpx" fresh_tmpdir).
  vm_compute. reflexivity.
Defined.

(** ** Loading and uninstalling, continued *)

Lemma bind_Ok {S A B} (m : py S A) (k : A → py S B) s r s' :
  (x <- m ;; k x) s = (Ok r, s') →
  ∃ a s1, m s = (Ok a, s1) ∧ k a s1 = (Ok r, s').
Proof. unfold bind. destruct (m s) as [[a|e] s1]; [eauto | done]. Qed.

Lemma bind_run {S A B} (m : py S A) (k : A → py S B) s a s1 :
  m s = (Ok a, s1) → (x <- m ;; k x) s = k a s1.
Proof. unfold bind. by intros ->. Qed.

Section LoadingMore.

Context (E : environment).

Lemma _get_installation_path_state self fs :
  (_get_installation_path E self fs).2 = if _dev self then fs else located E self fs.
Proof.
  unfold _get_installation_path. destruct (_dev self).
  - by destruct (sys_real_prefix E).
  - unfold bind. rewrite get_config_data_run. unfold lift.
    by destruct (dict_get _ _ _).
Qed.

Lemma _get_installation_path_production self fs :
  _dev self = false →
  os.isdir (app_folder_path E self) fs = true →
  _get_installation_path E self fs
  = (dict_get (stored E self fs) (_install_env_var self) (PyStr ""), fs).
Proof.
  intros Hproduction Hfolder. unfold _get_installation_path. rewrite Hproduction.
  unfold bind. rewrite get_config_data_run, (located_id E self fs Hfolder).
  unfold lift. by destruct (dict_get _ _ _).
Qed.

Lemma located_keeps_dirs self fs q :
  os.isdir q fs = true → os.isdir q (located E self fs) = true.
Proof.
  intros Hq. unfold located.
  destruct (os.isdir (app_folder_path E self) fs); [done|].
  unfold os.isdir in *. cbn [dirs]. apply bool_decide_eq_true.
  apply bool_decide_eq_true in Hq. apply elem_of_union. by right.
Qed.

(** X18.  Uninstalling removes and writes nothing when the user declines, or
    when no install path is registered: every file is as it was and no
    directory is removed.  In development mode, and whenever the
    application folder already exists, the disk is left exactly as it
    was. *)
Theorem uninstall_skipped_changes_nothing self confirm fs
    (Hskip : confirm = false
             ∨ (_dev self = false
                ∧ ∃ d, stored E self fs = PyDict d
                       ∧ d !! _install_env_var self = None)) :
  files (_on_uninstall E self confirm fs).2 = files fs
  ∧ (∀ q, os.isdir q fs = true →
          os.isdir q (_on_uninstall E self confirm fs).2 = true)
  ∧ (_dev self = true ∨ os.isdir (app_folder_path E self) fs = true →
     (_on_uninstall E self confirm fs).2 = fs).
Proof.
  assert (Hstate : (_on_uninstall E self confirm fs).2
                   = if _dev self then fs else located E self fs).
  { destruct (_on_uninstall E self confirm fs) as [r fs'] eqn:Hrun. simpl.
    unfold _on_uninstall, bind at 1 in Hrun.
    pose proof (_get_installation_path_state self fs) as Hfs0.
    destruct Hskip as [-> | (Hproduction & d & Hstored & Hentry)].
    - destruct (_get_installation_path E self fs) as [[v|e] fs0]; simpl in Hfs0;
        [|by injection Hrun as <- <-].
      destruct (truthy v); [|by injection Hrun as <- <-].
      unfold bind at 1, lift in Hrun.
      destruct (as_path v) as [p|e]; [|by injection Hrun as <- <-].
      unfold bind, get in Hrun.
      destruct (os.isdir p fs0); by injection Hrun as <- <-.
    - unfold _get_installation_path in *. rewrite Hproduction in *.
      unfold bind, lift in Hrun, Hfs0. rewrite get_config_data_run in Hrun.
      rewrite Hstored in Hrun. cbn [dict_get] in Hrun. rewrite Hentry in Hrun.
      simpl in Hrun. by injection Hrun as <- <-. }
  rewrite Hstate. destruct (_dev self) eqn:Hdev.
  { split; [reflexivity|]. split; [intros q Hq; exact Hq | intros _; reflexivity]. }
  split; [apply located_files|]. split.
  - intros q Hq. by apply located_keeps_dirs.
  - intros [? | Hfolder]; [done|]. by apply located_id.
Qed.

(** What a confirmed uninstall computes when the environment folder is
    there and the store lies outside it. *)
Lemma _on_uninstall_confirmed_run self fs d p :
  _dev self = false →
  os.isdir (app_folder_path E self) fs = true →
  os.isfile (config_file_path E self) fs = true →
  stored E self fs = PyDict d →
  d !! _install_env_var self = Some (PyStr p) →
  p ≠ "" →
  os.isdir p fs = true →
  os.isdir (os_path.join p (get_clean_name self)) fs = true →
  os.within (os_path.join p (get_clean_name self)) (config_file_path E self) = false →
  os.within (os_path.join p (get_clean_name self)) (app_folder_path E self) = false →
  _on_uninstall E self true fs
  = (Ok tt,
     {| files := <[config_file_path E self :=
                     json_dump E (PyDict (<[_install_env_var self := PyStr ""]> d))]>
                   (files (os.rmtree (os_path.join p (get_clean_name self)) fs).2);
        dirs := dirs (os.rmtree (os_path.join p (get_clean_name self)) fs).2 |}).
Proof.
  intros Hproduction Hfolder Hstore Hstored Hentry Hp Hroot Hvenv Hcfg_out Hfolder_out.
  set (target := os_path.join p (get_clean_name self)) in *.
  unfold _on_uninstall.
  rewrite (bind_run _ _ fs (PyStr p) fs).
  2:{ rewrite _get_installation_path_production by done.
      rewrite Hstored. cbn [dict_get]. by rewrite Hentry. }
  cbn [truthy]. apply String.eqb_neq in Hp as Hp'. rewrite Hp'. cbn [negb].
  unfold bind at 1, lift. cbn [as_path]. unfold bind at 1, get. rewrite Hroot.
  unfold try_except, dirs_to_remove. cbn [for_each].
  fold target. unfold bind at 1 2 3, get. rewrite Hvenv.
  unfold bind at 1, ret at 1.
  destruct (os.rmtree target fs) as [[[]|e] fs1'] eqn:Hrm; simpl;
    [|by unfold os.rmtree, modify in Hrm].
  assert (Hfs1 : fs1' = (os.rmtree target fs).2) by by rewrite Hrm.
  assert (Hstore1 : os.isfile (config_file_path E self) fs1' = true).
  { unfold os.isfile in *. rewrite Hfs1.
    by rewrite (proj2 (rmtree_outside target _ fs Hcfg_out)). }
  assert (Hfolder1 : os.isdir (app_folder_path E self) fs1' = true).
  { rewrite Hfs1. by rewrite (proj1 (rmtree_outside target _ fs Hfolder_out)). }
  assert (Hstored1 : stored E self fs1' = PyDict d).
  { unfold stored in *. rewrite Hfs1.
    by rewrite (proj2 (rmtree_outside target _ fs Hcfg_out)). }
  unfold bind at 1. rewrite (_set_config_present E self) by done.
  rewrite Hstored1. cbn [setitem]. rewrite (located_id E self fs1' Hfolder1).
  done.
Qed.

(** X19.  A confirmed uninstall, outside development mode, of an
    environment folder that exists removes that folder and everything below
    it, leaves every path outside it alone, and clears the install path in
    the store, whose other entries are kept.  The store and its folder are
    assumed to lie outside the environment folder. *)
Theorem uninstall_confirmed_removes_environment self fs d p
    (Hproduction : _dev self = false)
    (Hfolder : os.isdir (app_folder_path E self) fs = true)
    (Hstore : os.isfile (config_file_path E self) fs = true)
    (Hstored : stored E self fs = PyDict d)
    (Hentry : d !! _install_env_var self = Some (PyStr p))
    (Hp : p ≠ "")
    (Hroot : os.isdir p fs = true)
    (Hvenv : os.isdir (os_path.join p (get_clean_name self)) fs = true)
    (Hcfg_out : os.within (os_path.join p (get_clean_name self))
                  (config_file_path E self) = false)
    (Hfolder_out : os.within (os_path.join p (get_clean_name self))
                     (app_folder_path E self) = false) :
  (_on_uninstall E self true fs).1 = Ok tt
  ∧ (∀ q, os.within (os_path.join p (get_clean_name self)) q = true →
          os.exists_ q (_on_uninstall E self true fs).2 = false)
  ∧ (∀ q, os.within (os_path.join p (get_clean_name self)) q = false →
          os.isdir q (_on_uninstall E self true fs).2 = os.isdir q fs
          ∧ (q ≠ config_file_path E self →
             files (_on_uninstall E self true fs).2 !! q = files fs !! q))
  ∧ files (_on_uninstall E self true fs).2 !! config_file_path E self
    = Some (json_dump E (PyDict (<[_install_env_var self := PyStr ""]> d))).
Proof.
  rewrite (_on_uninstall_confirmed_run self fs d p) by done.
  cbn [fst snd]. split; [done|]. split; [|split].
  - intros q Hq.
    destruct (rmtree_inside (os_path.join p (get_clean_name self)) q fs Hq)
      as [Hdir Hfile].
    unfold os.exists_, os.isfile. cbn [files dirs].
    assert (Hneq : config_file_path E self ≠ q) by (intros <-; congruence).
    rewrite lookup_insert_ne by done. rewrite Hfile.
    unfold os.isdir in *. cbn [dirs]. rewrite Hdir.
    by rewrite bool_decide_eq_false_2 by by intros [? ?].
  - intros q Hq.
    destruct (rmtree_outside (os_path.join p (get_clean_name self)) q fs Hq)
      as [Hdir Hfile].
    split; [exact Hdir|]. intros Hneq. cbn [files].
    by rewrite lookup_insert_ne.
  - cbn [files]. apply lookup_insert_eq.
Qed.

Lemma _set_config_keeps_dirs self k v fs q :
  os.isdir q fs = true → os.isdir q (_set_config E self k v fs).2 = true.
Proof.
  intros Hq.
  assert (Hlocated : os.isdir q (located E self fs) = true).
  { unfold located. destruct (os.isdir (app_folder_path E self) fs); [done|].
    unfold os.isdir in *. simpl. apply bool_decide_eq_true.
    apply bool_decide_eq_true in Hq. set_solver. }
  destruct (os.isfile (config_file_path E self) fs) eqn:Hstore.
  - rewrite (_set_config_present E self) by done.
    by destruct (setitem _ k v).
  - by rewrite (_set_config_missing E self) by done.
Qed.

(** X20.  Whenever an install path is returned it is not empty, it is an
    existing directory on the disk as the call leaves it, and it is the
    install path of the updater; nothing else of the updater changes. *)
Theorem set_installation_path_returns_directory self S fs p self' fs'
    (Hrun : _set_installation_path E self S fs = (Ok (Some p, self'), fs')) :
  p ≠ "" ∧ os.isdir p fs' = true ∧ self' = set_install_path self p.
Proof.
  unfold _set_installation_path in Hrun.
  apply bind_Ok in Hrun as (stored_path & fs0 & _ & Hrun).
  apply bind_Ok in Hrun as (install_path & fs1 & _ & Hrun).
  apply bind_Ok in Hrun as (fs2 & fs3 & _ & Hrun).
  apply bind_Ok in Hrun as (old_installation & fs4 & _ & Hrun).
  apply bind_Ok in Hrun as ([] & fs5 & _ & Hrun).
  apply bind_Ok in Hrun as (fs6 & fs7 & _ & Hrun).
  apply bind_Ok in Hrun as ([[chosen path_updated]|] & fs8 & _ & Hrun); [|done].
  apply bind_Ok in Hrun as (fs9 & fs10 & Hget & Hrun).
  injection Hget as <- <-.
  unfold _check_installation_path in Hrun.
  destruct (String.eqb chosen "") eqn:Hempty; [done|].
  destruct (os.isdir chosen fs8) eqn:Hdir; [|done]. cbn [orb negb] in Hrun.
  apply bind_Ok in Hrun as (registered & fs11 & Hregistered & Hrun).
  destruct registered; [|done]. injection Hrun as <- <- <-.
  apply String.eqb_neq in Hempty. split; [done|]. split; [|done].
  destruct path_updated.
  - pose proof (_set_config_keeps_dirs self (_install_env_var self) (PyStr chosen)
                  fs8 chosen Hdir) as Hkept.
    by rewrite Hregistered in Hkept.
  - by injection Hregistered as <-.
Qed.

(** X21.  When the stored install path is missing or no longer a directory
    and the user chooses an existing directory, that directory is returned,
    becomes the install path of the updater and is registered in the store,
    whose other entries and every other file are kept. *)
Theorem set_installation_path_registers_chosen_directory self S fs d p
    (Hproduction : _dev self = false)
    (Hfolder : os.isdir (app_folder_path E self) fs = true)
    (Hstore : os.isfile (config_file_path E self) fs = true)
    (Hstored : stored E self fs = PyDict d)
    (Hentry : default (PyStr "") (d !! _install_env_var self) = PyStr p)
    (Hstale : os.isdir p fs = false)
    (Hchosen : chosen_directory S ≠ "")
    (Hdir : os.isdir (chosen_directory S) fs = true)
    (Hjson : json_load E (json_dump E (PyDict (<[_install_env_var self
                                                 := PyStr (chosen_directory S)]> d)))
             = Some (PyDict (<[_install_env_var self := PyStr (chosen_directory S)]> d))) :
  ∃ fs',
    _set_installation_path E self S fs
    = (Ok (Some (chosen_directory S), set_install_path self (chosen_directory S)), fs')
    ∧ stored E self fs'
      = PyDict (<[_install_env_var self := PyStr (chosen_directory S)]> d)
    ∧ dirs fs' = dirs fs
    ∧ ∀ q, q ≠ config_file_path E self → files fs' !! q = files fs !! q.
Proof.
  eexists. split.
  - unfold _set_installation_path.
    rewrite (bind_run _ _ fs (PyStr p) fs).
    2:{ rewrite _get_installation_path_production by done.
        rewrite Hstored. cbn [dict_get]. by rewrite Hentry. }
    unfold bind at 1, lift. cbn [as_path]. unfold bind at 1, get.
    rewrite Hstale. unfold bind at 1, ret at 1. unfold bind at 1, ret at 1.
    unfold bind at 1. rewrite Hstale. cbn [negb]. rewrite orb_true_r.
    apply String.eqb_neq in Hchosen as Hchosen'. rewrite Hchosen', Hdir. cbn [negb].
    unfold bind at 1, ret at 1. unfold bind at 1.
    unfold _check_installation_path. rewrite Hchosen', Hdir. cbn [orb negb].
    unfold bind at 1. rewrite (_set_config_present E self) by done.
    rewrite Hstored. cbn [setitem negb]. unfold ret. reflexivity.
  - rewrite (located_id E self fs Hfolder). split; [|split; [done|]].
    + unfold stored. cbn [files]. by rewrite lookup_insert_eq, Hjson.
    + intros q Hq. cbn [files]. by rewrite lookup_insert_ne.
Qed.

(** X22.  An incomplete old installation costs the whole install folder:
    when the environment folder under the stored install path lacks one of
    [Include], [Lib] and [Scripts], everything at and below the install
    path itself is removed, not the environment folder alone, whatever
    happens afterwards.  The store and its folder are assumed to lie
    outside the install path. *)
Theorem set_installation_path_removes_install_folder self S fs d p
    (Hproduction : _dev self = false)
    (Hfolder : os.isdir (app_folder_path E self) fs = true)
    (Hstored : stored E self fs = PyDict d)
    (Hentry : d !! _install_env_var self = Some (PyStr p))
    (Hroot : os.isdir p fs = true)
    (Hlisted : os.listed p (get_clean_name self) fs = true)
    (Hvenv : os.isdir (os_path.join p (get_clean_name self)) fs = true)
    (Hpartial : os.listed (os_path.join p (get_clean_name self)) "Include" fs = false
                ∨ os.listed (os_path.join p (get_clean_name self)) "Lib" fs = false
                ∨ os.listed (os_path.join p (get_clean_name self)) "Scripts" fs = false)
    (Hcfg_out : os.within p (config_file_path E self) = false)
    (Hfolder_out : os.within p (app_folder_path E self) = false) :
  ∀ q, os.within p q = true →
       os.exists_ q (_set_installation_path E self S fs).2 = false.
Proof.
  set (fs1 := (os.rmtree p fs).2).
  assert (Hgone : ∀ q, os.within p q = true → os.exists_ q fs1 = false).
  { intros q Hq. destruct (rmtree_inside p q fs Hq) as [Hd Hf].
    unfold os.exists_, os.isfile. fold fs1 in Hd, Hf. rewrite Hd, Hf.
    by rewrite bool_decide_eq_false_2 by by intros [? ?]. }
  assert (Hfolder1 : os.isdir (app_folder_path E self) fs1 = true).
  { unfold fs1. by rewrite (proj1 (rmtree_outside p _ fs Hfolder_out)). }
  assert (Hwrite : ∀ k v q, os.within p q = true →
            os.exists_ q (_set_config E self k v fs1).2 = false).
  { intros k v q Hq. specialize (Hgone q Hq).
    destruct (os.isfile (config_file_path E self) fs1) eqn:Hstore.
    - rewrite (_set_config_present E self) by done.
      rewrite (located_id E self fs1 Hfolder1).
      destruct (setitem _ k v); [|done].
      unfold os.exists_, os.isfile, os.isdir in *. cbn [files dirs snd].
      assert (Hneq : config_file_path E self ≠ q) by (intros <-; congruence).
      by rewrite lookup_insert_ne.
    - rewrite (_set_config_missing E self) by done.
      by rewrite (located_id E self fs1 Hfolder1). }
  assert (Hold : (negb (os.listed (os_path.join p (get_clean_name self)) "Include" fs)
                  || negb (os.listed (os_path.join p (get_clean_name self)) "Lib" fs)
                  || negb (os.listed (os_path.join p (get_clean_name self)) "Scripts" fs))
                 = true).
  { destruct Hpartial as [-> | [-> | ->]]; simpl; by rewrite ?orb_true_r. }
  assert (Hp1 : os.isdir p fs1 = false).
  { apply (rmtree_inside p p fs). unfold os.within. by rewrite String.eqb_refl. }
  intros q Hq. unfold _set_installation_path.
  rewrite (bind_run _ _ fs (PyStr p) fs).
  2:{ rewrite _get_installation_path_production by done.
      rewrite Hstored. cbn [dict_get]. by rewrite Hentry. }
  unfold bind at 1, lift. cbn [as_path]. unfold bind at 1, get.
  rewrite Hroot, Hlisted, Hvenv, Hold.
  unfold bind at 1, ret at 1. unfold bind at 1.
  destruct (os.rmtree p fs) as [[[]|e] fs1'] eqn:Hrm;
    [|by unfold os.rmtree, modify in Hrm].
  assert (Hsame : fs1' = fs1) by (subst fs1; reflexivity || by rewrite Hrm).
  rewrite Hsame. clear Hsame.
  unfold bind at 1. rewrite Hp1. cbn [negb]. rewrite orb_true_r.
  destruct (String.eqb (chosen_directory S) "") eqn:Hchosen.
  { simpl. by apply Hgone. }
  destruct (os.isdir (chosen_directory S) fs1) eqn:Hdir; cbn [negb];
    [|simpl; by apply Hgone].
  unfold bind at 1, ret at 1. unfold bind at 1.
  unfold _check_installation_path. rewrite Hchosen, Hdir. cbn [orb negb].
  unfold bind at 1. specialize (Hwrite (_install_env_var self)
                                  (PyStr (chosen_directory S)) q Hq).
  destruct (_set_config E self _ _ fs1) as [[[]|e] fs2]; simpl in *; done.
Qed.

Lemma _check_venv_folder_exists_run self fs :
  _check_venv_folder_exists self fs
  = os.isdir (_get_default_install_env_var self) fs.
Proof.
  unfold _check_venv_folder_exists.
  destruct (String.eqb _ _) eqn:Hname; [|done].
  apply String.eqb_eq in Hname. unfold _get_default_install_env_var in *.
  exfalso. destruct (get_clean_name self); discriminate.
Qed.

(** X23.  Creating the environment with [force=True] does not remove an
    existing environment folder unless a directory named after the install
    variable ([<clean name>_install]) happens to exist in the
    working directory: without one, no file and no directory is removed,
    the result is what [virtualenv] reports, and a failed [virtualenv]
    leaves the disk as it was. *)
Theorem create_venv_keeps_existing_environment self S force fs venv_path
    (Hvenv : _get_venv_folder_path self = Some venv_path)
    (Hname : os.isdir (_get_default_install_env_var self) fs = false) :
  (_create_venv self S force fs).1 = Ok (virtualenv_ok S)
  ∧ files (_create_venv self S force fs).2 = files fs
  ∧ dirs (_create_venv self S force fs).2
    = (if virtualenv_ok S then {[venv_path]} ∪ dirs fs else dirs fs).
Proof.
  assert (Hrun : _create_venv self S force fs
                 = (Ok (virtualenv_ok S),
                    if virtualenv_ok S
                    then {| files := files fs; dirs := {[venv_path]} ∪ dirs fs |}
                    else fs)).
  { unfold _create_venv. unfold bind at 1, get.
    rewrite _check_venv_folder_exists_run, Hname, Hvenv, andb_false_r. cbn [andb].
    unfold bind at 1, ret at 1. unfold bind, os.makedirs, modify, ret.
    by destruct (virtualenv_ok S). }
  rewrite Hrun. by destruct (virtualenv_ok S).
Qed.

(** X24.  Setting the environment up reports success whenever an install
    path is set, whether or not [virtualenv] succeeded: the result of
    [_create_venv] is not looked at.  It reports failure exactly when no
    install path is set. *)
Theorem setup_environment_ignores_virtualenv_result self S fs :
  (_setup_environment self S fs).1
  = Ok (bool_decide (is_Some (_get_venv_folder_path self))).
Proof.
  unfold _setup_environment.
  destruct (_get_venv_folder_path self) as [venv_path|] eqn:Hvenv; [|done].
  rewrite bool_decide_eq_true_2 by eauto.
  unfold bind at 1, get.
  destruct (_force_venv self || negb (os.isdir venv_path fs)); [|done].
  unfold bind at 1 2, _create_venv, bind at 1, get. rewrite Hvenv.
  destruct (_check_venv_folder_exists self fs); cbn [andb negb]; [|].
  - unfold bind at 1.
    destruct (os.isdir venv_path fs); unfold os.rmtree, modify, ret;
      unfold bind, os.makedirs, modify, ret; by destruct (virtualenv_ok S).
  - unfold bind, os.makedirs, modify, ret. by destruct (virtualenv_ok S).
Qed.

End LoadingMore.

(** X18 on the installed disk, the user declining. *)
Lemma uninstall_skipped_changes_nothing_witness :
  files (_on_uninstall posix_host solstice false installed_disk).2
  = files installed_disk
  ∧ (∀ q, os.isdir q installed_disk = true →
          os.isdir q (_on_uninstall posix_host solstice false installed_disk).2 = true)
  ∧ (_dev solstice = true
     ∨ os.isdir (app_folder_path posix_host solstice) installed_disk = true →
     (_on_uninstall posix_host solstice false installed_disk).2 = installed_disk).
Proof.
  apply (uninstall_skipped_changes_nothing posix_host solstice false installed_disk).
  left. reflexivity.
Defined.

(** X19 on the installed disk. *)
Lemma uninstall_confirmed_removes_environment_witness :
  (_on_uninstall posix_host solstice true installed_disk).1 = Ok tt
  ∧ (∀ q, os.within (os_path.join "/opt/tools" (get_clean_name solstice)) q = true →
          os.exists_ q (_on_uninstall posix_host solstice true installed_disk).2 = false)
  ∧ (∀ q, os.within (os_path.join "/opt/tools" (get_clean_name solstice)) q = false →
          os.isdir q (_on_uninstall posix_host solstice true installed_disk).2
          = os.isdir q installed_disk
          ∧ (q ≠ config_file_path posix_host solstice →
             files (_on_uninstall posix_host solstice true installed_disk).2 !! q
             = files installed_disk !! q))
  ∧ files (_on_uninstall posix_host solstice true installed_disk).2
      !! config_file_path posix_host solstice
    = Some (json_dump posix_host
              (PyDict (<[_install_env_var solstice := PyStr ""]>
                         {[ "solstice_install" := PyStr "/opt/tools" ]}))).
Proof.
  apply (uninstall_confirmed_removes_environment posix_host solstice installed_disk
           {[ "solstice_install" := PyStr "/opt/tools" ]} "/opt/tools").
  - reflexivity.
  - reflexivity.
  - reflexivity.
  - reflexivity.
  - reflexivity.
  - discriminate.
  - reflexivity.
  - reflexivity.
  - reflexivity.
  - reflexivity.
Defined.

(** X20 on a disk whose store registers an existing directory. *)
Lemma set_installation_path_returns_directory_witness :
  "/opt/tools" ≠ ""
  ∧ os.isdir "/opt/tools" registered_disk = true
  ∧ set_install_path solstice "/opt/tools" = set_install_path solstice "/opt/tools".
Proof.
  apply (set_installation_path_returns_directory posix_host solstice smooth_session
           registered_disk "/opt/tools" (set_install_path solstice "/opt/tools")
           registered_disk).
  vm_compute. reflexivity.
Defined.

(** X21 on a disk whose store registers no install path, the user choosing
    [/opt/tools]. *)
Lemma set_installation_path_registers_chosen_directory_witness :
  ∃ fs',
    _set_installation_path posix_host solstice choosing_session unregistered_disk
    = (Ok (Some (chosen_directory choosing_session),
           set_install_path solstice (chosen_directory choosing_session)), fs')
    ∧ stored posix_host solstice fs'
      = PyDict (<[_install_env_var solstice := PyStr (chosen_directory choosing_session)]>
                  {[ "tag" := PyStr "1.0.0" ]})
    ∧ dirs fs' = dirs unregistered_disk
    ∧ ∀ q, q ≠ config_file_path posix_host solstice →
           files fs' !! q = files unregistered_disk !! q.
Proof.
  apply (set_installation_path_registers_chosen_directory posix_host solstice
           choosing_session unregistered_disk {[ "tag" := PyStr "1.0.0" ]} "").
  - reflexivity.
  - reflexivity.
  - reflexivity.
  - reflexivity.
  - reflexivity.
  - reflexivity.
  - discriminate.
  - reflexivity.
  - reflexivity.
Defined.

(** X22 on the installed disk, whose environment folder has [Scripts]
    only. *)
Lemma set_installation_path_removes_install_folder_witness :
  os.within "/opt/tools" "/opt/tools/notes.txt" = true
  ∧ os.exists_ "/opt/tools/notes.txt"
      (_set_installation_path posix_host solstice smooth_session installed_disk).2
    = false.
Proof.
  split; [reflexivity|].
  apply (set_installation_path_removes_install_folder posix_host solstice
           smooth_session installed_disk
           {[ "solstice_install" := PyStr "/opt/tools" ]} "/opt/tools");
    [| | | | | | | | | | reflexivity].
  - reflexivity.
  - reflexivity.
  - reflexivity.
  - reflexivity.
  - reflexivity.
  - reflexivity.
  - reflexivity.
  - left. reflexivity.
  - reflexivity.
  - reflexivity.
Defined.

(** X23 on the installed disk, the environment being re-created by
    force. *)
Lemma create_venv_keeps_existing_environment_witness :
  (_create_venv (set_install_path solstice "/opt/tools") smooth_session true
     installed_disk).1 = Ok (virtualenv_ok smooth_session)
  ∧ files (_create_venv (set_install_path solstice "/opt/tools") smooth_session true
             installed_disk).2 = files installed_disk
  ∧ dirs (_create_venv (set_install_path solstice "/opt/tools") smooth_session true
            installed_disk).2
    = (if virtualenv_ok smooth_session
       then {[ "/opt/tools/solstice" ]} ∪ dirs installed_disk
       else dirs installed_disk).
Proof.
  apply (create_venv_keeps_existing_environment
           (set_install_path solstice "/opt/tools") smooth_session true installed_disk
           "/opt/tools/solstice"); reflexivity.
Defined.

(** ** The packaged configuration *)

(** X25.  Reading the packaged configuration returns the empty mapping when
    none of the places it looks at holds a file; what it returns otherwise
    is the JSON value of one of these files; and a file that is not valid
    JSON is not tolerated here, unlike in the store: the [ValueError] of
    [json.load] leaves the method, only [RuntimeError] being handled. *)
Theorem read_config_outcome E B fs :
  ((∀ c, c ∈ packaged_config_candidates E B → os.isfile c fs = false) →
   _read_config E B fs = Ok (PyDict ∅))
  ∧ (∀ v, _read_config E B fs = Ok v →
          v = PyDict ∅
          ∨ ∃ c text, c ∈ packaged_config_candidates E B
                      ∧ files fs !! c = Some text ∧ json_load E text = Some v)
  ∧ (∀ e, _read_config E B fs = Raise e →
          e = ValueError
          ∧ ∃ c text, c ∈ packaged_config_candidates E B
                      ∧ files fs !! c = Some text ∧ json_load E text = None).
Proof.
  unfold _read_config, packaged_config_candidates, os.isfile.
  set (c1 := os_path.join (os_path.join (module_dir B) "scripts") "config.json").
  set (c2 := os_path.join
               (os_path.join (os_path.dirname (sys_executable E)) "resources")
               "config.json").
  assert (Hread : ∀ c, c ∈ c1 :: c2 :: match _MEIPASS B with
                                       | Some meipass =>
                                           [os_path.join (os_path.join meipass "resources")
                                              "config.json"]
                                       | None => []
                                       end →
            ((∀ c', c' ∈ [c] → bool_decide (is_Some (files fs !! c')) = false) →
             match files fs !! c with
             | Some text => match json_load E text with
                            | Some loaded => Ok loaded
                            | None => Raise ValueError
                            end
             | None => Ok (PyDict ∅)
             end = Ok (PyDict ∅))
            ∧ (∀ v, match files fs !! c with
                    | Some text => match json_load E text with
                                   | Some loaded => Ok loaded
                                   | None => Raise ValueError
                                   end
                    | None => Ok (PyDict ∅)
                    end = Ok v →
                    v = PyDict ∅
                    ∨ ∃ c0 text, c0 ∈ c1 :: c2 :: match _MEIPASS B with
                                                  | Some meipass =>
                                                      [os_path.join
                                                         (os_path.join meipass "resources")
                                                         "config.json"]
                                                  | None => []
                                                  end
                                 ∧ files fs !! c0 = Some text
                                 ∧ json_load E text = Some v)
            ∧ (∀ e, match files fs !! c with
                    | Some text => match json_load E text with
                                   | Some loaded => Ok loaded
                                   | None => Raise ValueError
                                   end
                    | None => Ok (PyDict ∅)
                    end = Raise e →
                    e = ValueError
                    ∧ ∃ c0 text, c0 ∈ c1 :: c2 :: match _MEIPASS B with
                                                  | Some meipass =>
                                                      [os_path.join
                                                         (os_path.join meipass "resources")
                                                         "config.json"]
                                                  | None => []
                                                  end
                                 ∧ files fs !! c0 = Some text
                                 ∧ json_load E text = None)).
  { intros c Hc. destruct (files fs !! c) as [text|] eqn:Htext.
    - destruct (json_load E text) as [loaded|] eqn:Hload.
      + split; [|split].
        * intros Habsent. specialize (Habsent c ltac:(apply elem_of_cons; by left)).
          rewrite Htext in Habsent. apply bool_decide_eq_false in Habsent.
          destruct Habsent. eauto.
        * intros v [= <-]. right. by exists c, text.
        * done.
      + split; [|split].
        * intros Habsent. specialize (Habsent c ltac:(apply elem_of_cons; by left)).
          rewrite Htext in Habsent. apply bool_decide_eq_false in Habsent.
          destruct Habsent. eauto.
        * done.
        * intros e [= <-]. split; [done|]. by exists c, text.
    - split; [done|]. split; [|done]. intros v [= <-]. by left. }
  cbn [app].
  assert (H1 : c1 ∈ c1 :: c2 :: match _MEIPASS B with
                                | Some meipass =>
                                    [os_path.join (os_path.join meipass "resources")
                                       "config.json"]
                                | None => []
                                end) by (apply elem_of_cons; by left).
  assert (H2 : c2 ∈ c1 :: c2 :: match _MEIPASS B with
                                | Some meipass =>
                                    [os_path.join (os_path.join meipass "resources")
                                       "config.json"]
                                | None => []
                                end)
    by (apply elem_of_cons; right; apply elem_of_cons; by left).
  destruct (bool_decide (is_Some (files fs !! c1))) eqn:Hc1; cbn [negb].
  { destruct (Hread c1 H1) as (Ha & Hb & Hc). split; [|done].
    intros Habsent. apply Ha. intros c' ->%list_elem_of_singleton. by apply Habsent. }
  destruct (bool_decide (is_Some (files fs !! c2))) eqn:Hc2; cbn [negb].
  { destruct (Hread c2 H2) as (Ha & Hb & Hc). split; [|done].
    intros Habsent. apply Ha. intros c' ->%list_elem_of_singleton. by apply Habsent. }
  destruct (_MEIPASS B) as [meipass|].
  - set (c3 := os_path.join (os_path.join meipass "resources") "config.json") in *.
    assert (H3 : c3 ∈ [c1; c2; c3]) by (do 2 (apply elem_of_cons; right);
                                         apply elem_of_cons; by left).
    destruct (Hread c3 H3) as (Ha & Hb & Hc). split; [|done].
    intros Habsent. apply Ha. intros c' ->%list_elem_of_singleton. by apply Habsent.
  - destruct (Hread c2 H2) as (Ha & Hb & Hc). split; [|done].
    intros Habsent. apply Ha. intros c' ->%list_elem_of_singleton. by apply Habsent.
Qed.

(** X25 on a frozen executable with no configuration packaged. *)
Lemma read_config_outcome_witness :
  ((∀ c, c ∈ packaged_config_candidates posix_host frozen_bundle →
         os.isfile c empty_disk = false) →
   _read_config posix_host frozen_bundle empty_disk = Ok (PyDict ∅))
  ∧ (∀ v, _read_config posix_host frozen_bundle empty_disk = Ok v →
          v = PyDict ∅
          ∨ ∃ c text, c ∈ packaged_config_candidates posix_host frozen_bundle
                      ∧ files empty_disk !! c = Some text
                      ∧ json_load posix_host text = Some v)
  ∧ (∀ e, _read_config posix_host frozen_bundle empty_disk = Raise e →
          e = ValueError
          ∧ ∃ c text, c ∈ packaged_config_candidates posix_host frozen_bundle
                      ∧ files empty_disk !! c = Some text
                      ∧ json_load posix_host text = None).
Proof. apply (read_config_outcome posix_host frozen_bundle empty_disk). Defined.

(** ** What uninstalling removes *)







Section UninstallFacts.

Context (E : environment) (self : updater).










End UninstallFacts.

